(** * Moodly sentiment scripts: the text-to-feature pipeline and its artefacts

    A shallow embedding of the four Python scripts under [scripts/]:
    [fast_85_accuracy_model.py], [convert_to_coreml.py],
    [train_custom_model.py] and [advanced_ensemble_model.py].

    - A Python [str] is a list of Unicode code points ([list N]).
    - [str.lower] and the regular-expression class [\w] depend on the Unicode
      tables of the interpreter; they are operations of the class [PyStr].
      Whitespace ([\s], [str.split], [str.strip]) is the fixed set [isspace].
    - NumPy's float64 arithmetic is the class [Float64]: no algebraic law is
      assumed of it.
    - A raised exception is a value of [pyerr] on the left of a sum. *)

From Stdlib Require Import NArith Ascii String QArith_base.
From stdpp Require Import base option list gmap strings.

Local Open Scope N_scope.

(** ** Python strings *)

Module Py.

(** A literal: the code points of an ASCII string. *)
Definition txt (s : string) : list N := N_of_ascii <$> list_ascii_of_string s.

(** What a cell of the data frame, or an argument of a preprocessing
    function, can be: a missing value ([pd.isna] holds) or a value whose
    [str(...)] is [s]; a cell read from the CSV file is missing or the string
    [s] itself. *)
Inductive cell :=
  | NA
  | Val (s : list N).

Inductive pyerr :=
  | ValueError
  | ZeroDivision
  | Raised (what : string).

(** The interpreter's Unicode tables. *)
Class PyStr := {
  str_lower : list N → list N;
  re_word : N → bool
}.

Definition in_range (lo hi c : N) : bool := (lo <=? c) && (c <=? hi).

Definition is_ascii_lower (c : N) : bool := in_range 97 122 c.
Definition is_ascii_upper (c : N) : bool := in_range 65 90 c.
Definition is_ascii_digit (c : N) : bool := in_range 48 57 c.

(** The four characters [.,!?] that the scripts keep. *)
Definition is_kept_punct (c : N) : bool :=
  (c =? 46) || (c =? 44) || (c =? 33) || (c =? 63).

(** [Py_UNICODE_ISSPACE]: what [\s], [split()] and [strip()] treat as
    whitespace. *)
Definition isspace (c : N) : bool :=
  in_range 9 13 c || in_range 28 32 c || (c =? 133) || (c =? 160)
  || (c =? 5760) || in_range 8192 8202 c || (c =? 8232) || (c =? 8233)
  || (c =? 8239) || (c =? 8287) || (c =? 12288).

Definition space : N := 32.

(** A character that has no lowercase mapping of its own: whitespace, and
    ASCII outside [A-Z]. *)
Definition caseless (c : N) : bool :=
  isspace c || ((c <? 128) && negb (is_ascii_upper c)).

(** [[^a-zA-Z\s.,!?]] and [[^a-zA-Z0-9\s.,!?]], as the characters kept. *)
Definition keep_alpha (c : N) : bool :=
  is_ascii_lower c || is_ascii_upper c || isspace c || is_kept_punct c.

Definition keep_alnum (c : N) : bool :=
  is_ascii_lower c || is_ascii_upper c || is_ascii_digit c || isspace c
  || is_kept_punct c.

(** [re.sub(r'[^...]', '', text)]. *)
Definition sub_outside (keep : N → bool) (s : list N) : list N :=
  List.filter keep s.

(** [re.sub(r'\s+', ' ', text)]: the scan is outside or inside a run. *)
Fixpoint sub_spaces (inside : bool) (s : list N) : list N :=
  match s with
  | [] => []
  | c :: rest =>
      if isspace c then
        if inside then sub_spaces true rest else space :: sub_spaces true rest
      else c :: sub_spaces false rest
  end.

Fixpoint starts_with (p s : list N) : bool :=
  match p, s with
  | [], _ => true
  | _ :: _, [] => false
  | a :: p', b :: s' => (a =? b) && starts_with p' s'
  end.

(** [\S] at offset [n]. *)
Definition nonspace_at (n : nat) (s : list N) : bool :=
  match drop n s with
  | c :: _ => negb (isspace c)
  | [] => false
  end.

(** [http\S+|www\S+|https\S+] matches at the head of [s]. *)
Definition url_at (s : list N) : bool :=
  (starts_with (txt "http") s && nonspace_at 4 s)
  || (starts_with (txt "www") s && nonspace_at 3 s)
  || (starts_with (txt "https") s && nonspace_at 5 s).

(** [re.sub(r'http\S+|www\S+|https\S+', '', text)]: a match runs to the end
    of the run of non-whitespace it starts in. *)
Fixpoint sub_urls (inside : bool) (s : list N) : list N :=
  match s with
  | [] => []
  | c :: rest =>
      if inside && negb (isspace c) then sub_urls true rest
      else if url_at s then sub_urls true rest
      else c :: sub_urls false rest
  end.

(** [@\w+|#\w+] matches at the head of [s]. *)
Definition mention_at `{PyStr} (s : list N) : bool :=
  match s with
  | c :: d :: _ => ((c =? 64) || (c =? 35)) && re_word d
  | _ => false
  end.

(** [re.sub(r'@\w+|#\w+', '', text)]. *)
Fixpoint sub_mentions `{PyStr} (inside : bool) (s : list N) : list N :=
  match s with
  | [] => []
  | c :: rest =>
      if inside && re_word c then sub_mentions true rest
      else if mention_at s then sub_mentions true rest
      else c :: sub_mentions false rest
  end.

(** [re.search] of the two patterns. *)
Fixpoint has_url (s : list N) : bool :=
  match s with
  | [] => false
  | _ :: rest => url_at s || has_url rest
  end.

Fixpoint has_mention `{PyStr} (s : list N) : bool :=
  match s with
  | [] => false
  | _ :: rest => mention_at s || has_mention rest
  end.

Fixpoint lstrip (s : list N) : list N :=
  match s with
  | [] => []
  | c :: rest => if isspace c then lstrip rest else s
  end.

Definition rstrip (s : list N) : list N := reverse (lstrip (reverse s)).

(** [text.strip()]. *)
Definition strip (s : list N) : list N := rstrip (lstrip s).

(** [text.split()]: the maximal runs of non-whitespace; [cur] is the run
    being read, last character first. *)
Fixpoint split_from (cur : list N) (s : list N) : list (list N) :=
  match s with
  | [] => match cur with [] => [] | _ => [reverse cur] end
  | c :: rest =>
      if isspace c then
        match cur with
        | [] => split_from [] rest
        | _ => reverse cur :: split_from [] rest
        end
      else split_from (c :: cur) rest
  end.

Definition split (s : list N) : list (list N) := split_from [] s.

(** [text.count(c)] for one character, and [text.count(c + c)]: occurrences
    are counted left to right without overlap. *)
Definition count_char (c : N) (s : list N) : nat :=
  length (List.filter (N.eqb c) s).

Fixpoint count_pair (c : N) (s : list N) : nat :=
  match s with
  | a :: (b :: rest) as tl =>
      if (a =? c) && (b =? c) then S (count_pair c rest) else count_pair c tl
  | _ => 0%nat
  end.

(** The ASCII part of the tables: [str.lower] and [\w] as they act on ASCII
    text. *)
Definition ascii_lower_char (c : N) : N :=
  if is_ascii_upper c then c + 32 else c.

Definition ascii_word (c : N) : bool :=
  is_ascii_lower c || is_ascii_upper c || is_ascii_digit c || (c =? 95).

#[export] Instance ascii_str : PyStr := {|
  str_lower := map ascii_lower_char;
  re_word := ascii_word
|}.

(** ** Exceptions *)

#[export] Instance result_ret : MRet (sum pyerr) := λ A, inr.
#[export] Instance result_bind : MBind (sum pyerr) := λ A B f m,
  match m with
  | inl e => inl e
  | inr a => f a
  end.
#[export] Instance result_fmap : FMap (sum pyerr) := λ A B f m,
  match m with
  | inl e => inl e
  | inr a => inr (f a)
  end.

(** ** NumPy *)

(** float64: the conversion of a Python [int], addition and true division. *)
Class Float64 := {
  F : Type;
  f_of_nat : nat → F;
  fadd : F → F → F;
  fdiv : F → F → F
}.

(** A Python number in a list that NumPy is yet to convert. *)
Inductive pynum `{Float64} :=
  | PyInt (n : nat)
  | PyFloat (x : F).

Definition to_f64 `{Float64} (x : pynum) : F :=
  match x with
  | PyInt n => f_of_nat n
  | PyFloat x => x
  end.

Definition np_zeros `{Float64} (n : nat) : list F := replicate n (f_of_nat 0).

(** [a += v] on a one-dimensional [a]: [v] has the shape of [a], or one
    element that is broadcast; any other shape raises. *)
Definition np_iadd `{Float64} (a v : list F) : pyerr + list F :=
  if decide (length v = length a) then inr (zip_with fadd a v)
  else
    match v with
    | [x] => inr ((λ y, fadd y x) <$> a)
    | _ => inl ValueError
    end.

(** [a /= n] for a Python [int] [n]. NumPy stores nan or inf on [n = 0] and
    warns; here that division is reported as [ZeroDivision], so that its
    absence is a statement about the calling code. *)
Definition np_idiv `{Float64} (a : list F) (n : nat) : pyerr + list F :=
  match n with
  | O => inl ZeroDivision
  | S _ => inr ((λ y, fdiv y (f_of_nat n)) <$> a)
  end.

(** [np.mean] of a non-empty list of Python [int]s: the sum, converted, over
    the count. *)
Definition np_mean `{Float64} (xs : list nat) : F :=
  fdiv (f_of_nat (sum_list xs)) (f_of_nat (length xs)).

(** [np.hstack] of three blocks whose rows belong to the same [n] texts.
    With no text the first block is the one-dimensional [np.array([])] and
    the stacking raises. *)
Definition np_hstack3 `{Float64} (a b c : list (list F))
    : pyerr + list (list F) :=
  match a with
  | [] => inl ValueError
  | _ :: _ =>
      if decide (length b = length a ∧ length c = length a)
      then inr (zip_with app a (zip_with app b c))
      else inl ValueError
  end.

(** ** scikit-learn, pandas *)

(** The library objects the scripts hold and call. [tfidf_row v t] is the row
    of [v.transform([.., t, ..]).toarray()] that belongs to [t]. *)
Class Sklearn `{Float64} := {
  Vectorizer : Type;
  tfidf_fit : list (list N) → pyerr + Vectorizer;
  n_features : Vectorizer → nat;
  tfidf_row : Vectorizer → list N → list F;
  Ensemble : Type;
  Scaler : Type;
  scaler_transform : Scaler → list F → list F;
  ensemble_predict : Ensemble → list F → list N;
  ensemble_predict_proba : Ensemble → list F → list F
}.

(** A [TfidfVectorizer] object is created unfitted. *)
Inductive tfidf_state `{Sklearn} :=
  | Unfitted
  | Fitted (v : Vectorizer).

(** [obj.transform(texts).toarray()] for what the attribute holds. *)
Definition tfidf_transform `{Sklearn} (o : option tfidf_state)
    (texts : list (list N)) : pyerr + list (list F) :=
  match o with
  | None => inl (Raised "AttributeError")
  | Some Unfitted => inl (Raised "NotFittedError")
  | Some (Fitted v) => inr (tfidf_row v <$> texts)
  end.

(** [df.sample(n=..., random_state=42)]. *)
Class Pandas := {
  df_sample : ∀ A : Type, nat → list A → list A
}.

(** ** Files and the console *)

(** What [joblib.dump] is given. *)
Inductive pickled `{Sklearn} :=
  | PickledEnsemble (e : Ensemble)
  | PickledScaler (s : Scaler)
  | PickledTfidf (o : option tfidf_state)
  | PickledGlove (g : gmap (list N) (list F)).

Record world `{Sklearn} := {
  files : gmap string pickled;
  stdout : list string
}.

(** [joblib.dump(obj, path)]; the write is taken to succeed. [print]
    appends a line to the console; the emoji that open the scripts'
    messages are left out of the lines. *)
Definition joblib_dump `{Sklearn} (obj : pickled) (path : string) (w : world)
    : world :=
  {| files := <[path := obj]> (files w); stdout := stdout w |}.

Definition print `{Sklearn} (msg : string) (w : world) : world :=
  {| files := files w; stdout := stdout w ++ [msg] |}.

(** ** Lexicons and the label map *)

Definition positive_words : list (list N) :=
  txt <$> ["good"; "great"; "excellent"; "amazing"; "wonderful"; "fantastic";
           "love"; "happy"; "joy"; "smile"; "beautiful"; "perfect"; "awesome";
           "brilliant"]%string.

Definition negative_words : list (list N) :=
  txt <$> ["bad"; "terrible"; "awful"; "horrible"; "hate"; "sad"; "angry";
           "frustrated"; "disappointed"; "worst"; "hate"; "disgusting";
           "annoying"]%string.

(** [sum(1 for word in words if word.lower() in lexicon)]. *)
Definition count_in `{PyStr} (lexicon words : list (list N)) : nat :=
  length (List.filter (λ word, bool_decide (str_lower word ∈ lexicon)) words).

Definition emotion_to_sentiment : gmap (list N) (list N) :=
  list_to_map
    [(txt "happy", txt "positive"); (txt "love", txt "positive");
     (txt "surprise", txt "neutral"); (txt "anger", txt "negative");
     (txt "sadness", txt "negative"); (txt "fear", txt "negative")].

Record csv_row := { Text : cell; Emotion : cell }.

(** [df['Emotion'].map(emotion_to_sentiment)] on one value. *)
Definition map_emotion (e : cell) : cell :=
  match e with
  | NA => NA
  | Val s =>
      match emotion_to_sentiment !! s with
      | Some label => Val label
      | None => NA
      end
  end.

Definition notna (c : cell) : bool :=
  match c with
  | NA => false
  | Val _ => true
  end.

End Py.

Import Py.

(** ** fast_85_accuracy_model.py *)

Module Fast85AccuracyModel.
Section Script.
Context `{PyStr} `{Sklearn} `{Pandas}.

(** The attributes of a [Fast85AccuracyModel] that the methods below read or
    write. *)
Record model := {
  glove_embeddings : gmap (list N) (list F);
  ensemble_model : option Ensemble;
  scaler : Scaler;
  tfidf_vectorizer : option tfidf_state
}.

Definition embedding_dim : nat := 100.

Definition smart_preprocess_text (text : cell) : list N :=
  match text with
  | NA => []
  | Val s =>
      let text := str_lower s in
      let text := sub_outside keep_alpha text in
      strip (sub_spaces false text)
  end.

(** The [for word in words] loop of [text_to_glove_vector]. *)
Fixpoint glove_loop (glove : gmap (list N) (list F)) (words : list (list N))
    (embedding_vector : list F) (word_count : nat) : pyerr + (list F * nat) :=
  match words with
  | [] => inr (embedding_vector, word_count)
  | word :: rest =>
      match glove !! word with
      | Some v =>
          embedding_vector ← np_iadd embedding_vector v;
          glove_loop glove rest embedding_vector (S word_count)
      | None => glove_loop glove rest embedding_vector word_count
      end
  end.

Definition text_to_glove_vector (self : model) (text : list N)
    (max_length : nat) : pyerr + list F :=
  let words := take max_length (split text) in
  '(embedding_vector, word_count) ←
    glove_loop (glove_embeddings self) words (np_zeros embedding_dim) 0;
  if decide (0 < word_count)%nat then np_idiv embedding_vector word_count
  else inr embedding_vector.

(** The [for text in texts] loop of [extract_smart_features]; [features] is
    the list appended to. *)
Fixpoint smart_features_loop (texts : list (list N))
    (features : list (list pynum)) : list (list pynum) :=
  match texts with
  | [] => features
  | text :: rest =>
      let text_length := length text in
      let word_count := length (split text) in
      let exclamation_count := count_char 33 text in
      let question_count := count_char 63 text in
      let words := split text in
      let positive_count := count_in positive_words words in
      let negative_count := count_in negative_words words in
      let multiple_exclamation := count_pair 33 text in
      let multiple_question := count_pair 63 text in
      let avg_word_length :=
        match words with
        | [] => PyInt 0
        | _ :: _ => PyFloat (np_mean (length <$> words))
        end in
      let text_features :=
        [PyInt text_length; PyInt word_count; PyInt exclamation_count;
         PyInt question_count; PyInt positive_count; PyInt negative_count;
         PyInt multiple_exclamation; PyInt multiple_question;
         avg_word_length] in
      smart_features_loop rest (features ++ [text_features])
  end.

(** [np.array(features)]: every entry converted to float64. *)
Definition extract_smart_features (texts : list (list N)) : list (list F) :=
  map (map to_f64) (smart_features_loop texts []).

(** [csv] is what [pd.read_csv("Emotion_final.csv")] returned. *)
Definition load_emotion_dataset (csv : list csv_row)
    : list (list N) * list cell :=
  let df := (λ r, (r, map_emotion (Emotion r))) <$> csv in
  let df := List.filter (λ r, notna (Text r.1) && notna r.2) df in
  let df := (λ r, (r, smart_preprocess_text (Text r.1))) <$> df in
  let df := List.filter (λ r, bool_decide (10 < length r.2)%nat) df in
  let df :=
    if decide (6000 < N.of_nat (length df)) then df_sample _ (N.to_nat 6000) df
    else df in
  (snd <$> df, (λ r, r.1.2) <$> df).

(** Console output of this method is left out. The unfitted vectorizer is
    stored in the attribute before [fit_transform] runs. *)
Definition prepare_smart_features (self : model) (texts : list (list N))
    : (pyerr + list (list F)) * model :=
  match mapM (λ text, text_to_glove_vector self text 40) texts with
  | inl e => (inl e, self)
  | inr glove_features =>
      let '(tfidf_features, self) :=
        match tfidf_vectorizer self with
        | None =>
            let created :=
              {| glove_embeddings := glove_embeddings self;
                 ensemble_model := ensemble_model self;
                 scaler := scaler self;
                 tfidf_vectorizer := Some Unfitted |} in
            match tfidf_fit texts with
            | inl e => (inl e, created)
            | inr v =>
                (inr (tfidf_row v <$> texts),
                 {| glove_embeddings := glove_embeddings self;
                    ensemble_model := ensemble_model self;
                    scaler := scaler self;
                    tfidf_vectorizer := Some (Fitted v) |})
            end
        | Some _ => (tfidf_transform (tfidf_vectorizer self) texts, self)
        end in
      match tfidf_features with
      | inl e => (inl e, self)
      | inr tfidf_features =>
          let text_features := extract_smart_features texts in
          (np_hstack3 glove_features tfidf_features text_features, self)
      end
  end.

Definition save_optimized_model (self : model) (model_name : string)
    (w : world) : bool * world :=
  match ensemble_model self with
  | Some e =>
      let w := joblib_dump (PickledEnsemble e)
                 (model_name +:+ "_ensemble.joblib") w in
      let w := joblib_dump (PickledScaler (scaler self))
                 (model_name +:+ "_scaler.joblib") w in
      let w := joblib_dump (PickledTfidf (tfidf_vectorizer self))
                 (model_name +:+ "_tfidf.joblib") w in
      let w := joblib_dump (PickledGlove (glove_embeddings self))
                 (model_name +:+ "_glove.joblib") w in
      let w := print ("Optimized model saved: " +:+ model_name
                        +:+ "_ensemble.joblib") w in
      let w := print ("Scaler saved: " +:+ model_name +:+ "_scaler.joblib") w in
      let w := print ("TF-IDF vectorizer saved: " +:+ model_name
                        +:+ "_tfidf.joblib") w in
      let w := print ("GloVe embeddings saved: " +:+ model_name
                        +:+ "_glove.joblib") w in
      (true, w)
  | None => (false, w)
  end.

End Script.
End Fast85AccuracyModel.



(** ** convert_to_coreml.py *)

Module ConvertToCoreml.
Section Script.
Context `{PyStr} `{Sklearn}.

Definition preprocess_text (text : cell) : list N :=
  match text with
  | NA => []
  | Val s =>
      let text := str_lower s in
      let text := sub_outside keep_alpha text in
      strip (sub_spaces false text)
  end.

Fixpoint glove_loop (glove_embeddings : gmap (list N) (list F))
    (words : list (list N)) (embedding_vector : list F) (word_count : nat)
    : pyerr + (list F * nat) :=
  match words with
  | [] => inr (embedding_vector, word_count)
  | word :: rest =>
      match glove_embeddings !! word with
      | Some v =>
          embedding_vector ← np_iadd embedding_vector v;
          glove_loop glove_embeddings rest embedding_vector (S word_count)
      | None => glove_loop glove_embeddings rest embedding_vector word_count
      end
  end.

Definition text_to_glove_vector (text : list N)
    (glove_embeddings : gmap (list N) (list F)) (max_length : nat)
    : pyerr + list F :=
  let words := take max_length (split text) in
  '(embedding_vector, word_count) ←
    glove_loop glove_embeddings words (np_zeros 100) 0;
  if decide (0 < word_count)%nat then np_idiv embedding_vector word_count
  else inr embedding_vector.

Definition extract_smart_features (text : list N) : list pynum :=
  let text_length := length text in
  let word_count := length (split text) in
  let exclamation_count := count_char 33 text in
  let question_count := count_char 63 text in
  let words := split text in
  let positive_count := count_in positive_words words in
  let negative_count := count_in negative_words words in
  let multiple_exclamation := count_pair 33 text in
  let multiple_question := count_pair 63 text in
  let avg_word_length :=
    match words with
    | [] => PyInt 0
    | _ :: _ => PyFloat (np_mean (length <$> words))
    end in
  [PyInt text_length; PyInt word_count; PyInt exclamation_count;
   PyInt question_count; PyInt positive_count; PyInt negative_count;
   PyInt multiple_exclamation; PyInt multiple_question; avg_word_length].

(** The attributes of a [SentimentPredictor], as loaded from the four
    [joblib] files. *)
Record predictor := {
  ensemble_model : Ensemble;
  scaler : Scaler;
  tfidf_vectorizer : option tfidf_state;
  glove_embeddings : gmap (list N) (list F)
}.

(** [predict_sentiment] up to [combined_features]. *)
Definition combined_features (self : predictor) (text : cell)
    : pyerr + list F :=
  let processed_text := preprocess_text text in
  glove_vector ←
    text_to_glove_vector processed_text (glove_embeddings self) 40;
  tfidf ← tfidf_transform (tfidf_vectorizer self) [processed_text];
  match tfidf with
  | [] => inl (Raised "IndexError")
  | tfidf_features :: _ =>
      let smart_features := extract_smart_features processed_text in
      mret (glove_vector ++ tfidf_features ++ (to_f64 <$> smart_features))
  end.

Definition predict_sentiment (self : predictor) (text : cell)
    : pyerr + (list N * list F) :=
  combined_features ← combined_features self text;
  let scaled_features := scaler_transform (scaler self) combined_features in
  let prediction := ensemble_predict (ensemble_model self) scaled_features in
  let probabilities :=
    ensemble_predict_proba (ensemble_model self) scaled_features in
  mret (prediction, probabilities).

End Script.
End ConvertToCoreml.

(** ** train_custom_model.py *)

Module EmotionModelTrainer.
Section Script.
Context `{PyStr} `{Pandas}.

(** The Keras model, the converted CoreML model and the tokenizer's word
    index are library objects. *)
Context {KerasModel MLModel WordIndex : Type}.

Definition preprocess_text (text : cell) : list N :=
  match text with
  | NA => []
  | Val s =>
      let text := str_lower s in
      let text := sub_urls false text in
      let text := sub_mentions false text in
      let text := sub_spaces false text in
      let text := sub_outside keep_alnum text in
      strip text
  end.

(** [csv] is what [pd.read_csv(file_path)] returned; the frame that is
    returned keeps the columns [Text], [Emotion] and [sentiment]. *)
Definition load_emotion_dataset (csv : list csv_row)
    : list (csv_row * cell) :=
  let df := (λ r, (r, map_emotion (Emotion r))) <$> csv in
  let df := List.filter (λ r, notna (Text r.1) && notna r.2) df in
  let df := List.filter (λ r, notna r.2) df in
  df.

Definition prepare_training_data (df : list (csv_row * cell))
    (max_samples : nat) : list (list N) * list cell :=
  let df :=
    if decide (max_samples < length df)%nat then df_sample _ max_samples df
    else df in
  let df := (λ r, (r, preprocess_text (Text r.1))) <$> df in
  let df := List.filter (λ r, bool_decide (10 < length r.2)%nat) df in
  (snd <$> df, (λ r, r.1.2) <$> df).

Record trainer := {
  model : option KerasModel;
  vocab_size : nat;
  max_length : nat;
  word_index : WordIndex
}.

Record tokenizer_config := {
  cfg_vocab_size : nat;
  cfg_max_length : nat;
  cfg_word_index : WordIndex
}.

(** The calls into coremltools and the file system that [convert_to_coreml]
    makes; each returns or raises. *)
Record coreml_api := {
  ct_convert : KerasModel → pyerr + MLModel;
  set_input_description : MLModel → pyerr + MLModel;
  set_output_description : MLModel → pyerr + MLModel;
  mlmodel_save : MLModel → string → pyerr + unit;
  json_dump : tokenizer_config → string → pyerr + unit
}.

(** What the method does to the outside, in order. [Converted] records a
    call of [ct.convert]; a write is recorded when it returned. *)
Inductive event :=
  | Printed (msg : string)
  | Converted
  | SavedPackage (path : string)
  | WroteJson (path : string) (cfg : tokenizer_config).

(** A computation that emits events and returns or raises. *)
Definition io (A : Type) : Type := list event * (pyerr + A).

Definition io_ret {A} (a : A) : io A := ([], inr a).

Definition io_bind {A B} (m : io A) (k : A → io B) : io B :=
  match m with
  | (evs, inl e) => (evs, inl e)
  | (evs, inr a) => let '(evs', r) := k a in (evs ++ evs', r)
  end.

Definition emit (ev : event) : io unit := ([ev], inr tt).

(** A library call: the events [before] are emitted when it is made, the
    events [done] when it has returned. *)
Definition call {A} (before : list event) (r : pyerr + A)
    (done : A → list event) : io A :=
  match r with
  | inl e => (before, inl e)
  | inr a => (before ++ done a, inr a)
  end.

Definition str_of_err (e : pyerr) : string :=
  match e with
  | ValueError => "ValueError"
  | ZeroDivision => "ZeroDivisionError"
  | Raised what => what
  end.

(** The body of the [try]. *)
Definition convert_and_save (api : coreml_api) (self : trainer)
    (m : KerasModel) (model_name : string) : io unit :=
  io_bind (call [Converted] (ct_convert api m) (λ _, [])) (λ coreml_model,
  io_bind (call [] (set_input_description api coreml_model) (λ _, []))
    (λ coreml_model,
  io_bind (call [] (set_output_description api coreml_model) (λ _, []))
    (λ coreml_model,
  let model_path := model_name +:+ ".mlpackage" in
  io_bind (call [] (mlmodel_save api coreml_model model_path)
             (λ _, [SavedPackage model_path])) (λ _,
  io_bind (emit (Printed ("CoreML model saved: " +:+ model_path))) (λ _,
  let tokenizer_config :=
    {| cfg_vocab_size := vocab_size self;
       cfg_max_length := max_length self;
       cfg_word_index := word_index self |} in
  io_bind (call [] (json_dump api tokenizer_config "tokenizer_config.json")
             (λ _, [WroteJson "tokenizer_config.json" tokenizer_config]))
    (λ _,
  emit (Printed "Tokenizer config saved: tokenizer_config.json"))))))).

(** [try: ... except Exception as e: print(...); return False]. *)
Definition convert_to_coreml (api : coreml_api) (self : trainer)
    (model_name : string) : io bool :=
  io_bind (emit (Printed "Converting to CoreML...")) (λ _,
  match model self with
  | Some m =>
      match convert_and_save api self m model_name with
      | (evs, inl e) =>
          (evs ++ [Printed ("CoreML conversion failed: " +:+ str_of_err e)],
           inr false)
      | (evs, inr _) => (evs, inr true)
      end
  | None => ([Printed "No model to convert"], inr false)
  end).

End Script.
End EmotionModelTrainer.

(** ** advanced_ensemble_model.py *)

Module AdvancedEnsembleModel.
Section Script.
Context `{PyStr} `{Sklearn} `{Pandas}.

Record model := {
  glove_embeddings : gmap (list N) (list F);
  ensemble_model : option Ensemble;
  scaler : Scaler;
  tfidf_vectorizer : option tfidf_state
}.

Definition embedding_dim : nat := 100.

Definition advanced_preprocess_text (text : cell) : list N :=
  match text with
  | NA => []
  | Val s =>
      let text := str_lower s in
      let text := sub_urls false text in
      let text := sub_mentions false text in
      let text := sub_outside keep_alpha text in
      strip (sub_spaces false text)
  end.

(** The loop of [text_to_glove_vector]: a word that is no key is looked up
    again in lowercase. *)
Fixpoint glove_loop (glove : gmap (list N) (list F)) (words : list (list N))
    (embedding_vector : list F) (word_count : nat) : pyerr + (list F * nat) :=
  match words with
  | [] => inr (embedding_vector, word_count)
  | word :: rest =>
      match glove !! word with
      | Some v =>
          embedding_vector ← np_iadd embedding_vector v;
          glove_loop glove rest embedding_vector (S word_count)
      | None =>
          let word_lower := str_lower word in
          match glove !! word_lower with
          | Some v =>
              embedding_vector ← np_iadd embedding_vector v;
              glove_loop glove rest embedding_vector (S word_count)
          | None => glove_loop glove rest embedding_vector word_count
          end
      end
  end.

Definition text_to_glove_vector (self : model) (text : list N)
    (max_length : nat) : pyerr + list F :=
  let words := take max_length (split text) in
  '(embedding_vector, word_count) ←
    glove_loop (glove_embeddings self) words (np_zeros embedding_dim) 0;
  if decide (0 < word_count)%nat then np_idiv embedding_vector word_count
  else inr embedding_vector.

Definition load_emotion_dataset (csv : list csv_row)
    : list (list N) * list cell :=
  let df := (λ r, (r, map_emotion (Emotion r))) <$> csv in
  let df := List.filter (λ r, notna (Text r.1) && notna r.2) df in
  let df := (λ r, (r, advanced_preprocess_text (Text r.1))) <$> df in
  let df := List.filter (λ r, bool_decide (10 < length r.2)%nat) df in
  let df :=
    if decide (12000 < N.of_nat (length df))
    then df_sample _ (N.to_nat 12000) df
    else df in
  (snd <$> df, (λ r, r.1.2) <$> df).

Definition save_advanced_ensemble (self : model) (model_name : string)
    (w : world) : bool * world :=
  match ensemble_model self with
  | Some e =>
      let w := joblib_dump (PickledEnsemble e)
                 (model_name +:+ "_ensemble.joblib") w in
      let w := joblib_dump (PickledScaler (scaler self))
                 (model_name +:+ "_scaler.joblib") w in
      let w := joblib_dump (PickledTfidf (tfidf_vectorizer self))
                 (model_name +:+ "_tfidf.joblib") w in
      let w := joblib_dump (PickledGlove (glove_embeddings self))
                 (model_name +:+ "_glove.joblib") w in
      let w := print ("Advanced ensemble model saved: " +:+ model_name
                        +:+ "_ensemble.joblib") w in
      let w := print ("Scaler saved: " +:+ model_name +:+ "_scaler.joblib") w in
      let w := print ("TF-IDF vectorizer saved: " +:+ model_name
                        +:+ "_tfidf.joblib") w in
      let w := print ("GloVe embeddings saved: " +:+ model_name
                        +:+ "_glove.joblib") w in
      (true, w)
  | None => (false, w)
  end.

End Script.
End AdvancedEnsembleModel.

(** ** Properties of the interpreter's tables, and concrete tables *)

Module Facts.

(** [str.lower] leaves no ASCII capital behind. *)
Definition LowerNoUpper `{PyStr} : Prop :=
  ∀ s c, c ∈ str_lower s → is_ascii_upper c = false.

(** [str.lower] returns a string of caseless characters as it is. *)
Definition LowerFixesCaseless `{PyStr} : Prop :=
  ∀ s, Forall (λ c, caseless c = true) s → str_lower s = s.

(** The alphabet of a preprocessed text: [a-z], the space and [.,!?]. *)
Definition clean_alpha (c : N) : bool :=
  is_ascii_lower c || (c =? space) || is_kept_punct c.

(** The same with the digits that [train_custom_model.py] keeps. *)
Definition clean_alnum (c : N) : bool :=
  is_ascii_lower c || is_ascii_digit c || (c =? space) || is_kept_punct c.

(** Whitespace occurs as single spaces only; [inside] says that the
    character before was whitespace. *)
Fixpoint single_spaced (inside : bool) (s : list N) : bool :=
  match s with
  | [] => true
  | c :: rest =>
      if isspace c then negb inside && (c =? space) && single_spaced true rest
      else single_spaced false rest
  end.

(** What C10 asks of a preprocessed text. *)
Definition normal_text (r : list N) : Prop :=
  Forall (λ c, clean_alpha c = true) r
  ∧ (∀ c, head r = Some c → isspace c = false)
  ∧ (∀ c, last r = Some c → isspace c = false)
  ∧ (∀ l1 l2, r ≠ l1 ++ space :: space :: l2).

(** Every vector of the embedding table has the 100 entries of
    [glove.6B.100d.txt]. *)
Definition GloveShape `{Float64} (glove : gmap (list N) (list F)) : Prop :=
  ∀ word v, glove !! word = Some v → length v = 100%nat.

(** [transform(...).toarray()] has one column per feature. *)
Definition TfidfShape `{Sklearn} : Prop :=
  ∀ v text, length (tfidf_row v text) = n_features v.

(** [df.sample] returns rows of the frame. *)
Definition SampleSelects `{Pandas} : Prop :=
  ∀ (A : Type) (n : nat) (df : list A) (r : A), r ∈ df_sample A n df → r ∈ df.

(** C2 in the words of the specification, for the URL step: [u] is [t] with
    every match of the URL pattern deleted. Reading [t] from the left, a
    character at which no match starts is kept; where a match starts, it
    runs to the end of the run of non-whitespace it starts in ([\S+] is
    greedy) and is left out whole. *)
Inductive urls_deleted : list N → list N → Prop :=
  | urls_deleted_end : urls_deleted [] []
  | urls_deleted_keep c t u :
      url_at (c :: t) = false → urls_deleted t u →
      urls_deleted (c :: t) (c :: u)
  | urls_deleted_match m t u :
      url_at (m ++ t) = true →
      Forall (λ x, isspace x = false) m →
      (∀ c, head t = Some c → isspace c = true) →
      urls_deleted t u →
      urls_deleted (m ++ t) u.

(** C3 in the words of the specification: the vectors of those among the
    first [max_length] words that are keys of the table, and their
    arithmetic mean, entry by entry. *)
Definition known_vectors `{Float64} (glove : gmap (list N) (list F))
    (max_length : nat) (text : list N) : list (list F) :=
  omap (λ word, glove !! word) (take max_length (split text)).

Definition vector_sum `{Float64} (vs : list (list F)) : list F :=
  foldl (zip_with fadd) (np_zeros 100) vs.

Definition mean_of_known_words `{Float64} (glove : gmap (list N) (list F))
    (max_length : nat) (text : list N) : list F :=
  let vs := known_vectors glove max_length text in
  match vs with
  | [] => np_zeros 100
  | _ :: _ => (λ y, fdiv y (f_of_nat (length vs))) <$> vector_sum vs
  end.

(** The same when a word that is no key counts with the vector of its
    lowercase form, as [advanced_ensemble_model.py] has it. *)
Definition known_vectors_lower `{PyStr} `{Float64}
    (glove : gmap (list N) (list F)) (max_length : nat) (text : list N)
    : list (list F) :=
  omap (λ word, match glove !! word with
                | Some v => Some v
                | None => glove !! str_lower word
                end)
       (take max_length (split text)).

Definition mean_of_known_words_lower `{PyStr} `{Float64}
    (glove : gmap (list N) (list F)) (max_length : nat) (text : list N)
    : list F :=
  let vs := known_vectors_lower glove max_length text in
  match vs with
  | [] => np_zeros 100
  | _ :: _ => (λ y, fdiv y (f_of_nat (length vs))) <$> vector_sum vs
  end.

(** The nine statistics of C6, in the order of a row: characters, words,
    [!], [?], positive words, negative words, [!!], [??], mean word length. *)
Definition nine_statistics `{PyStr} `{Float64} (text : list N) : list F :=
  [f_of_nat (length text);
   f_of_nat (length (split text));
   f_of_nat (count_char 33 text);
   f_of_nat (count_char 63 text);
   f_of_nat (count_in positive_words (split text));
   f_of_nat (count_in negative_words (split text));
   f_of_nat (count_pair 33 text);
   f_of_nat (count_pair 63 text);
   match split text with
   | [] => f_of_nat 0
   | _ :: _ => np_mean (length <$> split text)
   end].

(** What C8 speaks of: the calls of the [try] body, the two writes, the
    calls of [ct.convert], the message before [return False]. *)
Section Converting.
Context {KerasModel MLModel WordIndex : Type}.

Abbreviation api_t :=
  (@EmotionModelTrainer.coreml_api KerasModel MLModel WordIndex).
Abbreviation trainer_t := (@EmotionModelTrainer.trainer KerasModel WordIndex).
Abbreviation event_t := (@EmotionModelTrainer.event WordIndex).

(** Every call of the [try] body returned. *)
Definition all_returned (api : api_t) (self : trainer_t) (model_name : string)
    : Prop :=
  ∃ m c1 c2 c3,
    EmotionModelTrainer.model self = Some m
    ∧ EmotionModelTrainer.ct_convert api m = inr c1
    ∧ EmotionModelTrainer.set_input_description api c1 = inr c2
    ∧ EmotionModelTrainer.set_output_description api c2 = inr c3
    ∧ EmotionModelTrainer.mlmodel_save api c3 (model_name +:+ ".mlpackage")
      = inr ()
    ∧ EmotionModelTrainer.json_dump api
        {| EmotionModelTrainer.cfg_vocab_size :=
             EmotionModelTrainer.vocab_size self;
           EmotionModelTrainer.cfg_max_length :=
             EmotionModelTrainer.max_length self;
           EmotionModelTrainer.cfg_word_index :=
             EmotionModelTrainer.word_index self |}
        "tokenizer_config.json" = inr ().

Definition both_written (model_name : string) (log : list event_t) : Prop :=
  EmotionModelTrainer.SavedPackage (model_name +:+ ".mlpackage") ∈ log
  ∧ ∃ cfg, EmotionModelTrainer.WroteJson "tokenizer_config.json" cfg ∈ log.

Definition conversions (log : list event_t) : nat :=
  length (List.filter (λ ev, match ev with
                             | EmotionModelTrainer.Converted => true
                             | _ => false
                             end) log).

Definition ends_with_failure_message (log : list event_t) : Prop :=
  last log = Some (EmotionModelTrainer.Printed "No model to convert")
  ∨ ∃ e, last log
         = Some (EmotionModelTrainer.Printed
                   ("CoreML conversion failed: "
                    +:+ EmotionModelTrainer.str_of_err e)).

End Converting.

End Facts.

Import Facts.

(** Concrete libraries, small enough to run the scripts on: exact rationals
    for float64, a bag of words for the vectorizer, the first rows for a
    sample. *)
Module Concrete.

#[export] Instance rational : Float64 := {|
  F := Q;
  f_of_nat n := inject_Z (Z.of_nat n);
  fadd := Qplus;
  fdiv := Qdiv
|}.

Definition occurrences (term : list N) (text : list N) : nat :=
  length (List.filter (λ w, bool_decide (w = term)) (split text)).

#[export] Instance bag_of_words : Sklearn := {|
  Vectorizer := list (list N);
  tfidf_fit texts := inr (remove_dups (texts ≫= split));
  n_features v := length v;
  tfidf_row v text := (λ term, f_of_nat (occurrences term text)) <$> v;
  Ensemble := unit;
  Scaler := unit;
  scaler_transform _ x := x;
  ensemble_predict _ _ := txt "neutral";
  ensemble_predict_proba _ _ := []
|}.

#[export] Instance first_rows : Pandas := {|
  df_sample A n df := take n df
|}.

(** A table of two words, each with the same number in all 100 entries. *)
Definition tiny_glove : gmap (list N) (list F) :=
  {[ txt "good" := replicate 100 (inject_Z 1);
     txt "day" := replicate 100 (inject_Z 3) ]}.

End Concrete.

Import Concrete.

(** ** The rest of the scripts *)

(** [load_glove_embeddings] of [fast_85_accuracy_model.py] and of
    [advanced_ensemble_model.py]: the same loop, stopped at 30000 and at
    50000 words. *)
Module Embeddings.
Section Script.
Context `{Float64}.

(** One entry of [np.array(values[1:], dtype='float32')]: the number a
    token stands for, or [ValueError]. *)
Context (parse_float32 : list N → pyerr + F).

(** The [for line in f] loop; the dictionary is written in place, so what
    was stored before an exception stays. *)
Fixpoint load_loop (cap : N) (lines : list (list N))
    (glove_embeddings : gmap (list N) (list F))
    : option pyerr * gmap (list N) (list F) :=
  match lines with
  | [] => (None, glove_embeddings)
  | line :: rest =>
      match split line with
      | [] => (Some (Raised "IndexError"), glove_embeddings)
      | word :: values =>
          match mapM parse_float32 values with
          | inl e => (Some e, glove_embeddings)
          | inr vector =>
              let glove_embeddings := <[word := vector]> glove_embeddings in
              if decide (cap ≤ N.of_nat (size glove_embeddings))
              then (None, glove_embeddings)
              else load_loop cap rest glove_embeddings
          end
      end
  end.

(** [file] is the list of lines of [glove.6B.100d.txt], if it exists. *)
Definition load_glove_embeddings (cap : N) (file : option (list (list N)))
    (glove_embeddings : gmap (list N) (list F))
    : option pyerr * gmap (list N) (list F) :=
  match file with
  | None => (Some (Raised "FileNotFoundError"), glove_embeddings)
  | Some lines => load_loop cap lines glove_embeddings
  end.

End Script.

Definition fast_cap : N := 30000.
Definition advanced_cap : N := 50000.

End Embeddings.

(** [save_random_forest_model] of [train_custom_model.py]. *)
Module RandomForestModel.
Section Script.
Context `{Sklearn}.

Record trainer := {
  random_forest_model : option Ensemble;
  tfidf_vectorizer : option tfidf_state
}.

Definition save_random_forest_model (self : trainer) (model_name : string)
    (w : world) : bool * world :=
  match random_forest_model self, tfidf_vectorizer self with
  | Some rf, Some tfidf =>
      let w := joblib_dump (PickledEnsemble rf) (model_name +:+ "_rf.joblib")
                 w in
      let w := joblib_dump (PickledTfidf (Some tfidf))
                 (model_name +:+ "_tfidf.joblib") w in
      let w := print ("Random Forest model saved: " +:+ model_name
                        +:+ "_rf.joblib") w in
      let w := print ("TF-IDF vectorizer saved: " +:+ model_name
                        +:+ "_tfidf.joblib") w in
      (true, w)
  | _, _ => (false, print "No Random Forest model to save" w)
  end.

End Script.
End RandomForestModel.

(** [create_coreml_model] and the [__main__] block of
    [convert_to_coreml.py]. *)
Module CoremlExport.
Section Script.
Context `{Sklearn} {MLModel : Type}.

(** [joblib.load(path)]: what the file holds. *)
Definition joblib_load (path : string) (w : world) : pyerr + pickled :=
  match files w !! path with
  | Some obj => inr obj
  | None => inl (Raised "FileNotFoundError")
  end.

(** The attributes of the [SentimentPredictor] built from what was
    loaded. *)
Record predictor := {
  ensemble_model : pickled;
  scaler : pickled;
  tfidf_vectorizer : pickled;
  glove_embeddings : pickled
}.

(** The calls into coremltools; each returns or raises. [set_metadata]
    stands for the four attribute assignments. *)
Record coreml_api := {
  ct_convert : predictor → pyerr + MLModel;
  set_metadata : MLModel → pyerr + MLModel;
  mlmodel_save : MLModel → string → pyerr + unit
}.

Inductive event :=
  | Printed (msg : string)
  | Converted (p : predictor)
  | SavedPackage (path : string).

Definition io (A : Type) : Type := list event * (pyerr + A).

Definition io_bind {A B} (m : io A) (k : A → io B) : io B :=
  match m with
  | (evs, inl e) => (evs, inl e)
  | (evs, inr a) => let '(evs', r) := k a in (evs ++ evs', r)
  end.

Definition emit (ev : event) : io unit := ([ev], inr tt).

Definition call {A} (before : list event) (r : pyerr + A)
    (done : A → list event) : io A :=
  match r with
  | inl e => (before, inl e)
  | inr a => (before ++ done a, inr a)
  end.

(** The four [joblib.load] calls, in order. *)
Definition load_components (w : world) : pyerr + predictor :=
  ensemble_model ← joblib_load "Fast85AccuracyModel_ensemble.joblib" w;
  scaler ← joblib_load "Fast85AccuracyModel_scaler.joblib" w;
  tfidf_vectorizer ← joblib_load "Fast85AccuracyModel_tfidf.joblib" w;
  glove_embeddings ← joblib_load "Fast85AccuracyModel_glove.joblib" w;
  mret {| ensemble_model := ensemble_model;
          scaler := scaler;
          tfidf_vectorizer := tfidf_vectorizer;
          glove_embeddings := glove_embeddings |}.

Definition create_coreml_model (api : coreml_api) (w : world) : io MLModel :=
  io_bind (emit (Printed "Loading trained model components...")) (λ _,
  io_bind (call [] (load_components w)
             (λ _, [Printed "Model components loaded successfully"]))
    (λ predictor,
  io_bind (emit (Printed "Converting to CoreML format...")) (λ _,
  io_bind (call [Converted predictor] (ct_convert api predictor) (λ _, []))
    (λ coreml_model,
  io_bind (call [] (set_metadata api coreml_model) (λ _, []))
    (λ coreml_model,
  io_bind (call []
             (mlmodel_save api coreml_model
                "SmartJournalSentimentModel.mlpackage")
             (λ _, [SavedPackage "SmartJournalSentimentModel.mlpackage"]))
    (λ _,
  ([Printed "CoreML model saved as SmartJournalSentimentModel.mlpackage";
    Printed "Model accuracy: 91.17%";
    Printed "Features: GloVe + TF-IDF + Smart Text Features";
    Printed "Architecture: Ensemble (RF + GB + LR + SVM)"],
   inr coreml_model))))))).

Definition str_of_err (e : pyerr) : string :=
  match e with
  | ValueError => "ValueError"
  | ZeroDivision => "ZeroDivisionError"
  | Raised what => what
  end.

(** The [__main__] block: what is printed and done, in order. *)
Definition main (api : coreml_api) (w : world) : list event :=
  [Printed "Converting Fast85AccuracyModel to CoreML format";
   Printed "=================================================="]
  ++ match create_coreml_model api w with
     | (evs, inr _) =>
         evs ++ [Printed "Conversion completed successfully!";
                 Printed "Model ready for iOS integration"]
     | (evs, inl e) =>
         evs ++ [Printed ("Error during conversion: " +:+ str_of_err e);
                 Printed "Make sure all model files are present:";
                 Printed "   - Fast85AccuracyModel_ensemble.joblib";
                 Printed "   - Fast85AccuracyModel_scaler.joblib";
                 Printed "   - Fast85AccuracyModel_tfidf.joblib";
                 Printed "   - Fast85AccuracyModel_glove.joblib"]
     end.

End Script.
End CoremlExport.

(** [extract_advanced_features] and [prepare_advanced_features] of
    [advanced_ensemble_model.py]. *)
Module AdvancedFeatures.

(** [c.isupper()] for one character. *)
Class PyCase := {
  isupper : N → bool
}.

Definition positive_words : list (list N) :=
  txt <$> ["good"; "great"; "excellent"; "amazing"; "wonderful"; "fantastic";
           "love"; "happy"; "joy"; "smile"]%string.

Definition negative_words : list (list N) :=
  txt <$> ["bad"; "terrible"; "awful"; "horrible"; "hate"; "sad"; "angry";
           "frustrated"; "disappointed"]%string.

Definition neutral_words : list (list N) :=
  txt <$> ["okay"; "fine"; "normal"; "average"; "regular";
           "standard"]%string.

(** [a / b] on two Python [int]s: a float, or [ZeroDivisionError]. *)
Definition py_truediv `{Float64} (a b : nat) : pyerr + F :=
  match b with
  | O => inl ZeroDivision
  | S _ => inr (fdiv (f_of_nat a) (f_of_nat b))
  end.

Section Script.
Context `{PyStr} `{PyCase} `{Sklearn}.

(** [TfidfVectorizer(max_features=8000, ngram_range=(1, 3), ...)] fitted. *)
Context (tfidf_fit_trigrams : list (list N) → pyerr + Vectorizer).

(** The body of the [for text in texts] loop. *)
Definition text_features (text : list N) : pyerr + list pynum :=
  let text_length := length text in
  let word_count := length (split text) in
  let exclamation_count := count_char 33 text in
  let question_count := count_char 63 text in
  let period_count := count_char 46 text in
  let comma_count := count_char 44 text in
  uppercase_ratio ←
    py_truediv (length (List.filter isupper text)) (max (length text) 1);
  space_ratio ← py_truediv (count_char 32 text) (max (length text) 1);
  let words := split text in
  let avg_word_length :=
    match words with
    | [] => PyInt 0
    | _ :: _ => PyFloat (np_mean (length <$> words))
    end in
  let positive_count := count_in positive_words words in
  let negative_count := count_in negative_words words in
  let neutral_count := count_in neutral_words words in
  let multiple_exclamation := count_pair 33 text in
  let multiple_question := count_pair 63 text in
  mret [PyInt text_length; PyInt word_count; PyInt exclamation_count;
        PyInt question_count; PyInt period_count; PyInt comma_count;
        PyFloat uppercase_ratio; PyFloat space_ratio; avg_word_length;
        PyInt positive_count; PyInt negative_count; PyInt neutral_count;
        PyInt multiple_exclamation; PyInt multiple_question].

Fixpoint advanced_features_loop (texts : list (list N))
    (features : list (list pynum)) : pyerr + list (list pynum) :=
  match texts with
  | [] => inr features
  | text :: rest =>
      text_features ← text_features text;
      advanced_features_loop rest (features ++ [text_features])
  end.

Definition extract_advanced_features (texts : list (list N))
    : pyerr + list (list F) :=
  map (map to_f64) <$> advanced_features_loop texts [].

(** As [prepare_smart_features], with 50 words for the GloVe average. *)
Definition prepare_advanced_features (self : AdvancedEnsembleModel.model)
    (texts : list (list N))
    : (pyerr + list (list F)) * AdvancedEnsembleModel.model :=
  match mapM (λ text, AdvancedEnsembleModel.text_to_glove_vector self text 50)
          texts with
  | inl e => (inl e, self)
  | inr glove_features =>
      let '(tfidf_features, self) :=
        match AdvancedEnsembleModel.tfidf_vectorizer self with
        | None =>
            let created :=
              {| AdvancedEnsembleModel.glove_embeddings :=
                   AdvancedEnsembleModel.glove_embeddings self;
                 AdvancedEnsembleModel.ensemble_model :=
                   AdvancedEnsembleModel.ensemble_model self;
                 AdvancedEnsembleModel.scaler :=
                   AdvancedEnsembleModel.scaler self;
                 AdvancedEnsembleModel.tfidf_vectorizer := Some Unfitted |} in
            match tfidf_fit_trigrams texts with
            | inl e => (inl e, created)
            | inr v =>
                (inr (tfidf_row v <$> texts),
                 {| AdvancedEnsembleModel.glove_embeddings :=
                      AdvancedEnsembleModel.glove_embeddings self;
                    AdvancedEnsembleModel.ensemble_model :=
                      AdvancedEnsembleModel.ensemble_model self;
                    AdvancedEnsembleModel.scaler :=
                      AdvancedEnsembleModel.scaler self;
                    AdvancedEnsembleModel.tfidf_vectorizer :=
                      Some (Fitted v) |})
            end
        | Some _ =>
            (tfidf_transform (AdvancedEnsembleModel.tfidf_vectorizer self)
               texts, self)
        end in
      match tfidf_features with
      | inl e => (inl e, self)
      | inr tfidf_features =>
          match extract_advanced_features texts with
          | inl e => (inl e, self)
          | inr text_features =>
              (np_hstack3 glove_features tfidf_features text_features, self)
          end
      end
  end.

End Script.
End AdvancedFeatures.

(** What the properties of these functions assume of the libraries, and
    concrete oracles to run them on. *)
Module MoreFacts.

(** [df.sample(n=n)] returns [n] rows. *)
Definition SampleCount `{Pandas} : Prop :=
  ∀ (A : Type) (n : nat) (df : list A),
    (n ≤ length df)%nat → length (df_sample A n df) = n.

(** No character of a preprocessed text is an uppercase character. *)
Definition CleanNotUpper `{AdvancedFeatures.PyCase} : Prop :=
  ∀ c, clean_alpha c = true → AdvancedFeatures.isupper c = false.

#[export] Instance ascii_case : AdvancedFeatures.PyCase := {|
  AdvancedFeatures.isupper := is_ascii_upper
|}.

(** A parser of the decimal digits [0] to [9], one digit a number. *)
Definition parse_digit (token : list N) : pyerr + Q :=
  match token with
  | [c] => if is_ascii_digit c then inr (inject_Z (Z.of_N (c - 48)))
           else inl ValueError
  | _ => inl ValueError
  end.

(** A bag of words that, as scikit-learn does, refuses texts without any
    word ("empty vocabulary"). *)
Definition strict_bag_of_words : Sklearn := {|
  Vectorizer := list (list N);
  tfidf_fit texts :=
    match remove_dups (texts ≫= split) with
    | [] => inl ValueError
    | vocabulary => inr vocabulary
    end;
  n_features v := length v;
  tfidf_row v text := (λ term, f_of_nat (occurrences term text)) <$> v;
  Ensemble := unit;
  Scaler := unit;
  scaler_transform _ x := x;
  ensemble_predict _ _ := txt "neutral";
  ensemble_predict_proba _ _ := []
|}.

(** Library calls that all return, but for the dump of the tokenizer
    configuration. *)
Definition failing_json_api
    : @EmotionModelTrainer.coreml_api unit unit unit := {|
  EmotionModelTrainer.ct_convert _ := inr tt;
  EmotionModelTrainer.set_input_description _ := inr tt;
  EmotionModelTrainer.set_output_description _ := inr tt;
  EmotionModelTrainer.mlmodel_save _ _ := inr tt;
  EmotionModelTrainer.json_dump _ _ := inl (Raised "OSError")
|}.

(** The four files that [create_coreml_model] reads. *)
Definition component_files : list string :=
  ["Fast85AccuracyModel_ensemble.joblib"; "Fast85AccuracyModel_scaler.joblib";
   "Fast85AccuracyModel_tfidf.joblib"; "Fast85AccuracyModel_glove.joblib"].

(** A coremltools whose calls all return. *)
Definition returning_api : @CoremlExport.coreml_api rational bag_of_words unit
  := {|
  CoremlExport.ct_convert _ := inr tt;
  CoremlExport.set_metadata _ := inr tt;
  CoremlExport.mlmodel_save _ _ := inr tt
|}.

End MoreFacts.

Import MoreFacts.

(** * Proofs *)

(** ** Character classes *)

Ltac char_cases :=
  repeat match goal with
  | |- context [N.leb ?a ?b] => destruct (N.leb_spec a b); try lia
  | |- context [N.ltb ?a ?b] => destruct (N.ltb_spec a b); try lia
  | |- context [N.eqb ?a ?b] => destruct (N.eqb_spec a b); try lia
  | H : context [N.leb ?a ?b] |- _ => destruct (N.leb_spec a b); try lia
  | H : context [N.ltb ?a ?b] |- _ => destruct (N.ltb_spec a b); try lia
  | H : context [N.eqb ?a ?b] |- _ => destruct (N.eqb_spec a b); try lia
  end.

Ltac char_solve :=
  unfold clean_alpha, clean_alnum, caseless, keep_alpha, keep_alnum, isspace,
    is_kept_punct, is_ascii_lower, is_ascii_upper, is_ascii_digit, in_range,
    space in *;
  char_cases; simpl in *; try congruence; try lia.

Lemma keep_alpha_no_upper c :
  keep_alpha c = true → is_ascii_upper c = false →
  isspace c = true ∨ (isspace c = false ∧ clean_alpha c = true).
Proof.
  intros Hk Hu. destruct (isspace c) eqn:Hs; [by left | right].
  split; [done|]. revert Hk Hu Hs. char_solve.
Qed.

Lemma clean_alpha_caseless c : clean_alpha c = true → caseless c = true.
Proof. char_solve. Qed.

Lemma clean_alpha_keep c : clean_alpha c = true → keep_alpha c = true.
Proof. char_solve. Qed.

Lemma clean_alnum_caseless c : clean_alnum c = true → caseless c = true.
Proof. char_solve. Qed.

Lemma clean_alnum_keep c : clean_alnum c = true → keep_alnum c = true.
Proof. char_solve. Qed.

Lemma keep_alnum_no_upper c :
  keep_alnum c = true → is_ascii_upper c = false →
  isspace c = true ∨ (isspace c = false ∧ clean_alnum c = true).
Proof.
  intros Hk Hu. destruct (isspace c) eqn:Hs; [by left | right].
  split; [done|]. revert Hk Hu Hs. char_solve.
Qed.

(** ** Whitespace runs *)

Lemma sub_spaces_single b s : single_spaced b (sub_spaces b s) = true.
Proof.
  revert b. induction s as [|c s IH]; intros b; simpl; [done|].
  destruct (isspace c) eqn:Hc.
  - destruct b; [apply IH|]. simpl. by rewrite IH.
  - simpl. rewrite Hc. apply IH.
Qed.

Lemma sub_spaces_elem b s c :
  c ∈ sub_spaces b s → c = space ∨ (c ∈ s ∧ isspace c = false).
Proof.
  revert b. induction s as [|a s IH]; intros b; simpl.
  - by intros ?%elem_of_nil.
  - destruct (isspace a) eqn:Ha.
    + destruct b.
      * intros [->|[??]]%IH; [by left | right; split; [by right | done]].
      * intros [->|[->|[??]]%IH]%elem_of_cons; [by left | by left |].
        right; split; [by right | done].
    + intros [->|[->|[??]]%IH]%elem_of_cons.
      * right; split; [by left | done].
      * by left.
      * right; split; [by right | done].
Qed.

Lemma sub_spaces_fix b s : single_spaced b s = true → sub_spaces b s = s.
Proof.
  revert b. induction s as [|c s IH]; intros b; simpl; [done|].
  destruct (isspace c) eqn:Hc.
  - destruct b; simpl; [done|].
    intros [Hsp Hs]%andb_true_iff. apply N.eqb_eq in Hsp as ->.
    by rewrite IH.
  - intros Hs. by rewrite IH.
Qed.

Lemma single_spaced_weaken b s :
  single_spaced b s = true → single_spaced false s = true.
Proof.
  destruct s as [|c s]; simpl; [done|].
  destruct (isspace c); [|done]. by destruct b.
Qed.

Lemma single_spaced_app_r b l1 l2 :
  single_spaced b (l1 ++ l2) = true → single_spaced false l2 = true.
Proof.
  revert b. induction l1 as [|c l1 IH]; intros b; simpl.
  - apply single_spaced_weaken.
  - destruct (isspace c); [|apply IH].
    intros [_ Hs]%andb_true_iff. by apply IH in Hs.
Qed.

Lemma single_spaced_app_l b l1 l2 :
  single_spaced b (l1 ++ l2) = true → single_spaced b l1 = true.
Proof.
  revert b. induction l1 as [|c l1 IH]; intros b; simpl; [done|].
  destruct (isspace c); [|apply IH].
  intros [-> Hs]%andb_true_iff. by apply IH in Hs.
Qed.

Lemma single_spaced_adjacent b l1 a c l2 :
  single_spaced b (l1 ++ a :: c :: l2) = true →
  isspace a = true → isspace c = true → False.
Proof.
  intros Hs%single_spaced_app_r Ha Hc. simpl in Hs.
  rewrite Ha, Hc in Hs. simpl in Hs. by rewrite andb_false_r in Hs.
Qed.

(** ** Stripping *)

Lemma lstrip_suffix s : ∃ l, s = l ++ lstrip s.
Proof.
  induction s as [|c s [l IH]]; simpl; [by exists []|].
  destruct (isspace c); [|by exists []].
  exists (c :: l). simpl. by f_equal.
Qed.

Lemma lstrip_head s c : head (lstrip s) = Some c → isspace c = false.
Proof.
  induction s as [|a s IH]; simpl; [done|].
  destruct (isspace a) eqn:Ha; [done|]. simpl. by intros [= <-].
Qed.

Lemma lstrip_fix s :
  (∀ c, head s = Some c → isspace c = false) → lstrip s = s.
Proof.
  destruct s as [|a s]; simpl; [done|]. intros Hh. by rewrite (Hh a).
Qed.

Lemma rstrip_prefix s : ∃ l, s = rstrip s ++ l.
Proof.
  unfold rstrip. destruct (lstrip_suffix (reverse s)) as [l Hl].
  exists (reverse l).
  rewrite <-reverse_app, <-Hl. by rewrite reverse_involutive.
Qed.

Lemma rstrip_last s c : last (rstrip s) = Some c → isspace c = false.
Proof.
  unfold rstrip. rewrite last_reverse. apply lstrip_head.
Qed.

Lemma rstrip_fix s :
  (∀ c, last s = Some c → isspace c = false) → rstrip s = s.
Proof.
  intros Hl. unfold rstrip. rewrite lstrip_fix.
  - apply reverse_involutive.
  - intros c. rewrite head_reverse. apply Hl.
Qed.

Lemma strip_infix s : ∃ l1 l2, s = l1 ++ strip s ++ l2.
Proof.
  unfold strip. destruct (lstrip_suffix s) as [l1 H1].
  destruct (rstrip_prefix (lstrip s)) as [l2 H2].
  exists l1, l2. by rewrite <-H2.
Qed.

Lemma strip_head s c : head (strip s) = Some c → isspace c = false.
Proof.
  unfold strip. destruct (rstrip_prefix (lstrip s)) as [l Hl].
  intros Hh. apply (lstrip_head s). rewrite Hl.
  destruct (rstrip (lstrip s)); [done|]. done.
Qed.

Lemma strip_last s c : last (strip s) = Some c → isspace c = false.
Proof. apply rstrip_last. Qed.

Lemma strip_fix s :
  (∀ c, head s = Some c → isspace c = false) →
  (∀ c, last s = Some c → isspace c = false) → strip s = s.
Proof.
  intros Hh Hl. unfold strip. rewrite (lstrip_fix s Hh). by apply rstrip_fix.
Qed.

Lemma strip_elem s c : c ∈ strip s → c ∈ s.
Proof.
  destruct (strip_infix s) as (l1 & l2 & Hs). intros Hc.
  rewrite Hs, !elem_of_app. auto.
Qed.

Lemma strip_single_spaced b s :
  single_spaced b s = true → single_spaced false (strip s) = true.
Proof.
  destruct (strip_infix s) as (l1 & l2 & Hs). intros H.
  rewrite Hs in H. apply single_spaced_app_r in H.
  by apply single_spaced_app_l in H.
Qed.

(** ** Deleting characters *)

Lemma sub_outside_elem keep s c :
  c ∈ sub_outside keep s ↔ c ∈ s ∧ keep c = true.
Proof.
  unfold sub_outside. rewrite !list_elem_of_In. apply filter_In.
Qed.

Lemma sub_outside_fix keep s :
  (∀ c, c ∈ s → keep c = true) → sub_outside keep s = s.
Proof.
  unfold sub_outside. induction s as [|a s IH]; simpl; [done|].
  intros Hk. rewrite (Hk a) by by left. f_equal. apply IH.
  intros c Hc. apply Hk. by right.
Qed.

(** ** The ASCII tables satisfy what is asked of the interpreter's *)

Lemma ascii_lower_char_no_upper c :
  is_ascii_upper (ascii_lower_char c) = false.
Proof.
  unfold ascii_lower_char.
  destruct (is_ascii_upper c) eqn:E; revert E; char_solve.
Qed.

Lemma ascii_lower_char_caseless c :
  caseless c = true → ascii_lower_char c = c.
Proof.
  unfold ascii_lower_char. destruct (is_ascii_upper c) eqn:E; [|done].
  revert E. char_solve.
Qed.

Lemma ascii_lower_no_upper : @LowerNoUpper ascii_str.
Proof.
  intros s c (x & -> & _)%list_elem_of_fmap. apply ascii_lower_char_no_upper.
Qed.

Lemma ascii_lower_fixes_caseless : @LowerFixesCaseless ascii_str.
Proof.
  intros s Hs. simpl. induction Hs as [|c s Hc _ IH]; simpl; [done|].
  by rewrite ascii_lower_char_caseless, IH.
Qed.

(** ** Normal form of a preprocessed text *)

Section NormalForm.
Context `{PyStr}.

(** What [strip] after [re.sub(r'\s+', ' ', ...)] leaves of a text whose
    characters are whitespace or belong to [good]. *)
Lemma collapse_strip_normal (good : N → bool) (u : list N) :
  good space = true →
  (∀ c, c ∈ u → isspace c = true ∨ (isspace c = false ∧ good c = true)) →
  let r := strip (sub_spaces false u) in
  Forall (λ c, good c = true) r
  ∧ single_spaced false r = true
  ∧ (∀ c, head r = Some c → isspace c = false)
  ∧ (∀ c, last r = Some c → isspace c = false).
Proof.
  intros Hsp Hu r. repeat split.
  - apply Forall_forall. intros c Hc%strip_elem.
    apply sub_spaces_elem in Hc as [->|[Hc Hs]]; [done|].
    destruct (Hu c Hc) as [?|[_ ?]]; congruence.
  - apply (strip_single_spaced false), sub_spaces_single.
  - apply strip_head.
  - apply strip_last.
Qed.

Lemma lowered_alpha_chars s c :
  LowerNoUpper → c ∈ sub_outside keep_alpha (str_lower s) →
  isspace c = true ∨ (isspace c = false ∧ clean_alpha c = true).
Proof.
  intros Hlow [Hc Hk]%sub_outside_elem.
  apply keep_alpha_no_upper; [done|]. by apply (Hlow s).
Qed.

Lemma single_spaced_no_double r l1 l2 :
  single_spaced false r = true → r ≠ l1 ++ space :: space :: l2.
Proof.
  intros Hs ->. by apply (single_spaced_adjacent false l1 space space l2).
Qed.

End NormalForm.

Lemma smart_preprocess_text_strong `{PyStr} (text : cell) :
  LowerNoUpper →
  let r := Fast85AccuracyModel.smart_preprocess_text text in
  Forall (λ c, clean_alpha c = true) r
  ∧ single_spaced false r = true
  ∧ (∀ c, head r = Some c → isspace c = false)
  ∧ (∀ c, last r = Some c → isspace c = false).
Proof.
  intros Hlow. destruct text as [|s]; simpl; [done|].
  apply collapse_strip_normal; [done|].
  intros c Hc. by apply (lowered_alpha_chars s).
Qed.

Lemma preprocess_text_same `{PyStr} (text : cell) :
  ConvertToCoreml.preprocess_text text
  = Fast85AccuracyModel.smart_preprocess_text text.
Proof. by destruct text. Qed.

(** C10. For every input, a missing value included (it gives the empty
    string), [smart_preprocess_text] of [fast_85_accuracy_model.py] and
    [preprocess_text] of [convert_to_coreml.py] return a string made of the
    letters [a-z], spaces and the four characters [.,!?] only, which neither
    starts nor ends with whitespace and has no two spaces in a row. *)
Theorem preprocess_text_normal_form `{PyStr} (Hlow : LowerNoUpper)
    (text : cell) :
  Fast85AccuracyModel.smart_preprocess_text NA = []
  ∧ ConvertToCoreml.preprocess_text NA = []
  ∧ normal_text (Fast85AccuracyModel.smart_preprocess_text text)
  ∧ normal_text (ConvertToCoreml.preprocess_text text).
Proof.
  split; [done|]. split; [done|].
  destruct (smart_preprocess_text_strong text Hlow)
    as (Hall & Hsingle & Hhead & Hlast).
  assert (normal_text (Fast85AccuracyModel.smart_preprocess_text text))
    as Hnormal.
  { repeat split; try done. intros l1 l2. by apply single_spaced_no_double. }
  split; [done|]. by rewrite (preprocess_text_same text).
Qed.

Lemma preprocess_text_normal_form_witness :
  Fast85AccuracyModel.smart_preprocess_text
    (Val (txt "  Hi,   @You!! it's 4pm ")) = txt "hi, you!! its pm"
  ∧ Fast85AccuracyModel.smart_preprocess_text NA = []
  ∧ ConvertToCoreml.preprocess_text NA = []
  ∧ normal_text (Fast85AccuracyModel.smart_preprocess_text
                   (Val (txt "  Hi,   @You!! it's 4pm ")))
  ∧ normal_text (ConvertToCoreml.preprocess_text
                   (Val (txt "  Hi,   @You!! it's 4pm "))).
Proof.
  split; [vm_compute; reflexivity|].
  apply (preprocess_text_normal_form ascii_lower_no_upper
           (Val (txt "  Hi,   @You!! it's 4pm "))).
Defined.

(** ** URL and mention patterns *)

Lemma starts_with_spec p s : starts_with p s = true ↔ ∃ q, s = p ++ q.
Proof.
  revert s. induction p as [|a p IH]; intros s; simpl.
  - split; [by exists s | done].
  - destruct s as [|b s].
    + split; [done | by intros [q ?]].
    + rewrite andb_true_iff, N.eqb_eq, IH. split.
      * intros [-> [q ->]]. by exists q.
      * intros [q [= -> ->]]. split; [done | by exists q].
Qed.

Lemma nonspace_at_spec n p q :
  length p = n →
  nonspace_at n (p ++ q) = true ↔ ∃ x q', q = x :: q' ∧ isspace x = false.
Proof.
  intros <-. unfold nonspace_at. rewrite drop_app_length.
  destruct q as [|x q'].
  - split; [done | by intros (? & ? & ? & _)].
  - rewrite negb_true_iff. split.
    + intros Hx. by exists x, q'.
    + by intros (? & ? & [= <- <-] & ?).
Qed.

(** A match of the URL pattern is decided by a prefix of characters that are
    not whitespace. *)
Lemma url_at_prefix s :
  url_at s = true →
  ∃ c p q, s = (c :: p) ++ q
    ∧ Forall (λ x, isspace x = false) (c :: p)
    ∧ ∀ q', url_at ((c :: p) ++ q') = true.
Proof.
  unfold url_at. rewrite !orb_true_iff, !andb_true_iff.
  intros [[[Hp Hx]|[Hp Hx]]|[Hp Hx]];
    apply starts_with_spec in Hp as [q ->];
    apply nonspace_at_spec in Hx as (x & q' & -> & Hx); try done.
  - exists 104, [116; 116; 112; x], q'. split; [done|]. split.
    + by repeat constructor.
    + intros q''. cbn. by rewrite Hx.
  - exists 119, [119; 119; x], q'. split; [done|]. split.
    + by repeat constructor.
    + intros q''. cbn. by rewrite Hx.
  - exists 104, [116; 116; 112; 115; x], q'. split; [done|]. split.
    + by repeat constructor.
    + intros q''. cbn. reflexivity.
Qed.

Lemma url_at_space c s : isspace c = true → url_at (c :: s) = false.
Proof.
  intros Hc. destruct (url_at (c :: s)) eqn:E; [|done].
  apply url_at_prefix in E as (x & p & q & [= <- _] & Hns & _).
  apply Forall_cons in Hns as [? _]. congruence.
Qed.

Lemma url_at_app s q : url_at s = true → url_at (s ++ q) = true.
Proof.
  intros (c & p & q0 & -> & _ & Hall)%url_at_prefix.
  rewrite <-app_assoc. apply Hall.
Qed.

(** A rewriting [f] that hands on an initial run of non-whitespace as it was
    creates no match at a character it keeps. *)
Lemma url_at_reflect (f : list N → list N) c rest :
  (∀ p o, f rest = p ++ o → Forall (λ x, isspace x = false) p →
          ∃ s', rest = p ++ s') →
  url_at (c :: f rest) = true → url_at (c :: rest) = true.
Proof.
  intros Hf (x & p & q & Heq & Hns & Hall)%url_at_prefix.
  simpl in Heq. injection Heq as <- Hrest.
  apply Forall_cons in Hns as [_ Hns].
  destruct (Hf p q Hrest Hns) as [s' ->]. apply (Hall s').
Qed.

Lemma has_url_app_r l1 l2 : has_url (l1 ++ l2) = false → has_url l2 = false.
Proof.
  induction l1 as [|c l1 IH]; simpl; [done|].
  intros [_ ?]%orb_false_iff. by apply IH.
Qed.

Lemma has_url_app_l l1 l2 : has_url (l1 ++ l2) = false → has_url l1 = false.
Proof.
  induction l1 as [|c l1 IH]; simpl; [done|].
  intros [Hu Hr]%orb_false_iff. rewrite (IH Hr), orb_false_r.
  destruct (url_at (c :: l1)) eqn:E; [|done].
  apply (url_at_app _ l2) in E. simpl in E. congruence.
Qed.

Lemma sub_urls_inside_head s x o :
  sub_urls true s = x :: o → isspace x = true.
Proof.
  induction s as [|c s IH]; simpl; [done|].
  destruct (isspace c) eqn:Hc; simpl.
  - rewrite url_at_space by done. by intros [= <- _].
  - apply IH.
Qed.

Lemma sub_urls_nonspace_prefix s p o :
  sub_urls false s = p ++ o → Forall (λ x, isspace x = false) p →
  ∃ s', s = p ++ s'.
Proof.
  revert p. induction s as [|c s IH]; intros p; simpl.
  - intros Hp _. symmetry in Hp. apply app_eq_nil in Hp as [-> _].
    by exists [].
  - destruct p as [|x p]; [by exists (c :: s)|].
    destruct (url_at (c :: s)).
    + simpl. intros Hs%sub_urls_inside_head [Hx _]%Forall_cons. congruence.
    + simpl. intros [= <- Hs] [_ Hp]%Forall_cons.
      destruct (IH p Hs Hp) as [s' ->]. by exists s'.
Qed.

(** After the URL step no match of the URL pattern is left. *)
Lemma sub_urls_no_url b s : has_url (sub_urls b s) = false.
Proof.
  revert b. induction s as [|c s IH]; intros b; simpl; [done|].
  destruct (b && negb (isspace c)); [apply IH|].
  destruct (url_at (c :: s)) eqn:Hu; [apply IH|].
  simpl. rewrite IH, orb_false_r.
  destruct (url_at (c :: sub_urls false s)) eqn:E; [|done].
  apply (url_at_reflect (sub_urls false)) in E; [congruence|].
  apply sub_urls_nonspace_prefix.
Qed.

Lemma sub_urls_fix s : has_url s = false → sub_urls false s = s.
Proof.
  induction s as [|c s IH]; simpl; [done|].
  intros [-> Hs]%orb_false_iff. by rewrite IH.
Qed.

Lemma sub_urls_elem b s c : c ∈ sub_urls b s → c ∈ s.
Proof.
  revert b. induction s as [|a s IH]; intros b; simpl; [done|].
  destruct (b && negb (isspace a)); [by right; eapply IH|].
  destruct (url_at (a :: s)); [by right; eapply IH|].
  intros [->|?]%elem_of_cons; [by left | by right; eapply IH].
Qed.

Lemma sub_spaces_nonspace_prefix s p o :
  sub_spaces false s = p ++ o → Forall (λ x, isspace x = false) p →
  ∃ s', s = p ++ s'.
Proof.
  revert p. induction s as [|c s IH]; intros p; simpl.
  - intros Hp _. symmetry in Hp. apply app_eq_nil in Hp as [-> _].
    by exists [].
  - destruct p as [|x p]; [by exists (c :: s)|].
    destruct (isspace c) eqn:Hc; simpl.
    + intros [= <- _] [Hx _]%Forall_cons. done.
    + intros [= <- Hs] [_ Hp]%Forall_cons.
      destruct (IH p Hs Hp) as [s' ->]. by exists s'.
Qed.

Lemma sub_spaces_no_url b s :
  has_url s = false → has_url (sub_spaces b s) = false.
Proof.
  revert b. induction s as [|c s IH]; intros b; simpl; [done|].
  intros [Hu Hs]%orb_false_iff. destruct (isspace c) eqn:Hc.
  - destruct b; [by apply IH|]. cbn [has_url].
    rewrite url_at_space by done. by apply IH.
  - simpl. rewrite IH, orb_false_r by done.
    destruct (url_at (c :: sub_spaces false s)) eqn:E; [|done].
    apply (url_at_reflect (sub_spaces false)) in E; [congruence|].
    apply sub_spaces_nonspace_prefix.
Qed.

Lemma strip_no_url s : has_url s = false → has_url (strip s) = false.
Proof.
  destruct (strip_infix s) as (l1 & l2 & Hs). intros H.
  rewrite Hs in H. apply has_url_app_r in H. by apply has_url_app_l in H.
Qed.

Section Mentions.
Context `{PyStr}.

Lemma mention_at_marker c s :
  mention_at (c :: s) = true → c = 64 ∨ c = 35.
Proof.
  destruct s as [|d s]; simpl; [done|].
  intros [Hc _]%andb_true_iff. apply orb_true_iff in Hc.
  rewrite !N.eqb_eq in Hc. done.
Qed.

Lemma sub_mentions_elem b s c : c ∈ sub_mentions b s → c ∈ s.
Proof.
  revert b. induction s as [|a s IH]; intros b; [done|].
  cbn [sub_mentions].
  destruct (b && re_word a); [intros ?%IH; by right|].
  destruct (mention_at (a :: s)); [intros ?%IH; by right|].
  intros [->|?%IH]%elem_of_cons; [by left | by right].
Qed.

Lemma sub_mentions_fix s :
  (∀ c, c ∈ s → c ≠ 64 ∧ c ≠ 35) → sub_mentions false s = s.
Proof.
  induction s as [|c s IH]; [done|]. intros Hs.
  cbn [sub_mentions andb].
  destruct (mention_at (c :: s)) eqn:E.
  - apply mention_at_marker in E. destruct (Hs c) as [??]; [by left|].
    by destruct E.
  - f_equal. apply IH. intros x Hx. apply Hs. by right.
Qed.

Lemma no_marker_no_mention s :
  (∀ c, c ∈ s → c ≠ 64 ∧ c ≠ 35) → has_mention s = false.
Proof.
  induction s as [|c s IH]; [done|]. intros Hs. cbn [has_mention].
  rewrite IH, orb_false_r by (intros x Hx; apply Hs; by right).
  destruct (mention_at (c :: s)) eqn:E; [|done].
  apply mention_at_marker in E. destruct (Hs c) as [??]; [by left|].
  by destruct E.
Qed.

End Mentions.

(** ** Applying a preprocessing function to its own result *)

Section Idempotence.
Context `{PyStr}.

Lemma smart_preprocess_text_fix r :
  LowerFixesCaseless →
  Forall (λ c, clean_alpha c = true) r →
  single_spaced false r = true →
  (∀ c, head r = Some c → isspace c = false) →
  (∀ c, last r = Some c → isspace c = false) →
  Fast85AccuracyModel.smart_preprocess_text (Val r) = r.
Proof.
  intros Hfix Hall Hsingle Hhead Hlast. simpl.
  rewrite Hfix by (eapply Forall_impl; [done | apply clean_alpha_caseless]).
  rewrite sub_outside_fix.
  - rewrite sub_spaces_fix by done. by apply strip_fix.
  - intros c Hc. apply clean_alpha_keep. by eapply Forall_forall in Hall.
Qed.

Lemma trainer_preprocess_chars (text : cell) :
  LowerNoUpper →
  Forall (λ c, clean_alnum c = true)
    (EmotionModelTrainer.preprocess_text text).
Proof.
  intros Hlow. destruct text as [|s]; simpl; [done|].
  apply Forall_forall. intros c Hc%strip_elem.
  apply sub_outside_elem in Hc as [Hc Hk].
  apply sub_spaces_elem in Hc as [->|[Hc Hns]]; [done|].
  apply sub_mentions_elem, sub_urls_elem, Hlow in Hc.
  destruct (keep_alnum_no_upper c Hk Hc) as [?|[_ ?]]; congruence.
Qed.

Lemma clean_alnum_no_marker c : clean_alnum c = true → c ≠ 64 ∧ c ≠ 35.
Proof. split; intros ->; done. Qed.

Lemma trainer_preprocess_clean r :
  LowerFixesCaseless →
  Forall (λ c, clean_alnum c = true) r →
  EmotionModelTrainer.preprocess_text (Val r)
  = strip (sub_spaces false (sub_urls false r)).
Proof.
  intros Hfix Hall. simpl.
  rewrite Hfix by (eapply Forall_impl; [done | apply clean_alnum_caseless]).
  rewrite sub_mentions_fix.
  - rewrite sub_outside_fix; [done|].
    intros c [->|[Hc _]]%sub_spaces_elem; [done|].
    apply clean_alnum_keep. apply sub_urls_elem in Hc.
    by eapply Forall_forall in Hall.
  - intros c Hc%sub_urls_elem. apply clean_alnum_no_marker.
    by eapply Forall_forall in Hall.
Qed.

Lemma trainer_preprocess_clean_fix r :
  LowerFixesCaseless →
  Forall (λ c, clean_alnum c = true) r →
  EmotionModelTrainer.preprocess_text
    (Val (EmotionModelTrainer.preprocess_text (Val r)))
  = EmotionModelTrainer.preprocess_text (Val r).
Proof.
  intros Hfix Hall. rewrite (trainer_preprocess_clean r) by done.
  set (r' := strip (sub_spaces false (sub_urls false r))).
  assert (Forall (λ c, clean_alnum c = true) r') as Hall'.
  { apply Forall_forall. intros c Hc%strip_elem.
    apply sub_spaces_elem in Hc as [->|[Hc _]]; [done|].
    apply sub_urls_elem in Hc. by eapply Forall_forall in Hall. }
  rewrite (trainer_preprocess_clean r') by done.
  rewrite sub_urls_fix
    by apply strip_no_url, sub_spaces_no_url, sub_urls_no_url.
  rewrite sub_spaces_fix
    by apply (strip_single_spaced false), sub_spaces_single.
  apply strip_fix; [apply strip_head | apply strip_last].
Qed.

End Idempotence.

(** C4, amended. [smart_preprocess_text] of [fast_85_accuracy_model.py] is
    idempotent. [preprocess_text] of [train_custom_model.py] is idempotent on
    every text made of the characters it can return (letters [a-z], digits,
    spaces, [.,!?]), so that it is stable from its second application on. *)
Theorem preprocess_idempotence `{PyStr} (Hlow : LowerNoUpper)
    (Hfix : LowerFixesCaseless) (text : cell) :
  Fast85AccuracyModel.smart_preprocess_text
    (Val (Fast85AccuracyModel.smart_preprocess_text text))
  = Fast85AccuracyModel.smart_preprocess_text text
  ∧ (∀ r, Forall (λ c, clean_alnum c = true) r →
       EmotionModelTrainer.preprocess_text
         (Val (EmotionModelTrainer.preprocess_text (Val r)))
       = EmotionModelTrainer.preprocess_text (Val r))
  ∧ EmotionModelTrainer.preprocess_text
      (Val (EmotionModelTrainer.preprocess_text
              (Val (EmotionModelTrainer.preprocess_text text))))
    = EmotionModelTrainer.preprocess_text
        (Val (EmotionModelTrainer.preprocess_text text)).
Proof.
  split; [|split].
  - destruct (smart_preprocess_text_strong text Hlow) as (?&?&?&?).
    by apply smart_preprocess_text_fix.
  - intros r Hr. by apply trainer_preprocess_clean_fix.
  - apply trainer_preprocess_clean_fix; [done|].
    by apply trainer_preprocess_chars.
Qed.

Lemma preprocess_idempotence_witness :
  EmotionModelTrainer.preprocess_text (Val (txt "Ht-tpx #Tag B!"))
  = txt "httpx b!"
  ∧ EmotionModelTrainer.preprocess_text (Val (txt "httpx b!")) = txt "b!"
  ∧ Fast85AccuracyModel.smart_preprocess_text
      (Val (Fast85AccuracyModel.smart_preprocess_text
              (Val (txt "Ht-tpx #Tag B!"))))
    = Fast85AccuracyModel.smart_preprocess_text (Val (txt "Ht-tpx #Tag B!"))
  ∧ (∀ r, Forall (λ c, clean_alnum c = true) r →
       EmotionModelTrainer.preprocess_text
         (Val (EmotionModelTrainer.preprocess_text (Val r)))
       = EmotionModelTrainer.preprocess_text (Val r))
  ∧ EmotionModelTrainer.preprocess_text
      (Val (EmotionModelTrainer.preprocess_text
              (Val (EmotionModelTrainer.preprocess_text
                      (Val (txt "Ht-tpx #Tag B!"))))))
    = EmotionModelTrainer.preprocess_text
        (Val (EmotionModelTrainer.preprocess_text
                (Val (txt "Ht-tpx #Tag B!")))).
Proof.
  split; [vm_compute; reflexivity|]. split; [vm_compute; reflexivity|].
  apply (preprocess_idempotence ascii_lower_no_upper
           ascii_lower_fixes_caseless (Val (txt "Ht-tpx #Tag B!"))).
Defined.

(** C4 as stated fails for [preprocess_text] of [train_custom_model.py]:
    the URL step comes before the deletion of special characters, as it
    does in [advanced_preprocess_text], so that the deletion can leave a
    match of the URL pattern, which a second application deletes. *)
Lemma trainer_preprocess_text_not_idempotent :
  EmotionModelTrainer.preprocess_text (Val (txt "ht-tpx")) = txt "httpx"
  ∧ EmotionModelTrainer.preprocess_text
      (Val (EmotionModelTrainer.preprocess_text (Val (txt "ht-tpx"))))
    = []
  ∧ AdvancedEnsembleModel.advanced_preprocess_text (Val (txt "ht-tpx"))
    = txt "httpx"
  ∧ AdvancedEnsembleModel.advanced_preprocess_text
      (Val (AdvancedEnsembleModel.advanced_preprocess_text
              (Val (txt "ht-tpx"))))
    = [].
Proof. repeat split; vm_compute; reflexivity. Qed.

(** ** What the preprocessing functions delete *)

Section Deleting.
Context `{PyStr}.

Lemma clean_alpha_alnum c : clean_alpha c = true → clean_alnum c = true.
Proof. char_solve. Qed.

Lemma clean_no_mention r :
  Forall (λ c, clean_alnum c = true) r → has_mention r = false.
Proof.
  intros Hall. apply no_marker_no_mention. intros c Hc.
  apply clean_alnum_no_marker. by eapply Forall_forall in Hall.
Qed.

Lemma advanced_preprocess_chars (text : cell) :
  LowerNoUpper →
  Forall (λ c, clean_alpha c = true)
    (AdvancedEnsembleModel.advanced_preprocess_text text).
Proof.
  intros Hlow. destruct text as [|s]; simpl; [done|].
  apply Forall_forall. intros c Hc%strip_elem.
  apply sub_spaces_elem in Hc as [->|[Hc Hns]]; [done|].
  apply sub_outside_elem in Hc as [Hc Hk].
  apply sub_mentions_elem, sub_urls_elem, Hlow in Hc.
  destruct (keep_alpha_no_upper c Hk Hc) as [?|[_ ?]]; congruence.
Qed.

Lemma advanced_preprocess_clean r :
  LowerFixesCaseless →
  Forall (λ c, clean_alpha c = true) r →
  AdvancedEnsembleModel.advanced_preprocess_text (Val r)
  = strip (sub_spaces false (sub_urls false r)).
Proof.
  intros Hfix Hall. simpl.
  rewrite Hfix by (eapply Forall_impl; [done | apply clean_alpha_caseless]).
  rewrite sub_mentions_fix.
  - rewrite sub_outside_fix; [done|].
    intros c Hc%sub_urls_elem. apply clean_alpha_keep.
    by eapply Forall_forall in Hall.
  - intros c Hc%sub_urls_elem.
    apply clean_alnum_no_marker, clean_alpha_alnum.
    by eapply Forall_forall in Hall.
Qed.

Lemma collapsed_no_url r :
  has_url (strip (sub_spaces false (sub_urls false r))) = false.
Proof. apply strip_no_url, sub_spaces_no_url, sub_urls_no_url. Qed.

End Deleting.

(** ** The URL step against its description *)

(** Inside a match the scan leaves out the rest of the run of
    non-whitespace and goes on after it. *)
Lemma sub_urls_inside_run s :
  ∃ m t, s = m ++ t
    ∧ Forall (λ x, isspace x = false) m
    ∧ (∀ c, head t = Some c → isspace c = true)
    ∧ sub_urls true s = sub_urls false t.
Proof.
  induction s as [|c s IH].
  - exists [], []. by repeat split.
  - destruct IH as (m & t & -> & Hm & Ht & Hs).
    destruct (isspace c) eqn:Hc.
    + exists [], (c :: m ++ t). split; [done|]. split; [done|]. split.
      * by intros ? [= <-].
      * cbn [sub_urls]. by rewrite Hc.
    + exists (c :: m), t. split; [done|]. split; [by constructor|].
      split; [done|]. cbn [sub_urls]. by rewrite Hc.
Qed.

Lemma sub_urls_deleted s : urls_deleted s (sub_urls false s).
Proof.
  assert (∀ n s, (length s ≤ n)%nat → urls_deleted s (sub_urls false s))
    as Hall.
  { clear s. induction n as [|n IH]; intros [|c s] Hn;
      try (simpl in Hn; lia); try constructor.
    cbn [sub_urls andb]. destruct (url_at (c :: s)) eqn:Hu.
    - destruct (sub_urls_inside_run s) as (m & t & -> & Hm & Ht & ->).
      apply (urls_deleted_match (c :: m) t); [done | | done |].
      + constructor; [|done]. destruct (isspace c) eqn:Hc; [|done].
        by rewrite url_at_space in Hu.
      + apply IH. simpl in Hn. rewrite length_app in Hn. lia.
    - constructor; [done|]. apply IH. simpl in Hn. lia. }
  by apply (Hall (length s)).
Qed.

Lemma nonspace_run_unique (m m' t t' : list N) :
  m ++ t = m' ++ t' →
  Forall (λ x, isspace x = false) m → Forall (λ x, isspace x = false) m' →
  (∀ c, head t = Some c → isspace c = true) →
  (∀ c, head t' = Some c → isspace c = true) →
  m = m' ∧ t = t'.
Proof.
  intros Heq Hm. revert m' Heq.
  induction Hm as [|x m Hx _ IH]; intros [|y m'] Heq Hm' Ht Ht'; simpl in Heq.
  - done.
  - subst t. apply Forall_cons in Hm' as [Hy _].
    specialize (Ht y eq_refl). congruence.
  - subst t'. specialize (Ht' x eq_refl). congruence.
  - injection Heq as <- Heq. apply Forall_cons in Hm' as [_ Hm'].
    destruct (IH m' Heq Hm' Ht Ht') as [-> ->]. done.
Qed.

(** The description names one text. *)
Lemma urls_deleted_unique t u u' :
  urls_deleted t u → urls_deleted t u' → u = u'.
Proof.
  intros Hu. revert u'.
  induction Hu as [|c t u Hno _ IH|m t u Hat Hm Ht _ IH]; intros u' Hu'.
  - remember [] as s eqn:Hs.
    destruct Hu' as [|c t0 u0 Hno Hrest|m' t' u0 Hat' Hm' Ht' Hrest].
    + done.
    + discriminate Hs.
    + apply app_eq_nil in Hs as [-> ->]. discriminate Hat'.
  - remember (c :: t) as s eqn:Hs.
    destruct Hu' as [|c0 t0 u0 Hno' Hrest|m' t' u0 Hat' Hm' Ht' Hrest].
    + discriminate Hs.
    + injection Hs as -> ->. f_equal. by apply IH.
    + rewrite Hs in Hat'. congruence.
  - remember (m ++ t) as s eqn:Hs.
    destruct Hu' as [|c t0 u0 Hno Hrest|m' t' u0 Hat' Hm' Ht' Hrest].
    + done.
    + congruence.
    + destruct (nonspace_run_unique m' m t' t Hs Hm' Hm Ht' Ht) as [-> ->].
      by apply IH.
Qed.

(** C2, amended. Each preprocessing function returns a string over its own
    alphabet: [a-z], the space and [.,!?], with the digits in
    [train_custom_model.py]; so no capital letter, no special character and
    no mention or hashtag survives. [preprocess_text] and
    [advanced_preprocess_text] delete every match of the URL pattern from
    the lowercased text before their other steps: their result is what the
    other steps make of the one text [u] that is the lowercased input with
    every URL match deleted, and [u] has no URL match. They return a text
    without URL match when the input holds characters of their alphabet
    only. *)
Theorem preprocess_deletes `{PyStr} (Hlow : LowerNoUpper)
    (Hfix : LowerFixesCaseless) (text : cell) :
  (Forall (λ c, clean_alpha c = true)
     (Fast85AccuracyModel.smart_preprocess_text text)
   ∧ has_mention (Fast85AccuracyModel.smart_preprocess_text text) = false)
  ∧ (Forall (λ c, clean_alnum c = true)
       (EmotionModelTrainer.preprocess_text text)
     ∧ has_mention (EmotionModelTrainer.preprocess_text text) = false)
  ∧ (Forall (λ c, clean_alpha c = true)
       (AdvancedEnsembleModel.advanced_preprocess_text text)
     ∧ has_mention (AdvancedEnsembleModel.advanced_preprocess_text text)
       = false)
  ∧ (∀ s, ∃ u, urls_deleted (str_lower s) u
       ∧ (∀ u', urls_deleted (str_lower s) u' → u' = u)
       ∧ has_url u = false
       ∧ EmotionModelTrainer.preprocess_text (Val s)
         = strip (sub_outside keep_alnum
                    (sub_spaces false (sub_mentions false u)))
       ∧ AdvancedEnsembleModel.advanced_preprocess_text (Val s)
         = strip (sub_spaces false
                    (sub_outside keep_alpha (sub_mentions false u))))
  ∧ (∀ r, Forall (λ c, clean_alnum c = true) r →
       has_url (EmotionModelTrainer.preprocess_text (Val r)) = false)
  ∧ (∀ r, Forall (λ c, clean_alpha c = true) r →
       has_url (AdvancedEnsembleModel.advanced_preprocess_text (Val r))
       = false).
Proof.
  assert (Forall (λ c, clean_alpha c = true)
            (Fast85AccuracyModel.smart_preprocess_text text)) as H1
    by by destruct (smart_preprocess_text_strong text Hlow).
  pose proof (trainer_preprocess_chars text Hlow) as H2.
  pose proof (advanced_preprocess_chars text Hlow) as H3.
  repeat split; try done.
  - apply clean_no_mention. eapply Forall_impl; [done|].
    apply clean_alpha_alnum.
  - by apply clean_no_mention.
  - apply clean_no_mention. eapply Forall_impl; [done|].
    apply clean_alpha_alnum.
  - intros s. exists (sub_urls false (str_lower s)).
    split; [apply sub_urls_deleted|]. split.
    + intros u' Hu'. apply (urls_deleted_unique (str_lower s)); [done|].
      apply sub_urls_deleted.
    + split; [apply sub_urls_no_url | done].
  - intros r Hr. rewrite trainer_preprocess_clean by done.
    apply collapsed_no_url.
  - intros r Hr. rewrite advanced_preprocess_clean by done.
    apply collapsed_no_url.
Qed.

Lemma preprocess_deletes_witness :
  EmotionModelTrainer.preprocess_text
    (Val (txt "Read https://a.io/x @Bob #fun NOW!")) = txt "read now!"
  ∧ AdvancedEnsembleModel.advanced_preprocess_text
      (Val (txt "Read https://a.io/x @Bob #fun NOW!")) = txt "read now!"
  ∧ (Forall (λ c, clean_alpha c = true)
       (Fast85AccuracyModel.smart_preprocess_text
          (Val (txt "Read https://a.io/x @Bob #fun NOW!")))
     ∧ has_mention (Fast85AccuracyModel.smart_preprocess_text
                      (Val (txt "Read https://a.io/x @Bob #fun NOW!")))
       = false)
  ∧ (Forall (λ c, clean_alnum c = true)
       (EmotionModelTrainer.preprocess_text
          (Val (txt "Read https://a.io/x @Bob #fun NOW!")))
     ∧ has_mention (EmotionModelTrainer.preprocess_text
                      (Val (txt "Read https://a.io/x @Bob #fun NOW!")))
       = false)
  ∧ (Forall (λ c, clean_alpha c = true)
       (AdvancedEnsembleModel.advanced_preprocess_text
          (Val (txt "Read https://a.io/x @Bob #fun NOW!")))
     ∧ has_mention (AdvancedEnsembleModel.advanced_preprocess_text
                      (Val (txt "Read https://a.io/x @Bob #fun NOW!")))
       = false)
  ∧ (∀ s, ∃ u, urls_deleted (str_lower s) u
       ∧ (∀ u', urls_deleted (str_lower s) u' → u' = u)
       ∧ has_url u = false
       ∧ EmotionModelTrainer.preprocess_text (Val s)
         = strip (sub_outside keep_alnum
                    (sub_spaces false (sub_mentions false u)))
       ∧ AdvancedEnsembleModel.advanced_preprocess_text (Val s)
         = strip (sub_spaces false
                    (sub_outside keep_alpha (sub_mentions false u))))
  ∧ (∀ r, Forall (λ c, clean_alnum c = true) r →
       has_url (EmotionModelTrainer.preprocess_text (Val r)) = false)
  ∧ (∀ r, Forall (λ c, clean_alpha c = true) r →
       has_url (AdvancedEnsembleModel.advanced_preprocess_text (Val r))
       = false).
Proof.
  split; [vm_compute; reflexivity|]. split; [vm_compute; reflexivity|].
  apply (preprocess_deletes ascii_lower_no_upper ascii_lower_fixes_caseless
           (Val (txt "Read https://a.io/x @Bob #fun NOW!"))).
Defined.

(** C2 as stated fails: [smart_preprocess_text] has no URL step and returns
    a URL of kept characters as it is; in [preprocess_text] the characters
    deleted after the URL step can leave a match of the URL pattern. *)
Lemma preprocess_keeps_url :
  Fast85AccuracyModel.smart_preprocess_text
    (Val (txt "Visit www.example.com now")) = txt "visit www.example.com now"
  ∧ has_url (txt "visit www.example.com now") = true
  ∧ EmotionModelTrainer.preprocess_text (Val (txt "ht-tpx")) = txt "httpx"
  ∧ has_url (txt "httpx") = true.
Proof. repeat split; vm_compute; reflexivity. Qed.

(** ** Averaging word vectors *)

Section Averaging.
Context `{PyStr} `{Float64}.

Lemma np_iadd_shape (a v : list F) :
  length a = 100%nat → length v = 100%nat →
  np_iadd a v = inr (zip_with fadd a v)
  ∧ length (zip_with fadd a v) = 100%nat.
Proof.
  intros Ha Hv. unfold np_iadd. rewrite decide_True by congruence.
  split; [done|]. rewrite length_zip_with. lia.
Qed.

Lemma np_iadd_error (a v : list F) e : np_iadd a v = inl e → e = ValueError.
Proof.
  unfold np_iadd. destruct (decide _); [done|].
  destruct v as [|x [|??]]; congruence.
Qed.

Lemma fast_glove_loop_mean glove words acc n :
  GloveShape glove → length acc = 100%nat →
  Fast85AccuracyModel.glove_loop glove words acc n
  = inr (foldl (zip_with fadd) acc (omap (λ w, glove !! w) words),
         (n + length (omap (λ w, glove !! w) words))%nat).
Proof.
  intros Hshape. revert acc n.
  induction words as [|word words IH]; intros acc n Hacc; simpl.
  - by rewrite Nat.add_0_r.
  - destruct (glove !! word) as [v|] eqn:Hw; [|by apply IH].
    destruct (np_iadd_shape acc v Hacc (Hshape _ _ Hw)) as [-> Hlen].
    simpl. rewrite IH by done. simpl. by rewrite Nat.add_succ_r.
Qed.

Lemma fast_glove_loop_error glove words acc n e :
  Fast85AccuracyModel.glove_loop glove words acc n = inl e → e = ValueError.
Proof.
  revert acc n. induction words as [|word words IH]; intros acc n; [done|].
  simpl. destruct (glove !! word) as [v|]; [|apply IH].
  destruct (np_iadd acc v) as [e'|acc'] eqn:Hadd; simpl.
  - intros [= <-]. by eapply np_iadd_error.
  - apply IH.
Qed.

Lemma convert_glove_loop_same glove words acc n :
  ConvertToCoreml.glove_loop glove words acc n
  = Fast85AccuracyModel.glove_loop glove words acc n.
Proof.
  revert acc n. induction words as [|word words IH]; intros acc n; [done|].
  simpl. destruct (glove !! word) as [v|]; [|apply IH].
  destruct (np_iadd acc v); simpl; [done | apply IH].
Qed.

Lemma advanced_glove_loop_mean glove words acc n :
  GloveShape glove → length acc = 100%nat →
  let known := omap (λ w, match glove !! w with
                          | Some v => Some v
                          | None => glove !! str_lower w
                          end) words in
  AdvancedEnsembleModel.glove_loop glove words acc n
  = inr (foldl (zip_with fadd) acc known, (n + length known)%nat).
Proof.
  intros Hshape. revert acc n.
  induction words as [|word words IH]; intros acc n Hacc; simpl.
  - by rewrite Nat.add_0_r.
  - destruct (glove !! word) as [v|] eqn:Hw.
    + destruct (np_iadd_shape acc v Hacc (Hshape _ _ Hw)) as [-> Hlen].
      simpl. rewrite IH by done. simpl. by rewrite Nat.add_succ_r.
    + destruct (glove !! str_lower word) as [v|] eqn:Hl; [|by apply IH].
      destruct (np_iadd_shape acc v Hacc (Hshape _ _ Hl)) as [-> Hlen].
      simpl. rewrite IH by done. simpl. by rewrite Nat.add_succ_r.
Qed.

Lemma advanced_glove_loop_error glove words acc n e :
  AdvancedEnsembleModel.glove_loop glove words acc n = inl e →
  e = ValueError.
Proof.
  revert acc n. induction words as [|word words IH]; intros acc n; [done|].
  simpl. destruct (glove !! word) as [v|].
  - destruct (np_iadd acc v) as [e'|acc'] eqn:Hadd; simpl.
    + intros [= <-]. by eapply np_iadd_error.
    + apply IH.
  - destruct (glove !! str_lower word) as [v|]; [|apply IH].
    destruct (np_iadd acc v) as [e'|acc'] eqn:Hadd; simpl.
    + intros [= <-]. by eapply np_iadd_error.
    + apply IH.
Qed.

(** The division after the loop: guarded by [word_count > 0], it returns. *)
Lemma guarded_division (loop : pyerr + (list F * nat)) :
  (∀ e, loop = inl e → e = ValueError) →
  ('(embedding_vector, word_count) ← loop;
   if decide (0 < word_count)%nat then np_idiv embedding_vector word_count
   else inr embedding_vector) ≠ inl ZeroDivision.
Proof.
  intros Hloop. destruct loop as [e|[acc n]]; simpl.
  - intros [= ->]. by specialize (Hloop _ eq_refl).
  - destruct (decide _) as [Hn|]; [|done]. by destruct n; [lia|].
Qed.

Lemma mean_after_loop (vs : list (list F)) :
  (if decide (0 < 0 + length vs)%nat
   then np_idiv (foldl (zip_with fadd) (np_zeros 100) vs) (0 + length vs)
   else inr (foldl (zip_with fadd) (np_zeros 100) vs))
  = inr (match vs with
         | [] => np_zeros 100
         | _ :: _ => (λ y, fdiv y (f_of_nat (length vs))) <$> vector_sum vs
         end).
Proof.
  destruct vs as [|v vs]; [done|].
  cbn [length Nat.add]. destruct (decide _); [done | lia].
Qed.

End Averaging.

Section NoKnownWord.
Context `{PyStr} `{Float64}.

Lemma fast_glove_loop_none glove words acc n :
  omap (λ w, glove !! w) words = [] →
  Fast85AccuracyModel.glove_loop glove words acc n = inr (acc, n).
Proof.
  induction words as [|word words IH]; simpl; [done|].
  destruct (glove !! word); [done | apply IH].
Qed.

Lemma advanced_glove_loop_none glove words acc n :
  omap (λ w, match glove !! w with
             | Some v => Some v
             | None => glove !! str_lower w
             end) words = [] →
  AdvancedEnsembleModel.glove_loop glove words acc n = inr (acc, n).
Proof.
  induction words as [|word words IH]; simpl; [done|].
  destruct (glove !! word); [done|].
  destruct (glove !! str_lower word); [done | apply IH].
Qed.

End NoKnownWord.

Lemma fast_glove_vector_mean `{Sklearn} (self : Fast85AccuracyModel.model)
    (text : list N) (max_length : nat) :
  GloveShape (Fast85AccuracyModel.glove_embeddings self) →
  Fast85AccuracyModel.text_to_glove_vector self text max_length
  = inr (mean_of_known_words (Fast85AccuracyModel.glove_embeddings self)
           max_length text).
Proof.
  intros Hshape. unfold Fast85AccuracyModel.text_to_glove_vector.
  rewrite fast_glove_loop_mean by (done || apply length_replicate).
  apply mean_after_loop.
Qed.

Lemma tiny_glove_shape : GloveShape tiny_glove.
Proof.
  intros word v. unfold tiny_glove.
  rewrite lookup_insert. case_decide; [by intros [= <-]|].
  rewrite lookup_singleton. case_decide; [by intros [= <-] | done].
Qed.

(** C3, amended. On a table whose vectors all have 100 entries,
    [text_to_glove_vector] of [fast_85_accuracy_model.py] and of
    [convert_to_coreml.py] returns the arithmetic mean of the vectors of those
    among the first [max_length] words that are keys of the table; that of
    [advanced_ensemble_model.py] also counts a word that is no key with the
    vector of its lowercase form. On any table, the result is the all-zero
    vector of 100 entries when no word counts, and no division by zero
    occurs. *)
Theorem text_to_glove_vector_mean `{PyStr} `{Sklearn}
    (fast : Fast85AccuracyModel.model) (adv : AdvancedEnsembleModel.model)
    (glove : gmap (list N) (list F)) (text : list N) (max_length : nat) :
  (GloveShape (Fast85AccuracyModel.glove_embeddings fast) →
     Fast85AccuracyModel.text_to_glove_vector fast text max_length
     = inr (mean_of_known_words (Fast85AccuracyModel.glove_embeddings fast)
              max_length text))
  ∧ (GloveShape glove →
       ConvertToCoreml.text_to_glove_vector text glove max_length
       = inr (mean_of_known_words glove max_length text))
  ∧ (GloveShape (AdvancedEnsembleModel.glove_embeddings adv) →
       AdvancedEnsembleModel.text_to_glove_vector adv text max_length
       = inr (mean_of_known_words_lower
                (AdvancedEnsembleModel.glove_embeddings adv) max_length text))
  ∧ (known_vectors (Fast85AccuracyModel.glove_embeddings fast) max_length text
     = [] →
       Fast85AccuracyModel.text_to_glove_vector fast text max_length
       = inr (replicate 100 (f_of_nat 0)))
  ∧ (known_vectors glove max_length text = [] →
       ConvertToCoreml.text_to_glove_vector text glove max_length
       = inr (replicate 100 (f_of_nat 0)))
  ∧ (known_vectors_lower (AdvancedEnsembleModel.glove_embeddings adv)
       max_length text = [] →
       AdvancedEnsembleModel.text_to_glove_vector adv text max_length
       = inr (replicate 100 (f_of_nat 0)))
  ∧ Fast85AccuracyModel.text_to_glove_vector fast text max_length
    ≠ inl ZeroDivision
  ∧ ConvertToCoreml.text_to_glove_vector text glove max_length
    ≠ inl ZeroDivision
  ∧ AdvancedEnsembleModel.text_to_glove_vector adv text max_length
    ≠ inl ZeroDivision.
Proof.
  repeat split.
  - apply fast_glove_vector_mean.
  - intros Hshape. unfold ConvertToCoreml.text_to_glove_vector.
    rewrite convert_glove_loop_same.
    rewrite fast_glove_loop_mean by (done || apply length_replicate).
    apply mean_after_loop.
  - intros Hshape. unfold AdvancedEnsembleModel.text_to_glove_vector.
    rewrite advanced_glove_loop_mean by (done || apply length_replicate).
    apply mean_after_loop.
  - intros Hnone. unfold Fast85AccuracyModel.text_to_glove_vector.
    by rewrite fast_glove_loop_none.
  - intros Hnone. unfold ConvertToCoreml.text_to_glove_vector.
    rewrite convert_glove_loop_same. by rewrite fast_glove_loop_none.
  - intros Hnone. unfold AdvancedEnsembleModel.text_to_glove_vector.
    by rewrite advanced_glove_loop_none.
  - apply guarded_division. intros e. apply fast_glove_loop_error.
  - apply guarded_division. intros e. rewrite convert_glove_loop_same.
    apply fast_glove_loop_error.
  - apply guarded_division. intros e. apply advanced_glove_loop_error.
Qed.

Lemma text_to_glove_vector_mean_witness :
  ConvertToCoreml.text_to_glove_vector (txt "good day good sir") tiny_glove 40
  = inr (replicate 100 (Qdiv (inject_Z 5) (inject_Z 3)))
  ∧ ConvertToCoreml.text_to_glove_vector (txt "good day good sir")
      tiny_glove 40
    = inr (mean_of_known_words tiny_glove 40 (txt "good day good sir"))
  ∧ ConvertToCoreml.text_to_glove_vector (txt "good day good sir")
      tiny_glove 40 ≠ inl ZeroDivision.
Proof.
  split; [vm_compute; reflexivity|].
  pose (fast := {| Fast85AccuracyModel.glove_embeddings := tiny_glove;
                   Fast85AccuracyModel.ensemble_model := None;
                   Fast85AccuracyModel.scaler := tt;
                   Fast85AccuracyModel.tfidf_vectorizer := None |}).
  pose (adv := {| AdvancedEnsembleModel.glove_embeddings := tiny_glove;
                  AdvancedEnsembleModel.ensemble_model := None;
                  AdvancedEnsembleModel.scaler := tt;
                  AdvancedEnsembleModel.tfidf_vectorizer := None |}).
  destruct (text_to_glove_vector_mean fast adv tiny_glove
              (txt "good day good sir") 40)
    as (_ & Hmean & _ & _ & _ & _ & _ & Hdiv & _).
  split; [apply Hmean, tiny_glove_shape | apply Hdiv].
Defined.

(** C3 as stated fails for [advanced_ensemble_model.py]: a word that is no
    key of the table counts when its lowercase form is one. It also fails on
    a table with a vector of another length, where the addition raises. *)
Lemma advanced_glove_counts_lowercase :
  AdvancedEnsembleModel.text_to_glove_vector
    {| AdvancedEnsembleModel.glove_embeddings := tiny_glove;
       AdvancedEnsembleModel.ensemble_model := None;
       AdvancedEnsembleModel.scaler := tt;
       AdvancedEnsembleModel.tfidf_vectorizer := None |}
    (txt "Good") 50
  = inr (replicate 100 (inject_Z 1))
  ∧ known_vectors tiny_glove 50 (txt "Good") = []
  ∧ mean_of_known_words tiny_glove 50 (txt "Good")
    = replicate 100 (inject_Z 0)
  ∧ ConvertToCoreml.text_to_glove_vector (txt "good")
      {[ txt "good" := [inject_Z 1; inject_Z 2] ]} 40
    = inl ValueError.
Proof. repeat split; vm_compute; reflexivity. Qed.

(** ** The feature matrix *)

Lemma mapM_result_spec {A B} (f : A → pyerr + B) (l : list A) (ys : list B) :
  mapM f l = inr ys ↔ Forall2 (λ x y, f x = inr y) l ys.
Proof.
  revert ys. induction l as [|x l IH]; intros ys; simpl.
  - split; [intros [= <-]; constructor | by inversion 1].
  - destruct (f x) as [e|y] eqn:Hx; simpl.
    + split; [done|]. inversion 1 as [|???? Hy _]; subst.
      rewrite Hx in Hy. discriminate Hy.
    + destruct (mapM f l) as [e|k] eqn:Hl; simpl.
      * split; [done|]. inversion 1 as [|???? _ Hk]; subst.
        apply IH in Hk. done.
      * split.
        -- intros [= <-]. constructor; [done | by apply IH].
        -- inversion 1 as [|???? Hy Hk]; subst.
           apply IH in Hk. injection Hk as <-. rewrite Hx in Hy.
           by injection Hy as <-.
Qed.

Section Features.
Context `{PyStr} `{Sklearn}.

Lemma convert_row_statistics (text : list N) :
  to_f64 <$> ConvertToCoreml.extract_smart_features text
  = nine_statistics text.
Proof.
  unfold ConvertToCoreml.extract_smart_features, nine_statistics.
  by destruct (split text).
Qed.

Lemma smart_features_loop_spec texts features :
  Fast85AccuracyModel.smart_features_loop texts features
  = features ++ (ConvertToCoreml.extract_smart_features <$> texts).
Proof.
  revert features. induction texts as [|text texts IH]; intros features.
  - by rewrite app_nil_r.
  - cbn [Fast85AccuracyModel.smart_features_loop]. rewrite IH.
    by rewrite <-app_assoc.
Qed.

Lemma extract_smart_features_rows texts :
  Fast85AccuracyModel.extract_smart_features texts
  = nine_statistics <$> texts.
Proof.
  unfold Fast85AccuracyModel.extract_smart_features.
  rewrite smart_features_loop_spec. simpl.
  induction texts as [|text texts IH]; [done|].
  simpl. f_equal; [apply convert_row_statistics | apply IH].
Qed.

Lemma glove_vector_same (self : Fast85AccuracyModel.model) text max_length :
  Fast85AccuracyModel.text_to_glove_vector self text max_length
  = ConvertToCoreml.text_to_glove_vector text
      (Fast85AccuracyModel.glove_embeddings self) max_length.
Proof.
  unfold Fast85AccuracyModel.text_to_glove_vector,
    ConvertToCoreml.text_to_glove_vector.
  pose proof (convert_glove_loop_same
                (Fast85AccuracyModel.glove_embeddings self)
                (take max_length (split text)) (np_zeros 100) 0) as Hloop.
  by destruct Hloop.
Qed.

(** With a fitted vectorizer the method reads the object and writes
    nothing. *)
Lemma prepare_fitted (self : Fast85AccuracyModel.model) v texts :
  Fast85AccuracyModel.tfidf_vectorizer self = Some (Fitted v) →
  Fast85AccuracyModel.prepare_smart_features self texts
  = (glove_features ←
       mapM (λ text, Fast85AccuracyModel.text_to_glove_vector self text 40)
         texts;
     np_hstack3 glove_features (tfidf_row v <$> texts)
       (nine_statistics <$> texts),
     self).
Proof.
  intros Hv. unfold Fast85AccuracyModel.prepare_smart_features.
  destruct (mapM _ texts) as [e|G]; [done|].
  rewrite Hv. simpl. by rewrite extract_smart_features_rows.
Qed.

(** Fitting on the first call: the fitted vectorizer is stored. *)
Lemma prepare_fitting (self : Fast85AccuracyModel.model) v texts G :
  Fast85AccuracyModel.tfidf_vectorizer self = None →
  tfidf_fit texts = inr v →
  mapM (λ text, Fast85AccuracyModel.text_to_glove_vector self text 40) texts
  = inr G →
  Fast85AccuracyModel.prepare_smart_features self texts
  = (np_hstack3 G (tfidf_row v <$> texts) (nine_statistics <$> texts),
     {| Fast85AccuracyModel.glove_embeddings :=
          Fast85AccuracyModel.glove_embeddings self;
        Fast85AccuracyModel.ensemble_model :=
          Fast85AccuracyModel.ensemble_model self;
        Fast85AccuracyModel.scaler := Fast85AccuracyModel.scaler self;
        Fast85AccuracyModel.tfidf_vectorizer := Some (Fitted v) |}).
Proof.
  intros Hnone Hfit HG. unfold Fast85AccuracyModel.prepare_smart_features.
  rewrite HG, Hnone, Hfit. by rewrite extract_smart_features_rows.
Qed.

Lemma hstack3_rows (G T S : list (list F)) :
  G ≠ [] → length T = length G → length S = length G →
  np_hstack3 G T S = inr (zip_with app G (zip_with app T S)).
Proof.
  intros HG HT HS. unfold np_hstack3. destruct G as [|g G]; [done|].
  by rewrite decide_True.
Qed.

Lemma hstack3_inv (G T S M : list (list F)) :
  np_hstack3 G T S = inr M → M = zip_with app G (zip_with app T S).
Proof.
  unfold np_hstack3. destruct G as [|g G]; [done|].
  destruct (decide _); [|done]. by intros [= <-].
Qed.

Lemma hstack3_lookup (G T S : list (list F)) i g t s :
  G !! i = Some g → T !! i = Some t → S !! i = Some s →
  zip_with app G (zip_with app T S) !! i = Some (g ++ t ++ s).
Proof.
  intros HG HT HS. rewrite lookup_zip_with, HG. simpl.
  rewrite lookup_zip_with, HT. simpl. by rewrite HS.
Qed.

(** One text alone. *)
Lemma prepare_single (self : Fast85AccuracyModel.model) v text :
  Fast85AccuracyModel.tfidf_vectorizer self = Some (Fitted v) →
  (Fast85AccuracyModel.prepare_smart_features self [text]).1
  = (λ g, [g ++ tfidf_row v text ++ nine_statistics text])
      <$> Fast85AccuracyModel.text_to_glove_vector self text 40.
Proof.
  intros Hv. rewrite (prepare_fitted self v) by done. simpl.
  by destruct (Fast85AccuracyModel.text_to_glove_vector self text 40).
Qed.

Lemma vector_sum_length (acc : list F) (vs : list (list F)) :
  length acc = 100%nat → Forall (λ v, length v = 100%nat) vs →
  length (foldl (zip_with fadd) acc vs) = 100%nat.
Proof.
  intros Hacc Hvs. revert acc Hacc.
  induction Hvs as [|v vs Hv _ IH]; intros acc Hacc; simpl; [done|].
  apply IH. rewrite length_zip_with. lia.
Qed.

Lemma mean_of_known_words_length glove max_length text :
  GloveShape glove →
  length (mean_of_known_words glove max_length text) = 100%nat.
Proof.
  intros Hshape. unfold mean_of_known_words.
  destruct (known_vectors glove max_length text) as [|v vs] eqn:Hk.
  - apply length_replicate.
  - rewrite length_fmap. apply vector_sum_length; [apply length_replicate|].
    rewrite <-Hk. apply Forall_forall. intros x Hx.
    apply list_elem_of_omap in Hx as (w & _ & Hw). by eapply Hshape.
Qed.

End Features.

Lemma tiny_tfidf_shape : @TfidfShape rational bag_of_words.
Proof. intros v text. simpl. apply length_fmap. Qed.

(** C1. For every input and every embedding table, the feature vector that
    [predict_sentiment] of [convert_to_coreml.py] builds (preprocessing,
    GloVe average over 40 words, TF-IDF row, smart features, in that order)
    is the one row that [prepare_smart_features] of
    [fast_85_accuracy_model.py] builds for the text preprocessed by
    [smart_preprocess_text], with the same fitted vectorizer and table; when
    one raises, so does the other. *)
Theorem inference_matches_training `{PyStr} `{Sklearn}
    (glove : gmap (list N) (list F)) (v : Vectorizer)
    (trained_ensemble : option Ensemble) (trained_scaler : Scaler)
    (loaded_ensemble : Ensemble) (loaded_scaler : Scaler) (text : cell) :
  let trained :=
    {| Fast85AccuracyModel.glove_embeddings := glove;
       Fast85AccuracyModel.ensemble_model := trained_ensemble;
       Fast85AccuracyModel.scaler := trained_scaler;
       Fast85AccuracyModel.tfidf_vectorizer := Some (Fitted v) |} in
  let loaded :=
    {| ConvertToCoreml.ensemble_model := loaded_ensemble;
       ConvertToCoreml.scaler := loaded_scaler;
       ConvertToCoreml.tfidf_vectorizer := Some (Fitted v);
       ConvertToCoreml.glove_embeddings := glove |} in
  (Fast85AccuracyModel.prepare_smart_features trained
     [Fast85AccuracyModel.smart_preprocess_text text]).1
  = (λ row, [row]) <$> ConvertToCoreml.combined_features loaded text.
Proof.
  intros trained loaded. rewrite (prepare_single trained v) by done.
  rewrite glove_vector_same. unfold ConvertToCoreml.combined_features.
  change (ConvertToCoreml.preprocess_text text)
    with (Fast85AccuracyModel.smart_preprocess_text text).
  simpl.
  destruct (ConvertToCoreml.text_to_glove_vector _ glove 40) as [e|g];
    [done|].
  simpl. unfold nine_statistics.
  by destruct (split (Fast85AccuracyModel.smart_preprocess_text text)).
Qed.

(** C5. With a fitted vectorizer, [prepare_smart_features] changes nothing
    in the object; so a second evaluation on the same texts gives the same
    matrix, an evaluation on other texts in between changes nothing, and the
    row of a text in a batch is the row the text gets alone. *)
Theorem feature_pipeline_stateless `{PyStr} `{Sklearn}
    (self : Fast85AccuracyModel.model) (v : Vectorizer)
    (texts others : list (list N))
    (Hfit : Fast85AccuracyModel.tfidf_vectorizer self = Some (Fitted v)) :
  let run := Fast85AccuracyModel.prepare_smart_features in
  (run self texts).2 = self
  ∧ (run (run self texts).2 texts).1 = (run self texts).1
  ∧ (run (run self others).2 texts).1 = (run self texts).1
  ∧ ∀ M i text, (run self texts).1 = inr M → texts !! i = Some text →
      ∃ row, M !! i = Some row ∧ (run self [text]).1 = inr [row].
Proof.
  intros run. unfold run.
  assert (∀ ts, (Fast85AccuracyModel.prepare_smart_features self ts).2 = self)
    as Hsame by (intros ts; by rewrite (prepare_fitted self v)).
  split; [apply Hsame|]. split; [by rewrite Hsame|].
  split; [by rewrite Hsame|].
  intros M i text HM Hi. rewrite (prepare_fitted self v) in HM by done.
  simpl in HM.
  destruct (mapM _ texts) as [e|G] eqn:HG; [done|]. simpl in HM.
  apply hstack3_inv in HM as ->.
  apply mapM_result_spec in HG.
  destruct (Forall2_lookup_l _ _ _ _ _ HG Hi) as (g & Hg & Htext).
  exists (g ++ tfidf_row v text ++ nine_statistics text). split.
  - apply hstack3_lookup; [done | |]; by rewrite list_lookup_fmap, Hi.
  - rewrite (prepare_single self v) by done. by rewrite Htext.
Qed.

Lemma feature_pipeline_stateless_witness :
  let self :=
    {| Fast85AccuracyModel.glove_embeddings := tiny_glove;
       Fast85AccuracyModel.ensemble_model := None;
       Fast85AccuracyModel.scaler := tt;
       Fast85AccuracyModel.tfidf_vectorizer :=
         Some (Fitted [txt "good"; txt "day"]) |} in
  let run := Fast85AccuracyModel.prepare_smart_features in
  let texts := [txt "good day!"; txt "bad"] in
  (run self texts).2 = self
  ∧ (run (run self texts).2 texts).1 = (run self texts).1
  ∧ (run (run self [txt "day"]).2 texts).1 = (run self texts).1
  ∧ ∀ M i text, (run self texts).1 = inr M → texts !! i = Some text →
      ∃ row, M !! i = Some row ∧ (run self [text]).1 = inr [row].
Proof.
  intros self run texts.
  apply (feature_pipeline_stateless self [txt "good"; txt "day"] texts
           [txt "day"]).
  reflexivity.
Defined.

(** C6. For a non-empty list of [n] texts, [extract_smart_features] returns
    [n] rows of nine entries, row [i] holding the nine statistics of text
    [i]; on a table of 100-entry vectors and with a vectorizer of [T]
    features (fitted before, or fitted by this call),
    [prepare_smart_features] returns [n] rows of [100 + T + 9] entries, row
    [i] being the GloVe average of text [i], then its TF-IDF row, then its
    nine statistics. *)
Theorem feature_matrix_shape `{PyStr} `{Sklearn}
    (self : Fast85AccuracyModel.model) (texts : list (list N))
    (v : Vectorizer)
    (Hne : texts ≠ [])
    (Hglove : GloveShape (Fast85AccuracyModel.glove_embeddings self))
    (Htfidf : TfidfShape)
    (Hfit : Fast85AccuracyModel.tfidf_vectorizer self = Some (Fitted v)
            ∨ (Fast85AccuracyModel.tfidf_vectorizer self = None
               ∧ tfidf_fit texts = inr v)) :
  (length (Fast85AccuracyModel.extract_smart_features texts) = length texts
   ∧ ∀ i text, texts !! i = Some text →
       Fast85AccuracyModel.extract_smart_features texts !! i
       = Some (nine_statistics text)
       ∧ length (nine_statistics text) = 9%nat)
  ∧ ∃ M, (Fast85AccuracyModel.prepare_smart_features self texts).1 = inr M
      ∧ length M = length texts
      ∧ ∀ i text, texts !! i = Some text →
          ∃ g, Fast85AccuracyModel.text_to_glove_vector self text 40 = inr g
            ∧ length g = 100%nat
            ∧ M !! i = Some (g ++ tfidf_row v text ++ nine_statistics text)
            ∧ length (g ++ tfidf_row v text ++ nine_statistics text)
              = (100 + n_features v + 9)%nat.
Proof.
  split.
  { rewrite extract_smart_features_rows, length_fmap. split; [done|].
    intros i text Hi. by rewrite list_lookup_fmap, Hi. }
  set (G := (λ text, mean_of_known_words
                       (Fast85AccuracyModel.glove_embeddings self) 40 text)
            <$> texts).
  assert (∀ text, Fast85AccuracyModel.text_to_glove_vector self text 40
                  = inr (mean_of_known_words
                           (Fast85AccuracyModel.glove_embeddings self) 40
                           text)) as Hmean.
  { intros text. by apply fast_glove_vector_mean. }
  assert (mapM (λ text, Fast85AccuracyModel.text_to_glove_vector self text 40)
            texts = inr G) as HG.
  { apply mapM_result_spec. unfold G. clear Hne Hfit.
    induction texts as [|text texts IH]; simpl; constructor; [apply Hmean|].
    apply IH. }
  exists (zip_with app G (zip_with app (tfidf_row v <$> texts)
                            (nine_statistics <$> texts))).
  assert (G ≠ []) as HGne by (unfold G; by destruct texts).
  assert (length G = length texts) as HGlen by apply length_fmap.
  split; [|split].
  - destruct Hfit as [Hfit|[Hnone Hfit]].
    + rewrite (prepare_fitted self v) by done. simpl. rewrite HG. simpl.
      apply hstack3_rows; [done | |]; by rewrite length_fmap.
    + rewrite (prepare_fitting self v texts G) by done. simpl.
      apply hstack3_rows; [done | |]; by rewrite length_fmap.
  - rewrite !length_zip_with, !length_fmap, HGlen. lia.
  - intros i text Hi.
    exists (mean_of_known_words (Fast85AccuracyModel.glove_embeddings self)
              40 text).
    assert (length (mean_of_known_words
                      (Fast85AccuracyModel.glove_embeddings self) 40 text)
            = 100%nat) as Hlen by by apply mean_of_known_words_length.
    split; [apply Hmean|]. split; [done|]. split.
    + unfold G. apply hstack3_lookup; by rewrite list_lookup_fmap, Hi.
    + rewrite !length_app, Hlen, Htfidf. done.
Qed.

Lemma feature_matrix_shape_witness :
  let self :=
    {| Fast85AccuracyModel.glove_embeddings := tiny_glove;
       Fast85AccuracyModel.ensemble_model := None;
       Fast85AccuracyModel.scaler := tt;
       Fast85AccuracyModel.tfidf_vectorizer := None |} in
  let texts := [txt "good day!"; txt "bad"] in
  Fast85AccuracyModel.extract_smart_features texts
  = [(inject_Z <$> [9; 2; 1; 0; 1; 0; 0; 0]%Z)
       ++ [Qdiv (inject_Z 8) (inject_Z 2)];
     (inject_Z <$> [3; 1; 0; 0; 0; 1; 0; 0]%Z)
       ++ [Qdiv (inject_Z 3) (inject_Z 1)]]
  ∧ (length (Fast85AccuracyModel.extract_smart_features texts) = length texts
     ∧ ∀ i text, texts !! i = Some text →
         Fast85AccuracyModel.extract_smart_features texts !! i
         = Some (nine_statistics text)
         ∧ length (nine_statistics text) = 9%nat)
  ∧ ∃ M, (Fast85AccuracyModel.prepare_smart_features self texts).1 = inr M
      ∧ length M = length texts
      ∧ ∀ i text, texts !! i = Some text →
          ∃ g, Fast85AccuracyModel.text_to_glove_vector self text 40 = inr g
            ∧ length g = 100%nat
            ∧ M !! i
              = Some (g ++ tfidf_row [txt "good"; txt "day!"; txt "bad"] text
                        ++ nine_statistics text)
            ∧ length (g ++ tfidf_row [txt "good"; txt "day!"; txt "bad"] text
                        ++ nine_statistics text)
              = (100 + 3 + 9)%nat.
Proof.
  intros self texts. split; [vm_compute; reflexivity|].
  apply (feature_matrix_shape self texts
           [txt "good"; txt "day!"; txt "bad"]).
  - done.
  - apply tiny_glove_shape.
  - apply tiny_tfidf_shape.
  - right. split; vm_compute; reflexivity.
Defined.

(** ** Saving the trained objects *)

Section Saving.
Context `{Sklearn}.

Lemma suffix_differs (name a b : string) :
  a ≠ b → name +:+ a ≠ name +:+ b.
Proof. intros Hab Heq. by apply (inj (String.append name)) in Heq. Qed.

(** The four dumps of the two saving methods, as they leave the files. *)
Lemma four_dumps (name : string) (e : Ensemble) (s : Scaler)
    (o : option tfidf_state) (g : gmap (list N) (list F))
    (fs : gmap string pickled) :
  let fs' :=
    <[name +:+ "_glove.joblib" := PickledGlove g]>
      (<[name +:+ "_tfidf.joblib" := PickledTfidf o]>
         (<[name +:+ "_scaler.joblib" := PickledScaler s]>
            (<[name +:+ "_ensemble.joblib" := PickledEnsemble e]> fs))) in
  fs' !! (name +:+ "_ensemble.joblib") = Some (PickledEnsemble e)
  ∧ fs' !! (name +:+ "_scaler.joblib") = Some (PickledScaler s)
  ∧ fs' !! (name +:+ "_tfidf.joblib") = Some (PickledTfidf o)
  ∧ fs' !! (name +:+ "_glove.joblib") = Some (PickledGlove g)
  ∧ ∀ path,
      path ∉ [name +:+ "_ensemble.joblib"; name +:+ "_scaler.joblib";
              name +:+ "_tfidf.joblib"; name +:+ "_glove.joblib"] →
      fs' !! path = fs !! path.
Proof.
  intros fs'. unfold fs'. repeat split.
  - rewrite !lookup_insert_ne by (by apply suffix_differs).
    apply lookup_insert_eq.
  - rewrite !lookup_insert_ne by (by apply suffix_differs).
    apply lookup_insert_eq.
  - rewrite lookup_insert_ne by (by apply suffix_differs).
    apply lookup_insert_eq.
  - apply lookup_insert_eq.
  - intros path Hpath. rewrite !not_elem_of_cons in Hpath.
    destruct Hpath as (? & ? & ? & ? & _).
    by rewrite !lookup_insert_ne.
Qed.

End Saving.

(** C7. With a trained ensemble, [save_optimized_model] and
    [save_advanced_ensemble] return [True] and leave the ensemble, the
    scaler, the TF-IDF vectorizer and the embedding table in the four
    [joblib] files, every other file being as before; with no ensemble they
    return [False] and leave the files and the console as they were. *)
Theorem save_writes_four_components `{Sklearn}
    (glove : gmap (list N) (list F)) (e : Ensemble) (s : Scaler)
    (o : option tfidf_state) (model_name : string) (w : world) :
  let fast o_e :=
    Fast85AccuracyModel.save_optimized_model
      {| Fast85AccuracyModel.glove_embeddings := glove;
         Fast85AccuracyModel.ensemble_model := o_e;
         Fast85AccuracyModel.scaler := s;
         Fast85AccuracyModel.tfidf_vectorizer := o |} model_name w in
  let advanced o_e :=
    AdvancedEnsembleModel.save_advanced_ensemble
      {| AdvancedEnsembleModel.glove_embeddings := glove;
         AdvancedEnsembleModel.ensemble_model := o_e;
         AdvancedEnsembleModel.scaler := s;
         AdvancedEnsembleModel.tfidf_vectorizer := o |} model_name w in
  let written (r : bool * world) :=
    r.1 = true
    ∧ files r.2 !! (model_name +:+ "_ensemble.joblib")
      = Some (PickledEnsemble e)
    ∧ files r.2 !! (model_name +:+ "_scaler.joblib") = Some (PickledScaler s)
    ∧ files r.2 !! (model_name +:+ "_tfidf.joblib") = Some (PickledTfidf o)
    ∧ files r.2 !! (model_name +:+ "_glove.joblib") = Some (PickledGlove glove)
    ∧ ∀ path,
        path ∉ [model_name +:+ "_ensemble.joblib";
                model_name +:+ "_scaler.joblib";
                model_name +:+ "_tfidf.joblib";
                model_name +:+ "_glove.joblib"] →
        files r.2 !! path = files w !! path in
  written (fast (Some e)) ∧ written (advanced (Some e))
  ∧ fast None = (false, w) ∧ advanced None = (false, w).
Proof.
  intros fast advanced written.
  pose proof (four_dumps model_name e s o glove (files w)) as Hfour.
  repeat split; try done; apply Hfour.
Qed.

(** ** Converting the LSTM model *)

Section ConvertingProofs.
Context {KerasModel MLModel WordIndex : Type}.

Ltac clash :=
  repeat match goal with
  | H : inl _ = inr _ |- _ => discriminate H
  | H : ?x = inl _, H' : ?x = inr _ |- _ => rewrite H in H'; discriminate H'
  | H : ?x = inr ?a, H' : ?x = inr ?b |- _ =>
      rewrite H in H'; injection H' as ?; subst
  | H : Some _ = Some _ |- _ => injection H as ?; subst
  | H : None = Some _ |- _ => discriminate H
  | H : Some _ = None |- _ => discriminate H
  end.

Ltac not_logged :=
  repeat match goal with
  | H : _ ∈ [] |- _ => by apply elem_of_nil in H
  | H : _ ∈ _ :: _ |- _ => apply elem_of_cons in H as [H|H]; [discriminate H|]
  end.

(** C8. [convert_to_coreml] of [train_custom_model.py] always returns (no
    exception of the [try] body reaches the caller); with no model it prints
    and returns [False] without calling the converter; it returns [True]
    exactly when every call of the body returned, which is exactly when the
    model package and the tokenizer configuration were both written; before
    returning [False] it prints a message; it calls the converter at most
    once. *)
Theorem convert_to_coreml_outcome
    (api : @EmotionModelTrainer.coreml_api KerasModel MLModel WordIndex)
    (self : @EmotionModelTrainer.trainer KerasModel WordIndex)
    (model_name : string) :
  let run := EmotionModelTrainer.convert_to_coreml api self model_name in
  (∃ b, run.2 = inr b)
  ∧ (EmotionModelTrainer.model self = None →
       run = ([EmotionModelTrainer.Printed "Converting to CoreML...";
               EmotionModelTrainer.Printed "No model to convert"],
              inr false))
  ∧ (run.2 = inr true ↔ all_returned api self model_name)
  ∧ (run.2 = inr true ↔ both_written model_name run.1)
  ∧ (run.2 = inr false → ends_with_failure_message run.1)
  ∧ (conversions run.1 ≤ 1)%nat.
Proof.
  intros run. unfold run, EmotionModelTrainer.convert_to_coreml,
    EmotionModelTrainer.convert_and_save, all_returned, both_written,
    ends_with_failure_message, conversions.
  destruct (EmotionModelTrainer.model self) as [m|] eqn:Hm; simpl.
  2:{ repeat split; eauto; try done.
      - by intros (?&?&?&?&?&_).
      - intros [Hs _]. not_logged. }
  destruct (EmotionModelTrainer.ct_convert api m) as [e|c1] eqn:H1; simpl.
  { repeat split; eauto; try done.
    - intros (?&?&?&?&?&?&_). clash.
    - intros [Hs _]. not_logged. }
  destruct (EmotionModelTrainer.set_input_description api c1) as [e|c2]
    eqn:H2; simpl.
  { repeat split; eauto; try done.
    - intros (?&?&?&?&?&?&?&_). clash.
    - intros [Hs _]. not_logged. }
  destruct (EmotionModelTrainer.set_output_description api c2) as [e|c3]
    eqn:H3; simpl.
  { repeat split; eauto; try done.
    - intros (?&?&?&?&?&?&?&?&_). clash.
    - intros [Hs _]. not_logged. }
  destruct (EmotionModelTrainer.mlmodel_save api c3 _) as [e|[]] eqn:H4;
    simpl.
  { repeat split; eauto; try done.
    - intros (?&?&?&?&?&?&?&?&?&_). clash.
    - intros [Hs _]. not_logged. }
  destruct (EmotionModelTrainer.json_dump api _ _) as [e|[]] eqn:H5; simpl.
  { repeat split; eauto; try done.
    - intros (?&?&?&?&?&?&?&?&?&?). clash.
    - intros [_ [cfg Hw]]. not_logged. }
  repeat split; eauto; try done.
  - intros _. by exists m, c1, c2, c3.
  - do 2 apply list_elem_of_further. apply list_elem_of_here.
  - eexists. do 4 apply list_elem_of_further. apply list_elem_of_here.
Qed.

End ConvertingProofs.

(** ** Loading the data set *)

Section Loading.
Context `{PyStr} `{Pandas}.

Lemma emotion_label (s label : list N) :
  emotion_to_sentiment !! s = Some label →
  s ∈ txt <$> ["happy"; "love"; "surprise"; "anger"; "sadness"; "fear"]%string
  ∧ label ∈ [txt "positive"; txt "negative"; txt "neutral"].
Proof.
  intros Hl. apply elem_of_list_to_map_2 in Hl.
  repeat (apply elem_of_cons in Hl as [[= -> ->]|Hl];
          [split; by repeat first [apply list_elem_of_here
                                  | apply list_elem_of_further]|]).
  by apply elem_of_nil in Hl.
Qed.

Lemma map_emotion_label (e : cell) :
  notna (map_emotion e) = true →
  ∃ s label, e = Val s ∧ map_emotion e = Val label
    ∧ s ∈ txt <$> ["happy"; "love"; "surprise"; "anger"; "sadness";
                   "fear"]%string
    ∧ label ∈ [txt "positive"; txt "negative"; txt "neutral"].
Proof.
  destruct e as [|s]; simpl; [done|].
  destruct (emotion_to_sentiment !! s) as [label|] eqn:Hs; [|done].
  intros _. exists s, label. by destruct (emotion_label s label Hs).
Qed.

Lemma zip_of_columns {A B C} (f : A → B) (g : A → C) (df : list A) x y :
  (x, y) ∈ zip (f <$> df) (g <$> df) → ∃ r, r ∈ df ∧ x = f r ∧ y = g r.
Proof.
  induction df as [|r df IH]; simpl; [by intros ?%elem_of_nil|].
  intros [[= -> ->]|Hin]%elem_of_cons.
  - exists r. split; [by left | done].
  - destruct (IH Hin) as (r' & ? & ? & ?). exists r'. split; [by right|done].
Qed.

Lemma sampled_rows {A} (Hsample : SampleSelects) (P : Prop)
    (d : Decision P) (n : nat) (df : list A) (r : A) :
  r ∈ (if d then df_sample A n df else df) → r ∈ df.
Proof. destruct d; [apply Hsample | done]. Qed.

(** The rows that survive [dropna] and the length filter, for a
    preprocessing function [clean]. *)
Lemma kept_rows (clean : cell → list N) (csv : list csv_row)
    (r : csv_row * cell * list N) :
  r ∈ List.filter (λ r, bool_decide (10 < length r.2)%nat)
        ((λ r, (r, clean (Text r.1)))
           <$> List.filter (λ r, notna (Text r.1) && notna r.2)
                 ((λ r, (r, map_emotion (Emotion r))) <$> csv)) →
  r.1.1 ∈ csv
  ∧ r.1.2 = map_emotion (Emotion r.1.1)
  ∧ notna (Text r.1.1) = true
  ∧ notna r.1.2 = true
  ∧ r.2 = clean (Text r.1.1)
  ∧ (10 < length r.2)%nat.
Proof.
  rewrite list_elem_of_In, filter_In, <-list_elem_of_In.
  intros [Hr Hlen]. apply bool_decide_eq_true in Hlen.
  apply list_elem_of_fmap in Hr as (q & -> & Hq).
  rewrite list_elem_of_In, filter_In, <-list_elem_of_In in Hq.
  destruct Hq as [Hq Hna]. apply andb_true_iff in Hna as [??].
  apply list_elem_of_fmap in Hq as (row & -> & Hrow). done.
Qed.

Lemma trainer_loaded_rows (csv : list csv_row) (q : csv_row * cell) :
  q ∈ EmotionModelTrainer.load_emotion_dataset csv →
  q.1 ∈ csv
  ∧ q.2 = map_emotion (Emotion q.1)
  ∧ notna (Text q.1) = true
  ∧ notna q.2 = true.
Proof.
  unfold EmotionModelTrainer.load_emotion_dataset.
  rewrite list_elem_of_In, !filter_In, <-list_elem_of_In.
  intros [[Hq Hna] _]. apply andb_true_iff in Hna as [??].
  apply list_elem_of_fmap in Hq as (row & -> & Hrow). done.
Qed.

End Loading.

(** C9, amended. Every (text, label) pair returned by [load_emotion_dataset]
    of [fast_85_accuracy_model.py] and of [advanced_ensemble_model.py], and
    by [prepare_training_data] of [train_custom_model.py] applied to what its
    [load_emotion_dataset] returns, has a label among positive, negative and
    neutral and a text of more than 10 characters, and comes from a row of
    the file whose [Emotion] is one of the six mapped emotions.
    [load_emotion_dataset] of [train_custom_model.py] itself returns rows
    with such a label, without looking at the length of their text. *)
Theorem load_emotion_dataset_pairs `{PyStr} `{Pandas}
    (Hsample : SampleSelects) (csv : list csv_row) (max_samples : nat)
    (text : list N) (label : cell) :
  let sound (clean : cell → list N) :=
    (10 < length text)%nat
    ∧ label ∈ Val <$> [txt "positive"; txt "negative"; txt "neutral"]
    ∧ ∃ row raw emotion,
        row ∈ csv ∧ Text row = Val raw ∧ Emotion row = Val emotion
        ∧ emotion ∈ txt <$> ["happy"; "love"; "surprise"; "anger"; "sadness";
                             "fear"]%string
        ∧ label = map_emotion (Emotion row)
        ∧ text = clean (Val raw) in
  let pairs (r : list (list N) * list cell) := zip r.1 r.2 in
  ((text, label) ∈ pairs (Fast85AccuracyModel.load_emotion_dataset csv) →
     sound Fast85AccuracyModel.smart_preprocess_text)
  ∧ ((text, label) ∈ pairs (AdvancedEnsembleModel.load_emotion_dataset csv) →
       sound AdvancedEnsembleModel.advanced_preprocess_text)
  ∧ ((text, label)
       ∈ pairs (EmotionModelTrainer.prepare_training_data
                  (EmotionModelTrainer.load_emotion_dataset csv) max_samples) →
       sound EmotionModelTrainer.preprocess_text)
  ∧ ∀ row, (row, label) ∈ EmotionModelTrainer.load_emotion_dataset csv →
      row ∈ csv
      ∧ label ∈ Val <$> [txt "positive"; txt "negative"; txt "neutral"]
      ∧ label = map_emotion (Emotion row).
Proof.
  intros sound pairs.
  assert (∀ clean (r : csv_row * cell * list N),
            r.1.1 ∈ csv ∧ r.1.2 = map_emotion (Emotion r.1.1)
            ∧ notna (Text r.1.1) = true ∧ notna r.1.2 = true
            ∧ r.2 = clean (Text r.1.1) ∧ (10 < length r.2)%nat →
            text = r.2 → label = r.1.2 → sound clean) as Hsound.
  { intros clean [[row sentiment] t]; simpl.
    intros (Hrow & -> & Htext & Hlabel & -> & Hlen) -> ->.
    destruct (map_emotion_label _ Hlabel) as (s & l & He & Hl & Hs & Hin).
    destruct (Text row) as [|raw] eqn:Hraw; [done|].
    split; [done|]. split.
    - rewrite Hl. by apply list_elem_of_fmap_2.
    - by exists row, raw, s. }
  split; [|split; [|split]].
  - unfold pairs, Fast85AccuracyModel.load_emotion_dataset. simpl.
    intros (r & Hr & -> & ->)%zip_of_columns.
    apply (sampled_rows Hsample) in Hr.
    eapply Hsound; [by apply kept_rows | done | done].
  - unfold pairs, AdvancedEnsembleModel.load_emotion_dataset. simpl.
    intros (r & Hr & -> & ->)%zip_of_columns.
    apply (sampled_rows Hsample) in Hr.
    eapply Hsound; [by apply kept_rows | done | done].
  - unfold pairs, EmotionModelTrainer.prepare_training_data. simpl.
    intros (r & Hr & -> & ->)%zip_of_columns.
    rewrite list_elem_of_In, filter_In, <-list_elem_of_In in Hr.
    destruct Hr as [Hr Hlen]. apply bool_decide_eq_true in Hlen.
    apply list_elem_of_fmap in Hr as (q & -> & Hq).
    apply (sampled_rows Hsample), trainer_loaded_rows in Hq.
    destruct Hq as (? & ? & ? & ?).
    by apply (Hsound EmotionModelTrainer.preprocess_text
                (q, EmotionModelTrainer.preprocess_text (Text q.1))).
  - intros row Hrow. apply trainer_loaded_rows in Hrow.
    destruct Hrow as (Hin & Hl & _ & Hna). simpl in Hin, Hl, Hna.
    split; [done|]. split; [|done].
    destruct (map_emotion_label _ ltac:(by rewrite <-Hl))
      as (s & l & _ & Hml & _ & Hlin).
    rewrite Hl, Hml. by apply list_elem_of_fmap_2.
Qed.

Lemma first_rows_select : @SampleSelects first_rows.
Proof. intros A n df r Hr. simpl in Hr. by apply (subseteq_take n df). Qed.

Lemma load_emotion_dataset_pairs_witness :
  let csv :=
    [ {| Text := Val (txt "I am SO happy today!!");
         Emotion := Val (txt "happy") |};
      {| Text := Val (txt "meh"); Emotion := Val (txt "love") |};
      {| Text := Val (txt "what a long boring day");
         Emotion := Val (txt "bored") |};
      {| Text := NA; Emotion := Val (txt "fear") |} ] in
  Fast85AccuracyModel.load_emotion_dataset csv
  = ([txt "i am so happy today!!"], [Val (txt "positive")])
  ∧ ((txt "i am so happy today!!", Val (txt "positive"))
       ∈ zip (Fast85AccuracyModel.load_emotion_dataset csv).1
             (Fast85AccuracyModel.load_emotion_dataset csv).2 →
     (10 < length (txt "i am so happy today!!"))%nat
     ∧ Val (txt "positive")
         ∈ Val <$> [txt "positive"; txt "negative"; txt "neutral"]
     ∧ ∃ row raw emotion,
         row ∈ csv ∧ Text row = Val raw ∧ Emotion row = Val emotion
         ∧ emotion ∈ txt <$> ["happy"; "love"; "surprise"; "anger";
                              "sadness"; "fear"]%string
         ∧ Val (txt "positive") = map_emotion (Emotion row)
         ∧ txt "i am so happy today!!"
           = Fast85AccuracyModel.smart_preprocess_text (Val raw)).
Proof.
  intros csv. split; [vm_compute; reflexivity|].
  pose proof (load_emotion_dataset_pairs first_rows_select csv 3%nat
                (txt "i am so happy today!!") (Val (txt "positive"))) as Hw.
  cbv beta zeta in Hw. destruct Hw as [Hfast _]. exact Hfast.
Defined.

(** C9 as stated fails for [load_emotion_dataset] of
    [train_custom_model.py]: it keeps a row whatever the length of its
    text. *)
Lemma trainer_load_keeps_short_text :
  EmotionModelTrainer.load_emotion_dataset
    [ {| Text := Val (txt "hi"); Emotion := Val (txt "happy") |} ]
  = [ ({| Text := Val (txt "hi"); Emotion := Val (txt "happy") |},
       Val (txt "positive")) ]
  ∧ length (EmotionModelTrainer.preprocess_text (Val (txt "hi"))) = 2%nat.
Proof. split; vm_compute; reflexivity. Qed.

(** * Further properties of the scripts *)

(** ** Words and counts *)

Lemma split_from_words cur s w :
  Forall (λ c, isspace c = false) cur →
  w ∈ split_from cur s →
  w ≠ [] ∧ Forall (λ c, isspace c = false) w ∧ ∀ c, c ∈ w → c ∈ cur ∨ c ∈ s.
Proof.
  revert cur. induction s as [|a s IH]; intros cur Hcur; simpl.
  - destruct cur as [|b cur]; [by intros ?%elem_of_nil|].
    intros ->%list_elem_of_singleton.
    assert (reverse (b :: cur) ≠ [])
      by (rewrite reverse_cons; by destruct (reverse cur)).
    split; [done|]. split; [by apply Forall_reverse|].
    intros c Hc. rewrite elem_of_reverse in Hc. by left.
  - destruct (isspace a) eqn:Ha.
    + assert (w ∈ split_from [] s →
              w ≠ [] ∧ Forall (λ c, isspace c = false) w
              ∧ ∀ c, c ∈ w → c ∈ cur ∨ c ∈ a :: s) as Hrest.
      { intros Hw. destruct (IH [] ltac:(constructor) Hw) as (? & ? & Hin).
        split; [done|]. split; [done|]. intros c Hc.
        destruct (Hin c Hc) as [?%elem_of_nil|?]; [done|]. right. by right. }
      destruct cur as [|b cur]; [done|].
      intros [->|Hw]%elem_of_cons; [|by apply Hrest].
      assert (reverse (b :: cur) ≠ [])
        by (rewrite reverse_cons; by destruct (reverse cur)).
      split; [done|]. split; [by apply Forall_reverse|].
      intros c Hc. rewrite elem_of_reverse in Hc. by left.
    + intros Hw. destruct (IH (a :: cur) ltac:(by constructor) Hw)
        as (? & ? & Hin).
      split; [done|]. split; [done|]. intros c Hc.
      destruct (Hin c Hc) as [[->|?]%elem_of_cons|?].
      * right. by left.
      * by left.
      * right. by right.
Qed.

(** A word of [text.split()] is not empty, has no whitespace, and is made
    of characters of the text. *)
Lemma split_words s w :
  w ∈ split s →
  w ≠ [] ∧ Forall (λ c, isspace c = false) w ∧ ∀ c, c ∈ w → c ∈ s.
Proof.
  intros Hw. destruct (split_from_words [] s w ltac:(constructor) Hw)
    as (? & ? & Hin).
  split; [done|]. split; [done|]. intros c Hc.
  by destruct (Hin c Hc) as [?%elem_of_nil|?].
Qed.

Lemma split_from_lengths cur s :
  (sum_list (length <$> split_from cur s) ≤ length cur + length s)%nat.
Proof.
  revert cur. induction s as [|a s IH]; intros cur; simpl.
  - destruct cur; simpl; [lia|]. rewrite length_reverse. simpl. lia.
  - destruct (isspace a).
    + specialize (IH []). destruct cur as [|b cur];
        unfold fmap in IH |- *; simpl in IH |- *; [lia|].
      rewrite length_reverse. simpl. lia.
    + specialize (IH (a :: cur)).
      unfold fmap in IH |- *; simpl in IH |- *. lia.
Qed.

Lemma words_at_most_lengths (ws : list (list N)) :
  Forall (λ w, w ≠ []) ws → (length ws ≤ sum_list (length <$> ws))%nat.
Proof.
  induction 1 as [|w ws Hw _ IH]; [done|].
  unfold fmap in IH |- *; simpl in IH |- *. destruct w; [done|]. simpl. lia.
Qed.

Lemma split_count s : (length (split s) ≤ length s)%nat.
Proof.
  etrans; [apply words_at_most_lengths|].
  - apply Forall_forall. intros w Hw. by destruct (split_words s w Hw).
  - apply (split_from_lengths [] s).
Qed.

Lemma count_char_length c s : (count_char c s ≤ length s)%nat.
Proof.
  unfold count_char. induction s as [|a s IH]; simpl; [done|].
  destruct (c =? a); simpl; lia.
Qed.

Lemma count_chars_length c d s :
  c ≠ d → (count_char c s + count_char d s ≤ length s)%nat.
Proof.
  intros Hcd. unfold count_char. induction s as [|a s IH]; simpl; [done|].
  destruct (N.eqb_spec c a), (N.eqb_spec d a); simpl; lia || congruence.
Qed.

Lemma count_pair_step c s a :
  (2 * count_pair c s ≤ count_char c s)%nat →
  (∀ b t, s = b :: t → 2 * count_pair c t ≤ count_char c t)%nat →
  (2 * count_pair c (a :: s) ≤ count_char c (a :: s))%nat.
Proof.
  intros Hs Ht. unfold count_char in *. destruct s as [|b t]; simpl; [lia|].
  specialize (Ht b t eq_refl).
  destruct (N.eqb_spec a c) as [->|]; simpl.
  - rewrite N.eqb_refl. destruct (N.eqb_spec b c) as [->|]; simpl.
    + rewrite N.eqb_refl. simpl. lia.
    + simpl in Hs. destruct (N.eqb_spec c b); [congruence|]. simpl in *.
      destruct (N.eqb_spec b c); [congruence|]. simpl in Hs. lia.
  - destruct (N.eqb_spec c a); [congruence|]. simpl. simpl in Hs. lia.
Qed.

(** Occurrences of [cc] do not overlap: each uses two occurrences of [c]. *)
Lemma count_pair_half c s : (2 * count_pair c s ≤ count_char c s)%nat.
Proof.
  assert (∀ n s, (length s ≤ n)%nat →
            (2 * count_pair c s ≤ count_char c s)%nat) as Hall.
  { clear s. induction n as [|n IH]; intros s Hn.
    - destruct s; [simpl; lia | simpl in Hn; lia].
    - destruct s as [|a s]; [simpl; lia|]. simpl in Hn.
      apply count_pair_step.
      + apply IH. lia.
      + intros b t ->. apply IH. simpl in Hn. lia. }
  by apply (Hall (length s)).
Qed.

Lemma count_in_disjoint `{PyStr} (lexicon1 lexicon2 words : list (list N)) :
  (∀ x, x ∈ lexicon1 → x ∉ lexicon2) →
  (count_in lexicon1 words + count_in lexicon2 words ≤ length words)%nat.
Proof.
  intros Hdisjoint. unfold count_in.
  induction words as [|w words IH]; simpl; [done|].
  destruct (bool_decide (str_lower w ∈ lexicon1)) eqn:H1;
    destruct (bool_decide (str_lower w ∈ lexicon2)) eqn:H2; simpl; try lia.
  apply bool_decide_eq_true in H1, H2. by destruct (Hdisjoint _ H1).
Qed.

Lemma smart_lexicons_disjoint x :
  x ∈ positive_words → x ∉ negative_words.
Proof.
  revert x. apply Forall_forall.
  apply (bool_decide_unpack _). by vm_compute.
Qed.

(** X1. In a row of smart features (both [extract_smart_features]) the
    counts are consistent: the words are at most as many as the characters,
    [!] and [?] together too; every [!!] uses two [!] and every [??] two
    [?]; no word is counted both as positive and as negative; a text without
    words has the mean word length 0, taken without dividing. *)
Theorem smart_features_consistent `{PyStr} `{Float64} (text : list N) :
  ∃ words exclamations questions positive negative double_exclamations
    double_questions mean_length,
    ConvertToCoreml.extract_smart_features text
    = [PyInt (length text); PyInt words; PyInt exclamations;
       PyInt questions; PyInt positive; PyInt negative;
       PyInt double_exclamations; PyInt double_questions; mean_length]
    ∧ Fast85AccuracyModel.extract_smart_features [text]
      = [to_f64 <$> ConvertToCoreml.extract_smart_features text]
    ∧ (words ≤ length text)%nat
    ∧ (exclamations + questions ≤ length text)%nat
    ∧ (2 * double_exclamations ≤ exclamations)%nat
    ∧ (2 * double_questions ≤ questions)%nat
    ∧ (positive + negative ≤ words)%nat
    ∧ (words = 0%nat → mean_length = PyInt 0).
Proof.
  eexists _, _, _, _, _, _, _, _. split; [reflexivity|].
  split; [|split; [|split; [|split; [|split; [|split]]]]].
  - unfold Fast85AccuracyModel.extract_smart_features.
    by rewrite smart_features_loop_spec.
  - apply split_count.
  - by apply count_chars_length.
  - apply count_pair_half.
  - apply count_pair_half.
  - apply count_in_disjoint, smart_lexicons_disjoint.
  - by destruct (split text).
Qed.

(** ** Inputs that preprocess to nothing *)

Lemma sub_spaces_all_space b u :
  Forall (λ c, isspace c = true) u →
  sub_spaces b u = if b then [] else match u with [] => [] | _ => [space] end.
Proof.
  intros Hu. revert b. induction Hu as [|c u Hc _ IH]; intros b; simpl.
  - by destruct b.
  - rewrite Hc, (IH true). by destruct b.
Qed.

Lemma collapse_all_space u :
  Forall (λ c, isspace c = true) u → strip (sub_spaces false u) = [].
Proof.
  intros Hu. rewrite sub_spaces_all_space by done. by destruct u.
Qed.

Lemma no_letter_is_space c :
  keep_alpha c = true → is_ascii_upper c = false →
  is_ascii_lower c || is_kept_punct c = false → isspace c = true.
Proof.
  intros Hk Hu Hn. destruct (keep_alpha_no_upper c Hk Hu) as [?|[_ Hc]];
    [done|].
  revert Hc Hn. char_solve.
Qed.

Lemma smart_preprocess_text_blank `{PyStr} (s : list N) :
  LowerNoUpper →
  Forall (λ c, is_ascii_lower c || is_kept_punct c = false) (str_lower s) →
  Fast85AccuracyModel.smart_preprocess_text (Val s) = [].
Proof.
  intros Hlow Hs. simpl. apply collapse_all_space.
  apply Forall_forall. intros c [Hc Hk]%sub_outside_elem.
  apply no_letter_is_space; [done | by apply (Hlow s) |].
  by eapply Forall_forall in Hs.
Qed.

(** X2. For a missing value, and for a text whose lowercase form has no
    letter [a-z] and none of [.,!?] (only digits, symbols, emoji, spaces),
    [predict_sentiment] works on the empty string: with a fitted vectorizer
    its feature vector is 100 zeros, the TF-IDF row of the empty string and
    9 zeros, and nothing is raised on the way. *)
Theorem blank_input_features `{PyStr} `{Sklearn} (Hlow : LowerNoUpper)
    (loaded : ConvertToCoreml.predictor) (v : Vectorizer) (text : cell)
    (Hfit : ConvertToCoreml.tfidf_vectorizer loaded = Some (Fitted v))
    (Hblank : text = NA
              ∨ ∃ s, text = Val s
                  ∧ Forall (λ c, is_ascii_lower c || is_kept_punct c = false)
                      (str_lower s)) :
  ConvertToCoreml.preprocess_text text = []
  ∧ ConvertToCoreml.combined_features loaded text
    = inr (replicate 100 (f_of_nat 0) ++ tfidf_row v []
             ++ replicate 9 (f_of_nat 0)).
Proof.
  assert (ConvertToCoreml.preprocess_text text = []) as Hempty.
  { destruct Hblank as [->|(s & -> & Hs)]; [done|].
    rewrite preprocess_text_same. by apply smart_preprocess_text_blank. }
  split; [done|]. unfold ConvertToCoreml.combined_features.
  rewrite Hempty, Hfit. reflexivity.
Qed.

Lemma blank_input_features_witness :
  let loaded :=
    {| ConvertToCoreml.ensemble_model := tt;
       ConvertToCoreml.scaler := tt;
       ConvertToCoreml.tfidf_vectorizer :=
         Some (Fitted [txt "good"; txt "day"]);
       ConvertToCoreml.glove_embeddings := tiny_glove |} in
  ConvertToCoreml.preprocess_text (Val (txt " 42 :-) 100% ")) = []
  ∧ ConvertToCoreml.combined_features loaded (Val (txt " 42 :-) 100% "))
    = inr (replicate 100 (f_of_nat 0)
             ++ tfidf_row [txt "good"; txt "day"] []
             ++ replicate 9 (f_of_nat 0)).
Proof.
  intros loaded.
  apply (blank_input_features ascii_lower_no_upper loaded
           [txt "good"; txt "day"] (Val (txt " 42 :-) 100% "))).
  - reflexivity.
  - right. eexists. split; [reflexivity|].
    apply (bool_decide_unpack _). by vm_compute.
Defined.

(** ** Fitting the vectorizer once *)

Section Fitting.
Context `{PyStr} `{Sklearn}.

Lemma glove_features_ok (self : Fast85AccuracyModel.model) texts :
  GloveShape (Fast85AccuracyModel.glove_embeddings self) →
  mapM (λ text, Fast85AccuracyModel.text_to_glove_vector self text 40) texts
  = inr ((λ text, mean_of_known_words
                    (Fast85AccuracyModel.glove_embeddings self) 40 text)
         <$> texts).
Proof.
  intros Hshape. apply mapM_result_spec.
  induction texts as [|text texts IH]; simpl; constructor; [|apply IH].
  by apply fast_glove_vector_mean.
Qed.

Lemma prepare_unfitted (self : Fast85AccuracyModel.model) texts :
  Fast85AccuracyModel.tfidf_vectorizer self = Some Unfitted →
  GloveShape (Fast85AccuracyModel.glove_embeddings self) →
  Fast85AccuracyModel.prepare_smart_features self texts
  = (inl (Raised "NotFittedError"), self).
Proof.
  intros Hu Hshape. unfold Fast85AccuracyModel.prepare_smart_features.
  rewrite glove_features_ok by done. by rewrite Hu.
Qed.

Lemma feature_pipeline_rows (self : Fast85AccuracyModel.model) v texts :
  Fast85AccuracyModel.tfidf_vectorizer self = Some (Fitted v) →
  (Fast85AccuracyModel.prepare_smart_features self texts).2 = self
  ∧ ∀ M i text,
      (Fast85AccuracyModel.prepare_smart_features self texts).1 = inr M →
      texts !! i = Some text →
      ∃ g, Fast85AccuracyModel.text_to_glove_vector self text 40 = inr g
        ∧ M !! i = Some (g ++ tfidf_row v text ++ nine_statistics text).
Proof.
  intros Hv. rewrite (prepare_fitted self v) by done. split; [done|].
  intros M i text HM Hi. simpl in HM.
  destruct (mapM _ texts) as [e|G] eqn:HG; [done|]. simpl in HM.
  apply hstack3_inv in HM as ->. apply mapM_result_spec in HG.
  destruct (Forall2_lookup_l _ _ _ _ _ HG Hi) as (g & Hg & Htext).
  exists g. split; [done|].
  apply hstack3_lookup; [done | |]; by rewrite list_lookup_fmap, Hi.
Qed.

End Fitting.

(** X3. [prepare_smart_features] never returns a matrix for an empty list
    of texts: whatever the object holds, the call raises. *)
Theorem prepare_smart_features_empty `{PyStr} `{Sklearn}
    (self : Fast85AccuracyModel.model) :
  ∃ e, (Fast85AccuracyModel.prepare_smart_features self []).1 = inl e.
Proof.
  unfold Fast85AccuracyModel.prepare_smart_features. simpl.
  destruct (Fast85AccuracyModel.tfidf_vectorizer self) as [[|v]|]; simpl;
    eauto.
  destruct (tfidf_fit []); simpl; eauto.
Qed.

(** X4. When the first fit of the TF-IDF vectorizer raises, the object is
    left holding the unfitted vectorizer: the exception of the fit comes
    out, and every later call of [prepare_smart_features] raises
    [NotFittedError] and changes nothing; no second fit is tried. *)
Theorem failed_fit_is_not_retried `{PyStr} `{Sklearn}
    (self : Fast85AccuracyModel.model) (texts later : list (list N))
    (e : pyerr)
    (Hshape : GloveShape (Fast85AccuracyModel.glove_embeddings self))
    (Hnone : Fast85AccuracyModel.tfidf_vectorizer self = None)
    (Hfail : tfidf_fit texts = inl e) :
  let first := Fast85AccuracyModel.prepare_smart_features self texts in
  first.1 = inl e
  ∧ Fast85AccuracyModel.tfidf_vectorizer first.2 = Some Unfitted
  ∧ Fast85AccuracyModel.prepare_smart_features first.2 later
    = (inl (Raised "NotFittedError"), first.2).
Proof.
  intros first.
  assert (first
          = (inl e,
             {| Fast85AccuracyModel.glove_embeddings :=
                  Fast85AccuracyModel.glove_embeddings self;
                Fast85AccuracyModel.ensemble_model :=
                  Fast85AccuracyModel.ensemble_model self;
                Fast85AccuracyModel.scaler := Fast85AccuracyModel.scaler self;
                Fast85AccuracyModel.tfidf_vectorizer := Some Unfitted |}))
    as ->.
  { unfold first, Fast85AccuracyModel.prepare_smart_features.
    rewrite glove_features_ok by done. by rewrite Hnone, Hfail. }
  split; [done|]. split; [done|]. by apply prepare_unfitted.
Qed.

Lemma failed_fit_is_not_retried_witness :
  let self :=
    @Fast85AccuracyModel.Build_model rational strict_bag_of_words
      tiny_glove None tt None in
  let first :=
    @Fast85AccuracyModel.prepare_smart_features ascii_str rational
      strict_bag_of_words self [[]; txt "  "] in
  first.1 = inl ValueError
  ∧ Fast85AccuracyModel.tfidf_vectorizer first.2 = Some Unfitted
  ∧ @Fast85AccuracyModel.prepare_smart_features ascii_str rational
      strict_bag_of_words first.2 [txt "good day"]
    = (inl (Raised "NotFittedError"), first.2).
Proof.
  intros self.
  apply (@failed_fit_is_not_retried ascii_str rational strict_bag_of_words
           self [[]; txt "  "] [txt "good day"] ValueError).
  - apply tiny_glove_shape.
  - reflexivity.
  - reflexivity.
Defined.

(** X5. After a first call that fitted the vectorizer on the training
    texts, a call on other texts fits nothing: it leaves the object as it
    is, and each row it returns holds the TF-IDF row computed by the
    vectorizer of the training texts. *)
Theorem later_texts_use_first_fit `{PyStr} `{Sklearn}
    (self : Fast85AccuracyModel.model) (train test : list (list N))
    (v : Vectorizer)
    (Hshape : GloveShape (Fast85AccuracyModel.glove_embeddings self))
    (Hnone : Fast85AccuracyModel.tfidf_vectorizer self = None)
    (Hfit : tfidf_fit train = inr v) :
  let fitted := (Fast85AccuracyModel.prepare_smart_features self train).2 in
  let second := Fast85AccuracyModel.prepare_smart_features fitted test in
  Fast85AccuracyModel.tfidf_vectorizer fitted = Some (Fitted v)
  ∧ second.2 = fitted
  ∧ ∀ M i text, second.1 = inr M → test !! i = Some text →
      ∃ g, M !! i = Some (g ++ tfidf_row v text ++ nine_statistics text).
Proof.
  intros fitted second.
  assert (Fast85AccuracyModel.tfidf_vectorizer fitted = Some (Fitted v))
    as Hfitted.
  { unfold fitted.
    by rewrite (prepare_fitting self v train _ Hnone Hfit
                  (glove_features_ok self train Hshape)). }
  split; [done|].
  destruct (feature_pipeline_rows fitted v test Hfitted) as [Hsame Hrows].
  split; [done|]. intros M i text HM Hi.
  destruct (Hrows M i text HM Hi) as (g & _ & Hrow). by exists g.
Qed.

Lemma later_texts_use_first_fit_witness :
  let self :=
    {| Fast85AccuracyModel.glove_embeddings := tiny_glove;
       Fast85AccuracyModel.ensemble_model := None;
       Fast85AccuracyModel.scaler := tt;
       Fast85AccuracyModel.tfidf_vectorizer := None |} in
  let fitted :=
    (Fast85AccuracyModel.prepare_smart_features self [txt "good day"]).2 in
  let second :=
    Fast85AccuracyModel.prepare_smart_features fitted [txt "bad night"] in
  Fast85AccuracyModel.tfidf_vectorizer fitted
  = Some (Fitted [txt "good"; txt "day"])
  ∧ second.2 = fitted
  ∧ ∀ M i text, second.1 = inr M → [txt "bad night"] !! i = Some text →
      ∃ g, M !! i = Some (g ++ tfidf_row [txt "good"; txt "day"] text
                            ++ nine_statistics text).
Proof.
  intros self.
  apply (later_texts_use_first_fit self [txt "good day"] [txt "bad night"]
           [txt "good"; txt "day"]).
  - apply tiny_glove_shape.
  - reflexivity.
  - vm_compute. reflexivity.
Defined.

(** ** The order of the writes of [convert_to_coreml] *)

Section ConvertingOrder.
Context {KerasModel MLModel WordIndex : Type}.

Ltac logged :=
  repeat match goal with
  | H : _ ∈ [] |- _ => by apply elem_of_nil in H
  | H : _ ∈ _ :: _ |- _ =>
      apply elem_of_cons in H as [H|H];
      [first [discriminate H | injection H as ?; subst]|]
  end.

(** X6. In every run of [convert_to_coreml] of [train_custom_model.py] the
    tokenizer configuration is written only after the model package was
    saved, and the package is saved only after the one call of the
    converter; what is written as configuration is the vocabulary size, the
    sequence length and the word index of the trainer, to
    [tokenizer_config.json]; with no model the converter is not called. *)
Theorem convert_to_coreml_order
    (api : @EmotionModelTrainer.coreml_api KerasModel MLModel WordIndex)
    (self : @EmotionModelTrainer.trainer KerasModel WordIndex)
    (model_name : string) :
  let log := (EmotionModelTrainer.convert_to_coreml api self model_name).1 in
  (∀ path cfg, EmotionModelTrainer.WroteJson path cfg ∈ log →
     path = "tokenizer_config.json"
     ∧ cfg = {| EmotionModelTrainer.cfg_vocab_size :=
                  EmotionModelTrainer.vocab_size self;
                EmotionModelTrainer.cfg_max_length :=
                  EmotionModelTrainer.max_length self;
                EmotionModelTrainer.cfg_word_index :=
                  EmotionModelTrainer.word_index self |}
     ∧ EmotionModelTrainer.SavedPackage (model_name +:+ ".mlpackage") ∈ log)
  ∧ (∀ path, EmotionModelTrainer.SavedPackage path ∈ log →
       path = model_name +:+ ".mlpackage" ∧ conversions log = 1%nat)
  ∧ (EmotionModelTrainer.model self = None → conversions log = 0%nat).
Proof.
  intros log. unfold log, EmotionModelTrainer.convert_to_coreml,
    EmotionModelTrainer.convert_and_save, conversions.
  destruct (EmotionModelTrainer.model self) as [m|] eqn:Hm; simpl.
  2:{ split; [|split]; [intros ?? Hin | intros ? Hin | done]; logged. }
  destruct (EmotionModelTrainer.ct_convert api m) as [e|c1]; simpl.
  { split; [|split]; [intros ?? Hin | intros ? Hin | done]; logged. }
  destruct (EmotionModelTrainer.set_input_description api c1) as [e|c2];
    simpl.
  { split; [|split]; [intros ?? Hin | intros ? Hin | done]; logged. }
  destruct (EmotionModelTrainer.set_output_description api c2) as [e|c3];
    simpl.
  { split; [|split]; [intros ?? Hin | intros ? Hin | done]; logged. }
  destruct (EmotionModelTrainer.mlmodel_save api c3 _) as [e|[]]; simpl.
  { split; [|split]; [intros ?? Hin | intros ? Hin | done]; logged. }
  destruct (EmotionModelTrainer.json_dump api _ _) as [e|[]]; simpl.
  { split; [|split]; [intros ?? Hin | intros ? Hin | done]; logged.
    done. }
  split; [|split]; [intros ?? Hin | intros ? Hin | done]; logged.
  - split; [done|]. split; [done|].
    do 2 apply list_elem_of_further. apply list_elem_of_here.
  - done.
Qed.

(** X7. [convert_to_coreml] can return [False] with the model package on
    disk: when every call returns but the dump of the tokenizer
    configuration, the package has been saved and reported as saved before
    the exception is caught; the line that reports the tokenizer
    configuration is not printed, and the failure message is the last
    line. Nothing is said of [tokenizer_config.json] itself, which the
    failed dump may have created or written in part. *)
Theorem convert_to_coreml_partial_failure
    (api : @EmotionModelTrainer.coreml_api KerasModel MLModel WordIndex)
    (self : @EmotionModelTrainer.trainer KerasModel WordIndex)
    (model_name : string) (m : KerasModel) (c1 c2 c3 : MLModel) (e : pyerr)
    (Hmodel : EmotionModelTrainer.model self = Some m)
    (Hconvert : EmotionModelTrainer.ct_convert api m = inr c1)
    (Hinput : EmotionModelTrainer.set_input_description api c1 = inr c2)
    (Houtput : EmotionModelTrainer.set_output_description api c2 = inr c3)
    (Hsave : EmotionModelTrainer.mlmodel_save api c3
               (model_name +:+ ".mlpackage") = inr ())
    (Hdump : EmotionModelTrainer.json_dump api
               {| EmotionModelTrainer.cfg_vocab_size :=
                    EmotionModelTrainer.vocab_size self;
                  EmotionModelTrainer.cfg_max_length :=
                    EmotionModelTrainer.max_length self;
                  EmotionModelTrainer.cfg_word_index :=
                    EmotionModelTrainer.word_index self |}
               "tokenizer_config.json" = inl e) :
  let run := EmotionModelTrainer.convert_to_coreml api self model_name in
  run.2 = inr false
  ∧ EmotionModelTrainer.SavedPackage (model_name +:+ ".mlpackage") ∈ run.1
  ∧ EmotionModelTrainer.Printed
      ("CoreML model saved: " +:+ model_name +:+ ".mlpackage") ∈ run.1
  ∧ (EmotionModelTrainer.Printed
       "Tokenizer config saved: tokenizer_config.json" ∉ run.1)
  ∧ last run.1
    = Some (EmotionModelTrainer.Printed
              ("CoreML conversion failed: "
               +:+ EmotionModelTrainer.str_of_err e)).
Proof.
  intros run. unfold run, EmotionModelTrainer.convert_to_coreml,
    EmotionModelTrainer.convert_and_save.
  rewrite Hmodel. simpl. rewrite Hconvert. simpl. rewrite Hinput. simpl.
  rewrite Houtput. simpl. rewrite Hsave. simpl. rewrite Hdump. simpl.
  split; [done|]. split.
  { do 2 apply list_elem_of_further. apply list_elem_of_here. }
  split.
  { do 3 apply list_elem_of_further. apply list_elem_of_here. }
  split; [|done]. intros Hin.
  repeat (apply elem_of_cons in Hin as [Hin|Hin]; [discriminate Hin|]).
  by apply elem_of_nil in Hin.
Qed.

End ConvertingOrder.

Lemma convert_to_coreml_partial_failure_witness :
  let self :=
    {| EmotionModelTrainer.model := Some tt;
       EmotionModelTrainer.vocab_size := 150;
       EmotionModelTrainer.max_length := 15;
       EmotionModelTrainer.word_index := tt |} in
  let run :=
    EmotionModelTrainer.convert_to_coreml failing_json_api self
      "EmotionSentimentModel" in
  run.2 = inr false
  ∧ EmotionModelTrainer.SavedPackage "EmotionSentimentModel.mlpackage"
      ∈ run.1
  ∧ EmotionModelTrainer.Printed
      "CoreML model saved: EmotionSentimentModel.mlpackage" ∈ run.1
  ∧ (EmotionModelTrainer.Printed
       "Tokenizer config saved: tokenizer_config.json" ∉ run.1)
  ∧ last run.1
    = Some (EmotionModelTrainer.Printed "CoreML conversion failed: OSError").
Proof.
  intros self.
  by apply (convert_to_coreml_partial_failure failing_json_api self
              "EmotionSentimentModel" tt tt tt tt (Raised "OSError")).
Defined.

(** ** The lowercase lookup of [advanced_ensemble_model.py] *)

Section Fallback.
Context `{PyStr} `{Float64}.

Lemma advanced_glove_loop_lowered glove words acc n :
  Forall (λ w, str_lower w = w) words →
  AdvancedEnsembleModel.glove_loop glove words acc n
  = Fast85AccuracyModel.glove_loop glove words acc n.
Proof.
  intros Hwords. revert acc n.
  induction Hwords as [|w words Hw _ IH]; intros acc n; [done|].
  simpl. rewrite Hw. destruct (glove !! w) as [v|]; [|apply IH].
  destruct (np_iadd acc v); simpl; [done | apply IH].
Qed.

Lemma caseless_words text :
  LowerFixesCaseless → Forall (λ c, caseless c = true) text →
  Forall (λ w, str_lower w = w) (split text).
Proof.
  intros Hfix Htext. apply Forall_forall. intros w Hw.
  apply Hfix, Forall_forall. intros c Hc.
  destruct (split_words text w Hw) as (_ & _ & Hin).
  eapply Forall_forall in Htext; [done|]. by apply Hin.
Qed.

End Fallback.

(** X8. On a text of caseless characters the second, lowercase lookup of
    [text_to_glove_vector] of [advanced_ensemble_model.py] finds nothing
    that the first did not: the result is that of the plain
    [text_to_glove_vector] of the other scripts. This is so for every text
    that [advanced_preprocess_text] returns, that is for every text of the
    training pipeline. *)
Theorem lowercase_lookup_inert `{PyStr} `{Sklearn} (Hlow : LowerNoUpper)
    (Hfix : LowerFixesCaseless) (adv : AdvancedEnsembleModel.model)
    (max_length : nat) :
  (∀ text, Forall (λ c, caseless c = true) text →
     AdvancedEnsembleModel.text_to_glove_vector adv text max_length
     = ConvertToCoreml.text_to_glove_vector text
         (AdvancedEnsembleModel.glove_embeddings adv) max_length)
  ∧ ∀ raw,
      AdvancedEnsembleModel.text_to_glove_vector adv
        (AdvancedEnsembleModel.advanced_preprocess_text raw) max_length
      = ConvertToCoreml.text_to_glove_vector
          (AdvancedEnsembleModel.advanced_preprocess_text raw)
          (AdvancedEnsembleModel.glove_embeddings adv) max_length.
Proof.
  assert (∀ text, Forall (λ c, caseless c = true) text →
            AdvancedEnsembleModel.text_to_glove_vector adv text max_length
            = ConvertToCoreml.text_to_glove_vector text
                (AdvancedEnsembleModel.glove_embeddings adv) max_length)
    as Hsame.
  { intros text Htext.
    unfold AdvancedEnsembleModel.text_to_glove_vector,
      ConvertToCoreml.text_to_glove_vector.
    rewrite advanced_glove_loop_lowered.
    - by rewrite <-convert_glove_loop_same.
    - apply Forall_take. by apply caseless_words. }
  split; [done|]. intros raw. apply Hsame.
  eapply Forall_impl; [by apply advanced_preprocess_chars|].
  apply clean_alpha_caseless.
Qed.

Lemma lowercase_lookup_inert_witness :
  let adv :=
    {| AdvancedEnsembleModel.glove_embeddings := tiny_glove;
       AdvancedEnsembleModel.ensemble_model := None;
       AdvancedEnsembleModel.scaler := tt;
       AdvancedEnsembleModel.tfidf_vectorizer := None |} in
  AdvancedEnsembleModel.advanced_preprocess_text (Val (txt "GOOD Day #x"))
  = txt "good day"
  ∧ (∀ text, Forall (λ c, caseless c = true) text →
       AdvancedEnsembleModel.text_to_glove_vector adv text 50
       = ConvertToCoreml.text_to_glove_vector text tiny_glove 50)
  ∧ ∀ raw,
      AdvancedEnsembleModel.text_to_glove_vector adv
        (AdvancedEnsembleModel.advanced_preprocess_text raw) 50
      = ConvertToCoreml.text_to_glove_vector
          (AdvancedEnsembleModel.advanced_preprocess_text raw) tiny_glove 50.
Proof.
  intros adv. split; [vm_compute; reflexivity|].
  apply (lowercase_lookup_inert ascii_lower_no_upper
           ascii_lower_fixes_caseless adv 50).
Defined.

(** ** Sizes *)

Lemma sub_spaces_length b s : (length (sub_spaces b s) ≤ length s)%nat.
Proof.
  revert b. induction s as [|c s IH]; intros b; simpl; [done|].
  destruct (isspace c).
  - specialize (IH true). destruct b; simpl; lia.
  - specialize (IH false). simpl. lia.
Qed.

Lemma sub_urls_length b s : (length (sub_urls b s) ≤ length s)%nat.
Proof.
  revert b. induction s as [|c s IH]; intros b; cbn [sub_urls]; [done|].
  destruct (b && negb (isspace c)); [specialize (IH true); simpl; lia|].
  destruct (url_at (c :: s)); [specialize (IH true) | specialize (IH false)];
    simpl; lia.
Qed.

Lemma sub_mentions_length `{PyStr} b s :
  (length (sub_mentions b s) ≤ length s)%nat.
Proof.
  revert b. induction s as [|c s IH]; intros b; cbn [sub_mentions]; [done|].
  destruct (b && re_word c); [specialize (IH true); simpl; lia|].
  destruct (mention_at (c :: s));
    [specialize (IH true) | specialize (IH false)]; simpl; lia.
Qed.

Lemma strip_length s : (length (strip s) ≤ length s)%nat.
Proof.
  destruct (strip_infix s) as (l1 & l2 & Hs).
  rewrite Hs at 2. rewrite !length_app. lia.
Qed.

Lemma sub_outside_length keep s :
  (length (sub_outside keep s) ≤ length s)%nat.
Proof. apply filter_length_le. Qed.

(** X9. No preprocessing function returns more characters than the
    lowercase form of its input has: every step deletes characters or
    replaces a run of whitespace by one space. *)
Theorem preprocess_never_longer `{PyStr} (s : list N) :
  (length (Fast85AccuracyModel.smart_preprocess_text (Val s))
   ≤ length (str_lower s))%nat
  ∧ (length (ConvertToCoreml.preprocess_text (Val s))
     ≤ length (str_lower s))%nat
  ∧ (length (EmotionModelTrainer.preprocess_text (Val s))
     ≤ length (str_lower s))%nat
  ∧ (length (AdvancedEnsembleModel.advanced_preprocess_text (Val s))
     ≤ length (str_lower s))%nat.
Proof.
  assert (length (Fast85AccuracyModel.smart_preprocess_text (Val s))
          ≤ length (str_lower s))%nat as Hsmart.
  { simpl. etrans; [apply strip_length|]. etrans; [apply sub_spaces_length|].
    apply sub_outside_length. }
  split; [done|]. split; [by rewrite (preprocess_text_same (Val s))|]. split.
  - simpl. etrans; [apply strip_length|].
    etrans; [apply sub_outside_length|]. etrans; [apply sub_spaces_length|].
    etrans; [apply sub_mentions_length|]. apply sub_urls_length.
  - simpl. etrans; [apply strip_length|]. etrans; [apply sub_spaces_length|].
    etrans; [apply sub_outside_length|].
    etrans; [apply sub_mentions_length|]. apply sub_urls_length.
Qed.

Section DatasetSize.
Context `{PyStr} `{Pandas}.

Lemma sampled_length {A} (Hcount : SampleCount) (P : Prop) (d : Decision P)
    (n : nat) (df : list A) :
  (P → n < length df)%nat →
  (length (if d then df_sample A n df else df) ≤ length df)%nat
  ∧ (P → length (if d then df_sample A n df else df) = n).
Proof.
  intros Hn. destruct d as [HP|HP]; [|split; [done | tauto]].
  specialize (Hn HP). rewrite Hcount by lia. split; [lia | done].
Qed.

Lemma kept_length (clean : cell → list N) (csv : list csv_row) :
  (length
     (List.filter (λ r : csv_row * cell * list N,
                     bool_decide (10 < length r.2)%nat)
        ((λ r, (r, clean (Text r.1)))
           <$> List.filter (λ r : csv_row * cell,
                              notna (Text r.1) && notna r.2)
                 ((λ r, (r, map_emotion (Emotion r))) <$> csv)))
   ≤ length csv)%nat.
Proof.
  etrans; [apply filter_length_le|]. rewrite length_fmap.
  etrans; [apply filter_length_le|]. by rewrite length_fmap.
Qed.

End DatasetSize.

Lemma first_rows_count : @SampleCount first_rows.
Proof. intros A n df Hn. simpl. rewrite length_take. lia. Qed.

(** X10. [load_emotion_dataset] of [fast_85_accuracy_model.py] returns as
    many labels as texts, at most 6000 and at most one per row of the file;
    that of [advanced_ensemble_model.py] at most 12000; and
    [prepare_training_data] of [train_custom_model.py] at most
    [max_samples], and at most one per row of its frame. *)
Theorem dataset_sizes `{PyStr} `{Pandas} (Hcount : SampleCount)
    (csv : list csv_row) (df : list (csv_row * cell)) (max_samples : nat) :
  let fast := Fast85AccuracyModel.load_emotion_dataset csv in
  let advanced := AdvancedEnsembleModel.load_emotion_dataset csv in
  let custom := EmotionModelTrainer.prepare_training_data df max_samples in
  (length fast.1 = length fast.2
   ∧ N.of_nat (length fast.1) ≤ 6000
   ∧ (length fast.1 ≤ length csv)%nat)
  ∧ (length advanced.1 = length advanced.2
     ∧ N.of_nat (length advanced.1) ≤ 12000
     ∧ (length advanced.1 ≤ length csv)%nat)
  ∧ (length custom.1 = length custom.2
     ∧ (length custom.1 ≤ max_samples)%nat
     ∧ (length custom.1 ≤ length df)%nat).
Proof.
  intros fast advanced custom. split; [|split].
  - unfold fast, Fast85AccuracyModel.load_emotion_dataset. simpl.
    rewrite !length_fmap. split; [done|].
    pose proof (kept_length Fast85AccuracyModel.smart_preprocess_text csv)
      as Hkept.
    set (kept := List.filter _ _) in *.
    destruct (decide (6000 < N.of_nat (length kept))) as [Hbig|Hsmall].
    + rewrite Hcount by lia. lia.
    + lia.
  - unfold advanced, AdvancedEnsembleModel.load_emotion_dataset. simpl.
    rewrite !length_fmap. split; [done|].
    pose proof (kept_length AdvancedEnsembleModel.advanced_preprocess_text
                  csv) as Hkept.
    set (kept := List.filter _ _) in *.
    destruct (decide (12000 < N.of_nat (length kept))) as [Hbig|Hsmall].
    + rewrite Hcount by lia. lia.
    + lia.
  - unfold custom, EmotionModelTrainer.prepare_training_data. simpl.
    rewrite !length_fmap. split; [done|].
    assert (length (if decide (max_samples < length df)%nat
                    then df_sample _ max_samples df else df)
            ≤ Nat.min max_samples (length df))%nat as Hsampled.
    { destruct (decide _); [rewrite Hcount by lia|]; lia. }
    pose proof (filter_length_le
                  (λ r : csv_row * cell * list N,
                     bool_decide (10 < length r.2)%nat)
                  ((λ r, (r, EmotionModelTrainer.preprocess_text (Text r.1)))
                     <$> (if decide (max_samples < length df)%nat
                          then df_sample _ max_samples df else df)))
      as Hfilter.
    rewrite length_fmap in Hfilter. lia.
Qed.

Lemma dataset_sizes_witness :
  let csv :=
    [ {| Text := Val (txt "I am SO happy today!!");
         Emotion := Val (txt "happy") |};
      {| Text := Val (txt "this is a sad, sad story");
         Emotion := Val (txt "sadness") |};
      {| Text := Val (txt "meh"); Emotion := Val (txt "love") |} ] in
  let df := EmotionModelTrainer.load_emotion_dataset csv in
  let fast := Fast85AccuracyModel.load_emotion_dataset csv in
  let advanced := AdvancedEnsembleModel.load_emotion_dataset csv in
  let custom := EmotionModelTrainer.prepare_training_data df 1 in
  custom = ([txt "i am so happy today!!"], [Val (txt "positive")])
  ∧ (length fast.1 = length fast.2
     ∧ N.of_nat (length fast.1) ≤ 6000
     ∧ (length fast.1 ≤ length csv)%nat)
  ∧ (length advanced.1 = length advanced.2
     ∧ N.of_nat (length advanced.1) ≤ 12000
     ∧ (length advanced.1 ≤ length csv)%nat)
  ∧ (length custom.1 = length custom.2
     ∧ (length custom.1 ≤ 1)%nat
     ∧ (length custom.1 ≤ length df)%nat).
Proof.
  intros csv df fast advanced custom. split; [vm_compute; reflexivity|].
  apply (dataset_sizes first_rows_count csv df 1).
Defined.

(** ** A message that is a link *)

Lemma sub_urls_inside_token s :
  Forall (λ c, isspace c = false) s → sub_urls true s = [].
Proof.
  induction 1 as [|c s Hc _ IH]; simpl; [done|]. by rewrite Hc.
Qed.

Lemma sub_urls_token s :
  url_at s = true → Forall (λ c, isspace c = false) s →
  sub_urls false s = [].
Proof.
  destruct s as [|c s]; [done|]. intros Hu [_ Hs]%Forall_cons.
  cbn [sub_urls andb]. rewrite Hu. by apply sub_urls_inside_token.
Qed.

(** X11. A message without whitespace whose lowercase form is [http] or
    [www] followed by at least one more character is turned into the empty
    string by [preprocess_text] of [train_custom_model.py] and by
    [advanced_preprocess_text]. The bare words [http] and [www] are no
    match of the URL pattern: both functions return them as they are. *)
Theorem link_only_text_is_emptied `{PyStr} (s rest : list N)
    (Hlink : str_lower s = txt "http" ++ rest
             ∨ str_lower s = txt "www" ++ rest)
    (Hmore : rest ≠ [])
    (Htoken : Forall (λ c, isspace c = false) rest) :
  (EmotionModelTrainer.preprocess_text (Val s) = []
   ∧ AdvancedEnsembleModel.advanced_preprocess_text (Val s) = [])
  ∧ ∀ bare, str_lower bare = txt "http" ∨ str_lower bare = txt "www" →
      EmotionModelTrainer.preprocess_text (Val bare) = str_lower bare
      ∧ AdvancedEnsembleModel.advanced_preprocess_text (Val bare)
        = str_lower bare.
Proof.
  split.
  - assert (url_at (str_lower s) = true
            ∧ Forall (λ c, isspace c = false) (str_lower s)) as [Hurl Hall].
    { destruct rest as [|x rest]; [done|].
      apply Forall_cons in Htoken as [Hx Hrest].
      destruct Hlink as [->| ->]; (split; [|by repeat constructor]);
        unfold url_at; rewrite !orb_true_iff, !andb_true_iff.
      + left. left. split; [by apply starts_with_spec; eexists|].
        apply nonspace_at_spec; [done | by exists x, rest].
      + left. right. split; [by apply starts_with_spec; eexists|].
        apply nonspace_at_spec; [done | by exists x, rest]. }
    unfold EmotionModelTrainer.preprocess_text,
      AdvancedEnsembleModel.advanced_preprocess_text.
    by rewrite sub_urls_token.
  - intros bare Hbare.
    unfold EmotionModelTrainer.preprocess_text,
      AdvancedEnsembleModel.advanced_preprocess_text.
    destruct Hbare as [->| ->]; split; vm_compute; reflexivity.
Qed.

Lemma link_only_text_is_emptied_witness :
  (EmotionModelTrainer.preprocess_text
     (Val (txt "HTTPS://Example.com/a?b=1#top")) = []
   ∧ AdvancedEnsembleModel.advanced_preprocess_text
       (Val (txt "HTTPS://Example.com/a?b=1#top")) = [])
  ∧ ∀ bare, str_lower bare = txt "http" ∨ str_lower bare = txt "www" →
      EmotionModelTrainer.preprocess_text (Val bare) = str_lower bare
      ∧ AdvancedEnsembleModel.advanced_preprocess_text (Val bare)
        = str_lower bare.
Proof.
  apply (link_only_text_is_emptied (txt "HTTPS://Example.com/a?b=1#top")
           (txt "s://example.com/a?b=1#top")).
  - left. vm_compute. reflexivity.
  - discriminate.
  - apply (bool_decide_unpack _). by vm_compute.
Defined.

(** ** Reading the embedding file *)

Section LoadingEmbeddings.
Context `{Float64} (parse_float32 : list N → pyerr + F).

Lemma size_insert_le (glove : gmap (list N) (list F)) word vector :
  (size (<[word := vector]> glove) ≤ S (size glove))%nat.
Proof. rewrite map_size_insert. destruct (glove !! word); simpl; lia. Qed.

Lemma load_loop_cap (cap : N) (lines : list (list N))
    (glove : gmap (list N) (list F)) :
  N.of_nat (size glove) < cap →
  N.of_nat (size (Embeddings.load_loop parse_float32 cap lines glove).2)
  ≤ cap.
Proof.
  revert glove. induction lines as [|line lines IH]; intros glove Hsize;
    simpl; [lia|].
  destruct (split line) as [|word values]; simpl; [lia|].
  destruct (mapM parse_float32 values) as [e|vector]; simpl; [lia|].
  pose proof (size_insert_le glove word vector).
  destruct (decide _) as [Hfull|Hroom]; simpl; [lia|]. apply IH. lia.
Qed.

Lemma load_loop_keeps (cap : N) (lines : list (list N))
    (glove : gmap (list N) (list F)) (word : list N) :
  is_Some (glove !! word) →
  is_Some ((Embeddings.load_loop parse_float32 cap lines glove).2 !! word).
Proof.
  revert glove. induction lines as [|line lines IH]; intros glove Hword;
    simpl; [done|].
  destruct (split line) as [|w values]; simpl; [done|].
  destruct (mapM parse_float32 values) as [e|vector]; simpl; [done|].
  assert (is_Some (<[w := vector]> glove !! word))
    by (apply lookup_insert_is_Some'; by right).
  destruct (decide _); simpl; [done|]. by apply IH.
Qed.

Lemma load_loop_vectors (cap : N) (lines : list (list N))
    (glove : gmap (list N) (list F)) (word : list N) (vector : list F) :
  (Embeddings.load_loop parse_float32 cap lines glove).2 !! word
  = Some vector →
  glove !! word = Some vector
  ∨ ∃ line values, line ∈ lines ∧ split line = word :: values
      ∧ mapM parse_float32 values = inr vector.
Proof.
  revert glove. induction lines as [|line lines IH]; intros glove; simpl;
    [by left|].
  destruct (split line) as [|w values] eqn:Hline; simpl; [by left|].
  destruct (mapM parse_float32 values) as [e|v] eqn:Hvalues; simpl;
    [by left|].
  assert (<[w := v]> glove !! word = Some vector →
          glove !! word = Some vector
          ∨ ∃ line' values', line' ∈ line :: lines
              ∧ split line' = word :: values'
              ∧ mapM parse_float32 values' = inr vector) as Hinsert.
  { rewrite lookup_insert. case_decide as Hw; [|by left].
    intros [= <-]. subst w. right. exists line, values.
    split; [by left | done]. }
  destruct (decide _); simpl; [done|].
  intros [Hold|(line' & values' & ? & ? & ?)]%IH; [by apply Hinsert|].
  right. exists line', values'. split; [by right | done].
Qed.

Lemma load_loop_complete (cap : N) (lines : list (list N))
    (glove : gmap (list N) (list F)) (line : list N) :
  (Embeddings.load_loop parse_float32 cap lines glove).1 = None →
  N.of_nat (size (Embeddings.load_loop parse_float32 cap lines glove).2)
  < cap →
  line ∈ lines →
  ∃ word values, split line = word :: values
    ∧ is_Some ((Embeddings.load_loop parse_float32 cap lines glove).2
               !! word).
Proof.
  revert glove. induction lines as [|l lines IH]; intros glove; simpl;
    [by intros _ _ ?%elem_of_nil|].
  destruct (split l) as [|w values] eqn:Hl; simpl; [done|].
  destruct (mapM parse_float32 values) as [e|v] eqn:Hvalues; simpl; [done|].
  destruct (decide _) as [Hfull|Hroom]; simpl; [lia|].
  intros Hnone Hsize [->|Hin]%elem_of_cons.
  - exists w, values. split; [done|]. apply load_loop_keeps.
    apply lookup_insert_is_Some'. by left.
  - by apply IH.
Qed.

End LoadingEmbeddings.

(** X12. [load_glove_embeddings] fills an empty table with at most 30000
    words in [fast_85_accuracy_model.py] and at most 50000 in
    [advanced_ensemble_model.py]. Every vector of the table was parsed from
    the numbers of a line that starts with its word. When the loop ends
    without exception and below the bound, every line of the file has given
    its word to the table; a missing file raises and leaves the table
    empty. *)
Theorem load_glove_embeddings_table `{Float64}
    (parse_float32 : list N → pyerr + F) (file : option (list (list N))) :
  let loaded cap :=
    Embeddings.load_glove_embeddings parse_float32 cap file ∅ in
  let sound cap :=
    N.of_nat (size (loaded cap).2) ≤ cap
    ∧ (file = None → loaded cap = (Some (Raised "FileNotFoundError"), ∅))
    ∧ (∀ word vector, (loaded cap).2 !! word = Some vector →
         ∃ lines line values,
           file = Some lines ∧ line ∈ lines ∧ split line = word :: values
           ∧ mapM parse_float32 values = inr vector)
    ∧ ((loaded cap).1 = None → N.of_nat (size (loaded cap).2) < cap →
         ∀ lines line, file = Some lines → line ∈ lines →
           ∃ word values, split line = word :: values
             ∧ is_Some ((loaded cap).2 !! word)) in
  sound Embeddings.fast_cap ∧ sound Embeddings.advanced_cap
  ∧ Embeddings.fast_cap = 30000 ∧ Embeddings.advanced_cap = 50000.
Proof.
  intros loaded sound.
  assert (∀ cap, 0 < cap → sound cap) as Hsound.
  { intros cap Hcap. unfold sound, loaded, Embeddings.load_glove_embeddings.
    destruct file as [lines|]; simpl.
    - split; [|split; [done|split]].
      + apply load_loop_cap. by rewrite map_size_empty.
      + intros word vector [Hempty|(line & values & ? & ? & ?)]
          %load_loop_vectors.
        * by rewrite lookup_empty in Hempty.
        * by exists lines, line, values.
      + intros Hnone Hsize lines' line [= <-] Hin.
        by apply load_loop_complete.
    - rewrite map_size_empty. split; [lia|]. split; [done|]. split.
      + intros word vector Hw. by rewrite lookup_empty in Hw.
      + done. }
  split; [by apply Hsound|]. split; [by apply Hsound|]. done.
Qed.


(** ** The advanced text features *)

Lemma ascii_clean_not_upper : @CleanNotUpper ascii_case.
Proof. intros c. simpl. char_solve. Qed.

Lemma filter_none {A} (f : A → bool) (l : list A) :
  Forall (λ x, f x = false) l → List.filter f l = [].
Proof. induction 1 as [|x l Hx _ IH]; simpl; [done|]. by rewrite Hx. Qed.

Section AdvancedRows.
Context `{PyStr} `{AdvancedFeatures.PyCase} `{Sklearn}.

(** [max(len(text), 1)] is no zero: the division returns. *)
Lemma truediv_guarded (a n : nat) :
  AdvancedFeatures.py_truediv a (max n 1)
  = inr (fdiv (f_of_nat a) (f_of_nat (max n 1))).
Proof.
  unfold AdvancedFeatures.py_truediv. destruct (max n 1) eqn:E; [lia|done].
Qed.

Lemma text_features_returns (text : list N) :
  ∃ row, AdvancedFeatures.text_features text = inr row
    ∧ length row = 14%nat
    ∧ to_f64 <$> row !! 0%nat = Some (f_of_nat (length text))
    ∧ to_f64 <$> row !! 6%nat
      = Some (fdiv (f_of_nat (length (List.filter AdvancedFeatures.isupper
                                        text)))
                (f_of_nat (max (length text) 1)))
    ∧ to_f64 <$> row !! 7%nat
      = Some (fdiv (f_of_nat (count_char 32 text))
                (f_of_nat (max (length text) 1))).
Proof.
  unfold AdvancedFeatures.text_features. rewrite !truediv_guarded. simpl.
  eexists. split; [done|]. done.
Qed.

Lemma advanced_features_loop_rows texts features :
  ∃ rows,
    AdvancedFeatures.advanced_features_loop texts features
    = inr (features ++ rows)
    ∧ Forall2 (λ text row, AdvancedFeatures.text_features text = inr row)
        texts rows.
Proof.
  revert features. induction texts as [|text texts IH]; intros features.
  - exists []. by rewrite app_nil_r.
  - destruct (text_features_returns text) as (row & Hrow & _).
    destruct (IH (features ++ [row])) as (rows & Hrows & Hall).
    exists (row :: rows). cbn [AdvancedFeatures.advanced_features_loop].
    rewrite Hrow. simpl. rewrite Hrows, <-app_assoc. by split; [|constructor].
Qed.

Lemma extract_advanced_features_rows texts :
  ∃ rows,
    AdvancedFeatures.extract_advanced_features texts
    = inr (map to_f64 <$> rows)
    ∧ Forall2 (λ text row, AdvancedFeatures.text_features text = inr row)
        texts rows.
Proof.
  destruct (advanced_features_loop_rows texts []) as (rows & Hrows & Hall).
  exists rows. unfold AdvancedFeatures.extract_advanced_features.
  by rewrite Hrows.
Qed.

End AdvancedRows.

(** X13. [extract_advanced_features] returns for every list of texts, the
    empty string included: [max(len(text), 1)] keeps the two ratios from
    dividing by zero. It returns one row of 14 entries per text; the row
    starts with the length of the text, and its entries 6 and 7 are the
    number of uppercase characters and of spaces over that length, or over 1
    for the empty string. *)
Theorem extract_advanced_features_returns `{PyStr} `{AdvancedFeatures.PyCase}
    `{Sklearn} (texts : list (list N)) :
  ∃ rows,
    AdvancedFeatures.extract_advanced_features texts = inr rows
    ∧ length rows = length texts
    ∧ ∀ i text, texts !! i = Some text →
        ∃ row, rows !! i = Some row
          ∧ length row = 14%nat
          ∧ row !! 0%nat = Some (f_of_nat (length text))
          ∧ row !! 6%nat
            = Some (fdiv (f_of_nat (length (List.filter
                                              AdvancedFeatures.isupper text)))
                      (f_of_nat (max (length text) 1)))
          ∧ row !! 7%nat
            = Some (fdiv (f_of_nat (count_char 32 text))
                      (f_of_nat (max (length text) 1))).
Proof.
  destruct (extract_advanced_features_rows texts) as (rows & -> & Hall).
  eexists. split; [done|]. split.
  - rewrite length_fmap. symmetry. by eapply Forall2_length.
  - intros i text Hi.
    destruct (Forall2_lookup_l _ _ _ _ _ Hall Hi) as (row & Hrow & Htext).
    destruct (text_features_returns text)
      as (row' & Hrow' & Hlen & Hfirst & Hupper & Hspace).
    rewrite Htext in Hrow'. injection Hrow' as <-.
    exists (to_f64 <$> row). rewrite list_lookup_fmap, Hrow.
    split; [done|]. rewrite length_fmap. split; [done|].
    by rewrite !list_lookup_fmap.
Qed.

Lemma advanced_dataset_texts `{PyStr} `{Sklearn} `{Pandas}
    (Hsample : SampleSelects) (csv : list csv_row) (text : list N) :
  text ∈ (AdvancedEnsembleModel.load_emotion_dataset csv).1 →
  (10 < length text)%nat
  ∧ ∃ raw, text = AdvancedEnsembleModel.advanced_preprocess_text raw.
Proof.
  unfold AdvancedEnsembleModel.load_emotion_dataset. simpl.
  intros (r & -> & Hr)%list_elem_of_fmap.
  apply (sampled_rows Hsample) in Hr.
  apply kept_rows in Hr as (_ & _ & _ & _ & Htext & Hlen).
  split; [done|]. by exists (Text r.1.1).
Qed.

(** X14. On the texts that [load_emotion_dataset] of
    [advanced_ensemble_model.py] returns, entry 6 of every row of
    [extract_advanced_features] (the uppercase ratio) is zero over the
    length of the text: the texts were lowercased, so the count of
    uppercase characters is always 0. *)
Theorem uppercase_ratio_of_dataset `{PyStr} `{AdvancedFeatures.PyCase}
    `{Sklearn} `{Pandas} (Hlow : LowerNoUpper) (Hupper : CleanNotUpper)
    (Hsample : SampleSelects) (csv : list csv_row) :
  let texts := (AdvancedEnsembleModel.load_emotion_dataset csv).1 in
  ∃ rows,
    AdvancedFeatures.extract_advanced_features texts = inr rows
    ∧ length rows = length texts
    ∧ ∀ i row, rows !! i = Some row →
        ∃ text, texts !! i = Some text
          ∧ (10 < length text)%nat
          ∧ row !! 6%nat
            = Some (fdiv (f_of_nat 0) (f_of_nat (length text))).
Proof.
  intros texts.
  destruct (extract_advanced_features_rows texts) as (rows & Hrows & Hall).
  exists (map to_f64 <$> rows). split; [done|]. split.
  { rewrite length_fmap. symmetry. by eapply Forall2_length. }
  intros i row Hi. rewrite list_lookup_fmap in Hi.
  destruct (rows !! i) as [r|] eqn:Hr; [|done]. injection Hi as <-.
  destruct (Forall2_lookup_r _ _ _ _ _ Hall Hr) as (text & Htext & Hfeat).
  destruct (text_features_returns text)
    as (row' & Hrow' & _ & _ & Hratio & _).
  rewrite Hfeat in Hrow'. injection Hrow' as <-.
  destruct (advanced_dataset_texts Hsample csv text) as (Hlong & raw & Hraw).
  { by eapply list_elem_of_lookup_2. }
  exists text. split; [done|]. split; [done|].
  assert (List.filter AdvancedFeatures.isupper text = []) as Hnone.
  { apply filter_none. rewrite Hraw.
    eapply Forall_impl; [by apply advanced_preprocess_chars|].
    intros c Hc. by apply Hupper. }
  rewrite list_lookup_fmap, Hratio, Hnone, Nat.max_l by lia. done.
Qed.

Lemma uppercase_ratio_of_dataset_witness :
  let csv :=
    [ {| Text := Val (txt "I am SO happy today!!");
         Emotion := Val (txt "happy") |};
      {| Text := Val (txt "meh"); Emotion := Val (txt "love") |} ] in
  let texts := (AdvancedEnsembleModel.load_emotion_dataset csv).1 in
  texts = [txt "i am so happy today!!"]
  ∧ ∃ rows,
      AdvancedFeatures.extract_advanced_features texts = inr rows
      ∧ length rows = length texts
      ∧ ∀ i row, rows !! i = Some row →
          ∃ text, texts !! i = Some text
            ∧ (10 < length text)%nat
            ∧ row !! 6%nat
              = Some (fdiv (f_of_nat 0) (f_of_nat (length text))).
Proof.
  intros csv texts. split; [vm_compute; reflexivity|].
  apply (uppercase_ratio_of_dataset ascii_lower_no_upper
           ascii_clean_not_upper first_rows_select csv).
Defined.

(** ** The advanced feature matrix *)

Section AdvancedMatrix.
Context `{PyStr} `{AdvancedFeatures.PyCase} `{Sklearn}.
Context (tfidf_fit_trigrams : list (list N) → pyerr + Vectorizer).

Lemma advanced_glove_features_ok (self : AdvancedEnsembleModel.model) texts :
  GloveShape (AdvancedEnsembleModel.glove_embeddings self) →
  mapM (λ text, AdvancedEnsembleModel.text_to_glove_vector self text 50) texts
  = inr ((λ text, mean_of_known_words_lower
                    (AdvancedEnsembleModel.glove_embeddings self) 50 text)
         <$> texts).
Proof.
  intros Hshape. apply mapM_result_spec.
  induction texts as [|text texts IH]; simpl; constructor; [|apply IH].
  unfold AdvancedEnsembleModel.text_to_glove_vector.
  rewrite advanced_glove_loop_mean by (done || apply length_replicate).
  apply mean_after_loop.
Qed.

Lemma mean_of_known_words_lower_length glove max_length text :
  GloveShape glove →
  length (mean_of_known_words_lower glove max_length text) = 100%nat.
Proof.
  intros Hshape. unfold mean_of_known_words_lower.
  destruct (known_vectors_lower glove max_length text) as [|v vs] eqn:Hk.
  - apply length_replicate.
  - rewrite length_fmap. apply vector_sum_length; [apply length_replicate|].
    rewrite <-Hk. apply Forall_forall. intros x Hx.
    apply list_elem_of_omap in Hx as (w & _ & Hw).
    destruct (glove !! w) eqn:Hg; [injection Hw as ->|]; by eapply Hshape.
Qed.

Lemma hstack3_widths (G T S : list (list F)) (g t s : nat) :
  Forall (λ row, length row = g) G → Forall (λ row, length row = t) T →
  Forall (λ row, length row = s) S →
  Forall (λ row, length row = (g + t + s)%nat)
    (zip_with app G (zip_with app T S)).
Proof.
  intros HG HT HS. apply Forall_forall. intros row Hrow.
  apply list_elem_of_lookup in Hrow as [i Hi].
  apply lookup_zip_with_Some in Hi as (x & y & -> & Hx & Hy).
  apply lookup_zip_with_Some in Hy as (y1 & y2 & -> & Hy1 & Hy2).
  rewrite !length_app.
  rewrite (proj1 (Forall_lookup _ _) HG _ _ Hx).
  rewrite (proj1 (Forall_lookup _ _) HT _ _ Hy1).
  rewrite (proj1 (Forall_lookup _ _) HS _ _ Hy2). lia.
Qed.

End AdvancedMatrix.

(** X15. For a non-empty list of [n] texts, on a table of 100-entry vectors
    and with a vectorizer of [T] features (fitted before, or fitted by this
    call), [prepare_advanced_features] returns [n] rows of [100 + T + 14]
    entries, and leaves the fitted vectorizer in the object. For an empty
    list it raises. *)
Theorem advanced_feature_matrix_shape `{PyStr} `{AdvancedFeatures.PyCase}
    `{Sklearn} (tfidf_fit_trigrams : list (list N) → pyerr + Vectorizer)
    (self : AdvancedEnsembleModel.model) (texts : list (list N))
    (v : Vectorizer)
    (Hglove : GloveShape (AdvancedEnsembleModel.glove_embeddings self))
    (Htfidf : TfidfShape)
    (Hfit : AdvancedEnsembleModel.tfidf_vectorizer self = Some (Fitted v)
            ∨ (AdvancedEnsembleModel.tfidf_vectorizer self = None
               ∧ tfidf_fit_trigrams texts = inr v)) :
  let result :=
    AdvancedFeatures.prepare_advanced_features tfidf_fit_trigrams self texts in
  AdvancedEnsembleModel.tfidf_vectorizer result.2 = Some (Fitted v)
  ∧ (texts = [] → result.1 = inl ValueError)
  ∧ (texts ≠ [] →
       ∃ M, result.1 = inr M
         ∧ length M = length texts
         ∧ Forall (λ row, length row = (100 + n_features v + 14)%nat) M).
Proof.
  intros result.
  destruct (extract_advanced_features_rows texts) as (rows & Hrows & Hall).
  set (G := (λ text, mean_of_known_words_lower
                       (AdvancedEnsembleModel.glove_embeddings self) 50 text)
            <$> texts).
  assert (∃ self',
            result = (np_hstack3 G (tfidf_row v <$> texts)
                        (map to_f64 <$> rows), self')
            ∧ AdvancedEnsembleModel.tfidf_vectorizer self'
              = Some (Fitted v)) as (self' & -> & Hself').
  { unfold result, AdvancedFeatures.prepare_advanced_features.
    rewrite advanced_glove_features_ok by done. fold G.
    destruct Hfit as [Hfit|[Hnone Hfit]].
    - rewrite Hfit. simpl. rewrite Hrows. by exists self.
    - rewrite Hnone, Hfit, Hrows. by eexists. }
  split; [done|]. split.
  - intros ->. done.
  - intros Hne. cbn [fst].
    assert (length rows = length texts) as Hlen
      by (symmetry; by eapply Forall2_length).
    rewrite hstack3_rows; [| by unfold G; destruct texts
                           | by unfold G; rewrite !length_fmap
                           | by unfold G; rewrite !length_fmap].
    eexists. split; [done|]. split.
    + unfold G. rewrite !length_zip_with, !length_fmap. lia.
    + apply hstack3_widths.
      * unfold G. apply Forall_fmap, Forall_forall. intros text _.
        by apply mean_of_known_words_lower_length.
      * apply Forall_fmap, Forall_forall. intros text _. apply Htfidf.
      * apply Forall_fmap, Forall_forall. intros row Hrow. simpl.
        rewrite length_fmap.
        apply list_elem_of_lookup in Hrow as [i Hi].
        destruct (Forall2_lookup_r _ _ _ _ _ Hall Hi) as (text & _ & Htext).
        destruct (text_features_returns text) as (row' & Hrow' & Hlen' & _).
        rewrite Htext in Hrow'. by injection Hrow' as <-.
Qed.

Lemma advanced_feature_matrix_shape_witness :
  let self :=
    {| AdvancedEnsembleModel.glove_embeddings := tiny_glove;
       AdvancedEnsembleModel.ensemble_model := None;
       AdvancedEnsembleModel.scaler := tt;
       AdvancedEnsembleModel.tfidf_vectorizer := None |} in
  let texts := [txt "good day!"; txt "bad"] in
  let result := AdvancedFeatures.prepare_advanced_features tfidf_fit self texts in
  AdvancedEnsembleModel.tfidf_vectorizer result.2
  = Some (Fitted [txt "good"; txt "day!"; txt "bad"])
  ∧ (texts = [] → result.1 = inl ValueError)
  ∧ (texts ≠ [] →
       ∃ M, result.1 = inr M
         ∧ length M = length texts
         ∧ Forall (λ row, length row = (100 + 3 + 14)%nat) M).
Proof.
  intros self texts.
  apply (advanced_feature_matrix_shape tfidf_fit self texts
           [txt "good"; txt "day!"; txt "bad"]).
  - apply tiny_glove_shape.
  - apply tiny_tfidf_shape.
  - right. split; vm_compute; reflexivity.
Defined.

(** ** From the saved files to the CoreML package *)

Section Exporting.
Context `{Sklearn} {MLModel : Type}.

Ltac listed :=
  repeat first [apply list_elem_of_here | apply list_elem_of_further].

Ltac unlisted H :=
  repeat (apply elem_of_cons in H as [H|H];
          [try discriminate H|]);
  try (by apply elem_of_nil in H).

Lemma load_components_files (w : world) :
  (∃ p, CoremlExport.load_components w = inr p)
  ↔ ∀ path, path ∈ component_files → is_Some (files w !! path).
Proof.
  unfold CoremlExport.load_components, CoremlExport.joblib_load,
    component_files.
  split.
  - intros [p Hp] path Hpath.
    destruct (files w !! "Fast85AccuracyModel_ensemble.joblib") eqn:H1;
      [|done].
    destruct (files w !! "Fast85AccuracyModel_scaler.joblib") eqn:H2; [|done].
    destruct (files w !! "Fast85AccuracyModel_tfidf.joblib") eqn:H3; [|done].
    destruct (files w !! "Fast85AccuracyModel_glove.joblib") eqn:H4; [|done].
    repeat (apply elem_of_cons in Hpath as [->|Hpath]; [by eexists|]).
    by apply elem_of_nil in Hpath.
  - intros Hall.
    destruct (Hall "Fast85AccuracyModel_ensemble.joblib") as [? ->]; [listed|].
    destruct (Hall "Fast85AccuracyModel_scaler.joblib") as [? ->]; [listed|].
    destruct (Hall "Fast85AccuracyModel_tfidf.joblib") as [? ->]; [listed|].
    destruct (Hall "Fast85AccuracyModel_glove.joblib") as [? ->]; [listed|].
    by eexists.
Qed.

Lemma main_converted (api : @CoremlExport.coreml_api _ _ MLModel) (w : world)
    (q : CoremlExport.predictor) :
  CoremlExport.Converted q ∈ CoremlExport.main api w
  ↔ CoremlExport.load_components w = inr q.
Proof.
  unfold CoremlExport.main, CoremlExport.create_coreml_model.
  destruct (CoremlExport.load_components w) as [e|p]; simpl.
  { split; [intros Hin; unlisted Hin | done]. }
  assert (CoremlExport.Converted q
          ∈ [CoremlExport.Converted p] → inr p = inr q
          :> pyerr + CoremlExport.predictor) as Hone.
  { intros Hin. apply elem_of_cons in Hin as [[= ->]|Hin]; [done|].
    by apply elem_of_nil in Hin. }
  destruct (CoremlExport.ct_convert api p) as [e|m]; simpl.
  { split; [|intros [= ->]; listed].
    intros Hin. apply Hone. unlisted Hin. by rewrite Hin; listed. }
  destruct (CoremlExport.set_metadata api m) as [e|m']; simpl.
  { split; [|intros [= ->]; listed].
    intros Hin. apply Hone. unlisted Hin. by rewrite Hin; listed. }
  destruct (CoremlExport.mlmodel_save api m' _) as [e|[]]; simpl.
  { split; [|intros [= ->]; listed].
    intros Hin. apply Hone. unlisted Hin. by rewrite Hin; listed. }
  split; [|intros [= ->]; listed].
  intros Hin. apply Hone. unlisted Hin. by rewrite Hin; listed.
Qed.

Lemma main_saved (api : @CoremlExport.coreml_api _ _ MLModel) (w : world) :
  ((∃ path, CoremlExport.SavedPackage path ∈ CoremlExport.main api w)
   ↔ CoremlExport.Printed "Conversion completed successfully!"
     ∈ CoremlExport.main api w)
  ∧ (CoremlExport.Printed "Make sure all model files are present:"
     ∈ CoremlExport.main api w
     ↔ CoremlExport.Printed "Conversion completed successfully!"
       ∉ CoremlExport.main api w)
  ∧ ∀ path, CoremlExport.SavedPackage path ∈ CoremlExport.main api w →
      path = "SmartJournalSentimentModel.mlpackage"%string.
Proof.
  unfold CoremlExport.main, CoremlExport.create_coreml_model.
  destruct (CoremlExport.load_components w) as [e|p]; simpl.
  { split; [split; [intros [path Hin]|intros Hin]; unlisted Hin|].
    split; [split; [intros _ Hin; unlisted Hin | intros _; listed]|].
    intros path Hin. unlisted Hin. }
  destruct (CoremlExport.ct_convert api p) as [e|m]; simpl.
  { split; [split; [intros [path Hin]|intros Hin]; unlisted Hin|].
    split; [split; [intros _ Hin; unlisted Hin | intros _; listed]|].
    intros path Hin. unlisted Hin. }
  destruct (CoremlExport.set_metadata api m) as [e|m']; simpl.
  { split; [split; [intros [path Hin]|intros Hin]; unlisted Hin|].
    split; [split; [intros _ Hin; unlisted Hin | intros _; listed]|].
    intros path Hin. unlisted Hin. }
  destruct (CoremlExport.mlmodel_save api m' _) as [e|[]]; simpl.
  { split; [split; [intros [path Hin]|intros Hin]; unlisted Hin|].
    split; [split; [intros _ Hin; unlisted Hin | intros _; listed]|].
    intros path Hin. unlisted Hin. }
  split; [split; [intros _; listed | intros _; eexists; listed]|].
  split; [split; [intros Hin; unlisted Hin | intros Hno; destruct Hno; listed]|].
  intros path Hin. unlisted Hin. by injection Hin as ->.
Qed.

End Exporting.

(** X16. What [save_optimized_model] writes under its default name is what
    [convert_to_coreml.py] reads: after the save of a trained model, the
    four [joblib.load] calls return the ensemble, the scaler, the vectorizer
    and the embedding table of the saved object, and the converter is called
    on the predictor built from them, and on nothing else. *)
Theorem saved_model_is_converted `{Sklearn} {MLModel : Type}
    (api : @CoremlExport.coreml_api _ _ MLModel)
    (self : Fast85AccuracyModel.model) (e : Ensemble) (w : world)
    (Htrained : Fast85AccuracyModel.ensemble_model self = Some e) :
  let saved :=
    Fast85AccuracyModel.save_optimized_model self "Fast85AccuracyModel" w in
  let p :=
    {| CoremlExport.ensemble_model := PickledEnsemble e;
       CoremlExport.scaler := PickledScaler (Fast85AccuracyModel.scaler self);
       CoremlExport.tfidf_vectorizer :=
         PickledTfidf (Fast85AccuracyModel.tfidf_vectorizer self);
       CoremlExport.glove_embeddings :=
         PickledGlove (Fast85AccuracyModel.glove_embeddings self) |} in
  saved.1 = true
  ∧ CoremlExport.load_components saved.2 = inr p
  ∧ ∀ q, CoremlExport.Converted q ∈ CoremlExport.main api saved.2 ↔ q = p.
Proof.
  intros saved p.
  assert (saved.1 = true ∧ CoremlExport.load_components saved.2 = inr p)
    as [Hreturned Hload].
  { unfold saved, Fast85AccuracyModel.save_optimized_model.
    rewrite Htrained. split; [done|].
    destruct (four_dumps "Fast85AccuracyModel" e
                (Fast85AccuracyModel.scaler self)
                (Fast85AccuracyModel.tfidf_vectorizer self)
                (Fast85AccuracyModel.glove_embeddings self) (files w))
      as (H1 & H2 & H3 & H4 & _).
    unfold CoremlExport.load_components, CoremlExport.joblib_load.
    cbn [snd files print joblib_dump].
    change (String.append "Fast85AccuracyModel" "_ensemble.joblib")
      with "Fast85AccuracyModel_ensemble.joblib"%string in *.
    change (String.append "Fast85AccuracyModel" "_scaler.joblib")
      with "Fast85AccuracyModel_scaler.joblib"%string in *.
    change (String.append "Fast85AccuracyModel" "_tfidf.joblib")
      with "Fast85AccuracyModel_tfidf.joblib"%string in *.
    change (String.append "Fast85AccuracyModel" "_glove.joblib")
      with "Fast85AccuracyModel_glove.joblib"%string in *.
    by rewrite H1, H2, H3, H4. }
  split; [done|]. split; [done|]. intros q. rewrite main_converted, Hload.
  split; [by intros [= <-] | by intros ->].
Qed.

Lemma saved_model_is_converted_witness :
  let self :=
    {| Fast85AccuracyModel.glove_embeddings := tiny_glove;
       Fast85AccuracyModel.ensemble_model := Some tt;
       Fast85AccuracyModel.scaler := tt;
       Fast85AccuracyModel.tfidf_vectorizer := Some (Fitted [txt "good"]) |} in
  let saved :=
    Fast85AccuracyModel.save_optimized_model self "Fast85AccuracyModel"
      {| files := ∅; stdout := [] |} in
  let p :=
    {| CoremlExport.ensemble_model := PickledEnsemble tt;
       CoremlExport.scaler := PickledScaler tt;
       CoremlExport.tfidf_vectorizer :=
         PickledTfidf (Some (Fitted [txt "good"]));
       CoremlExport.glove_embeddings := PickledGlove tiny_glove |} in
  saved.1 = true
  ∧ CoremlExport.load_components saved.2 = inr p
  ∧ ∀ q, CoremlExport.Converted q ∈ CoremlExport.main returning_api saved.2
         ↔ q = p.
Proof.
  intros self.
  apply (saved_model_is_converted returning_api self tt
           {| files := ∅; stdout := [] |}).
  reflexivity.
Defined.

(** X17. The [__main__] block of [convert_to_coreml.py] calls the converter
    exactly when the four component files are all there. It prints that the
    conversion completed exactly when the package was saved, and the package
    is saved under [SmartJournalSentimentModel.mlpackage] only. In every
    other run it prints the hint about missing model files, also when the
    files were all read and a call into coremltools raised. *)
Theorem conversion_needs_all_files `{Sklearn} {MLModel : Type}
    (api : @CoremlExport.coreml_api _ _ MLModel) (w : world) :
  let log := CoremlExport.main api w in
  ((∃ p, CoremlExport.Converted p ∈ log)
   ↔ ∀ path, path ∈ component_files → is_Some (files w !! path))
  ∧ ((∃ path, CoremlExport.SavedPackage path ∈ log)
     ↔ CoremlExport.Printed "Conversion completed successfully!" ∈ log)
  ∧ (CoremlExport.Printed "Make sure all model files are present:" ∈ log
     ↔ CoremlExport.Printed "Conversion completed successfully!" ∉ log)
  ∧ (∀ path, CoremlExport.SavedPackage path ∈ log →
       path = "SmartJournalSentimentModel.mlpackage"%string)
  ∧ (∀ p e, CoremlExport.load_components w = inr p →
       CoremlExport.ct_convert api p = inl e →
       CoremlExport.Printed "Make sure all model files are present:" ∈ log).
Proof.
  intros log. destruct (main_saved api w) as (Hsaved & Hhint & Hpath).
  split.
  { rewrite <-load_components_files. split.
    - intros [p Hp]. exists p. by apply (main_converted api w p).
    - intros [p Hp]. exists p. by apply (main_converted api w p). }
  split; [done|]. split; [done|]. split; [done|].
  intros p e Hload Hconvert. apply Hhint. intros Hdone.
  apply Hsaved in Hdone as [path Hin]. revert Hin.
  unfold log, CoremlExport.main, CoremlExport.create_coreml_model.
  rewrite Hload. simpl. rewrite Hconvert. simpl. intros Hin.
  repeat (apply elem_of_cons in Hin as [Hin|Hin]; [discriminate Hin|]).
  by apply elem_of_nil in Hin.
Qed.

(** ** The files of the other scripts *)

Section OtherFiles.
Context `{Sklearn}.

Lemma load_components_frame (w w' : world) :
  (∀ path, path ∈ component_files → files w' !! path = files w !! path) →
  CoremlExport.load_components w' = CoremlExport.load_components w.
Proof.
  intros Hsame. unfold CoremlExport.load_components, CoremlExport.joblib_load.
  rewrite !Hsame; [done | unfold component_files..];
    repeat first [apply list_elem_of_here | apply list_elem_of_further].
Qed.

End OtherFiles.

(** X18. [save_random_forest_model] returns [True] exactly when the object
    holds both a forest and a vectorizer; it then leaves them in the two
    files [<name>_rf.joblib] and [<name>_tfidf.joblib], and otherwise prints
    one line. No other file is touched, so that under its default name, as
    [save_advanced_ensemble] under its own, it leaves what
    [convert_to_coreml.py] reads as it was. *)
Theorem other_savers_keep_components `{Sklearn}
    (trainer : RandomForestModel.trainer)
    (advanced : AdvancedEnsembleModel.model) (model_name : string)
    (w : world) :
  let saved :=
    RandomForestModel.save_random_forest_model trainer model_name w in
  (saved.1 = true
   ↔ is_Some (RandomForestModel.random_forest_model trainer)
     ∧ is_Some (RandomForestModel.tfidf_vectorizer trainer))
  ∧ (saved.1 = true →
       files saved.2 !! (model_name +:+ "_rf.joblib")
       = PickledEnsemble <$> RandomForestModel.random_forest_model trainer
       ∧ files saved.2 !! (model_name +:+ "_tfidf.joblib")
         = Some (PickledTfidf (RandomForestModel.tfidf_vectorizer trainer)))
  ∧ (saved.1 = false →
       saved.2 = print "No Random Forest model to save" w)
  ∧ (∀ path, path ≠ model_name +:+ "_rf.joblib" →
       path ≠ model_name +:+ "_tfidf.joblib" →
       files saved.2 !! path = files w !! path)
  ∧ CoremlExport.load_components
      (RandomForestModel.save_random_forest_model trainer
         "EmotionSentimentModel" w).2
    = CoremlExport.load_components w
  ∧ CoremlExport.load_components
      (AdvancedEnsembleModel.save_advanced_ensemble advanced
         "AdvancedEnsembleModel" w).2
    = CoremlExport.load_components w.
Proof.
  intros saved.
  assert (∀ name path, path ≠ name +:+ "_rf.joblib" →
            path ≠ name +:+ "_tfidf.joblib" →
            files (RandomForestModel.save_random_forest_model trainer name
                     w).2 !! path = files w !! path) as Hframe.
  { intros name path Hrf Htfidf.
    unfold RandomForestModel.save_random_forest_model.
    destruct (RandomForestModel.random_forest_model trainer) as [rf|];
      [|done].
    destruct (RandomForestModel.tfidf_vectorizer trainer) as [tfidf|];
      [|done].
    cbn [snd files print joblib_dump]. by rewrite !lookup_insert_ne. }
  split; [|split; [|split; [|split; [|split]]]].
  - unfold saved, RandomForestModel.save_random_forest_model.
    destruct (RandomForestModel.random_forest_model trainer) as [rf|];
      [|by split; [|intros [[??] _]]].
    destruct (RandomForestModel.tfidf_vectorizer trainer) as [tfidf|];
      [|by split; [|intros [_ [??]]]].
    by split.
  - unfold saved, RandomForestModel.save_random_forest_model.
    destruct (RandomForestModel.random_forest_model trainer) as [rf|];
      [|done].
    destruct (RandomForestModel.tfidf_vectorizer trainer) as [tfidf|];
      [|done].
    intros _. cbn [fst snd files print joblib_dump]. split.
    + rewrite lookup_insert_ne by (by apply suffix_differs).
      by rewrite lookup_insert_eq.
    + by rewrite lookup_insert_eq.
  - unfold saved, RandomForestModel.save_random_forest_model.
    destruct (RandomForestModel.random_forest_model trainer) as [rf|];
      [|done].
    by destruct (RandomForestModel.tfidf_vectorizer trainer) as [tfidf|].
  - apply Hframe.
  - apply load_components_frame. intros path Hpath. apply Hframe.
    + intros ->. revert Hpath. apply (bool_decide_unpack _). by vm_compute.
    + intros ->. revert Hpath. apply (bool_decide_unpack _). by vm_compute.
  - apply load_components_frame. intros path Hpath.
    unfold AdvancedEnsembleModel.save_advanced_ensemble.
    destruct (AdvancedEnsembleModel.ensemble_model advanced) as [e|];
      [|done].
    cbn [snd files print joblib_dump].
    rewrite !lookup_insert_ne; [done|..]; intros <-; revert Hpath;
      apply (bool_decide_unpack _); by vm_compute.
Qed.
